(** * Helios KWL EC270/370 Pro bus control: a shallow embedding of [main.cc]

    The program listens on a serial bus, slices the byte stream into
    checksummed pakets at idle gaps ([Kwl::got_frame]), and answers the
    master's poll of device 0x13 with one frame of its own
    ([Kwl::our_turn]).  This file embeds the paket codec ([Paket],
    [Kwl::send_frame]), the turn handler, the frame decoder and the driver
    loop of [main], and proves properties of them.

    Conventions.  C integers are [Z] with the wrap-around of their type
    written out ([wrap8], [wrap16], [wrap32], [wrap64]).  A byte buffer is a
    [list Z]; a pointer into a buffer is the list of bytes from that position
    on.  Terminal output is recorded as [Stdout] events carrying the message
    and the numbers formatted into it; a call of write(2) on the serial port
    is a [SerialWrite] event carrying the bytes handed over.  Cursor and scroll
    region handling ([get_y], [set_y], [set_maxy]) and the 5 ms settle delay
    leave no trace in the model. *)

From Stdlib Require Import ZArith Lia Bool.
From stdpp Require Import base tactics option list strings.

Open Scope Z_scope.

(** ** Machine integers *)

Definition wrap8  (x : Z) : Z := x mod 256.
Definition wrap16 (x : Z) : Z := x mod 65536.
Definition wrap32 (x : Z) : Z := x mod 4294967296.
Definition wrap64 (x : Z) : Z := x mod 18446744073709551616.

(** The [int] that [printf] shows for a 32-bit [unsigned] argument under
    [%d]. *)
Definition as_int (x : Z) : Z :=
  if x <? 2147483648 then x else x - 4294967296.

(** [buf[i]]; a read past the end of the modelled bytes yields 0. *)
Definition at8 (buf : list Z) (i : Z) : Z := default 0 (buf !! Z.to_nat i).

(** [*(uint16_t * )&buf[i]] and [*(uint32_t * )&buf[i]] on a little-endian
    host (the program only runs on such). *)
Definition load16 (buf : list Z) (i : Z) : Z :=
  Z.lor (at8 buf i) (Z.shiftl (at8 buf (i + 1)) 8).

Definition load32 (buf : list Z) (i : Z) : Z :=
  Z.lor (Z.lor (at8 buf i) (Z.shiftl (at8 buf (i + 1)) 8))
        (Z.lor (Z.shiftl (at8 buf (i + 2)) 16) (Z.shiftl (at8 buf (i + 3)) 24)).

(** The checksum loop shared by [Paket::is_valid_checksum] and
    [Kwl::send_frame]: [uint8_t chksum = 0; for (i = 0; i < n; ++i)
    chksum += buf[i];]. *)
Definition sum8 (buf : list Z) (n : Z) : Z :=
  foldl (fun chksum b => wrap8 (chksum + b)) 0 (take (Z.to_nat n) buf).

(** ** The variable catalogue (the enum at the top of the file) *)

Definition Var_00_calendar_mon     : Z := 0x00.
Definition Var_06_calendar_sun     : Z := 0x06.
Definition Var_08_time_hour_min    : Z := 0x08.
Definition Var_0e_preheat_temp     : Z := 0x0e.
Definition Var_0f_party_enabled    : Z := 0x0f.
Definition Var_10_party_curr_time  : Z := 0x10.
Definition Var_11_party_time       : Z := 0x11.
Definition Var_14_ext_contact      : Z := 0x14.
Definition Var_15_hours_on         : Z := 0x15.
Definition Var_16_fan_1_voltage    : Z := 0x16.
Definition Var_17_fan_2_voltage    : Z := 0x17.
Definition Var_18_fan_3_voltage    : Z := 0x18.
Definition Var_19_fan_4_voltage    : Z := 0x19.
Definition Var_1e_bypass1_temp     : Z := 0x1e.
Definition Var_35_fan_level        : Z := 0x35.
Definition Var_38_change_filter    : Z := 0x38.
Definition Var_3a_sensors_temp     : Z := 0x3a.
Definition Var_3b_sensors_co2      : Z := 0x3b.
Definition Var_3c_sensors_humidity : Z := 0x3c.
Definition Var_42_party_level      : Z := 0x42.
Definition Var_49_nachlaufzeit     : Z := 0x49.
Definition Var_4f_preheat_enabled  : Z := 0x4f.
Definition Var_50_preheat_temp     : Z := 0x50.
Definition Var_54_quiet_curr_time  : Z := 0x54.
Definition Var_55_quiet_enabled    : Z := 0x55.
Definition Var_56_quiet_time       : Z := 0x56.
Definition Var_57_quiet_level      : Z := 0x57.
Definition Var_60_bypass2_temp     : Z := 0x60.

(** ** Observable effects *)

Inductive Out : Type :=
| SerialWrite (bytes : list Z)
| Stdout (what : string) (args : list Z).

Definition is_print (o : Out) : bool :=
  match o with SerialWrite _ => false | Stdout _ _ => true end.

(** The frames handed to the serial port, in order. *)
Definition writes (os : list Out) : list (list Z) :=
  omap (fun o => match o with SerialWrite b => Some b | Stdout _ _ => None end) os.

(** The diagnostics printed, in order. *)
Definition prints (os : list Out) : list Out := filter (fun o => is_print o = true) os.

(** ** class Paket *)

Record Paket : Type := mkPaket {
  _buf      : list Z;
  _size     : Z;
  _is_valid : bool
}.

Module Paket.

Definition is_valid_checksum (p : Paket) : bool :=
  let chksum := sum8 (_buf p) (_size p - 1) in
  let chksum := wrap8 (chksum + 1) in
  chksum =? at8 (_buf p) (_size p - 1).

Definition new_paket (buf : list Z) (size : Z) : Paket :=
  if 4 <=? size then
    let size := if 4 + at8 buf 2 <? size then 4 + at8 buf 2 else size in
    mkPaket buf size (is_valid_checksum (mkPaket buf size false))
  else
    mkPaket buf size false.

Definition u8 (p : Paket) (i : Z) : Z :=
  if i <? _size p then at8 (_buf p) (4 + i) else 0.

Definition u16 (p : Paket) (i : Z) : Z :=
  if i + 4 + 2 * i <? _size p then load16 (_buf p) (4 + 2 * i) else 0.

Definition u32 (p : Paket) (i : Z) : Z :=
  if i + 4 + 4 * i <? _size p then load32 (_buf p) (4 + 4 * i) else 0.

Definition dsize (p : Paket) : Z := at8 (_buf p) 2.

Definition is_start_status (p : Paket) : bool :=
  (at8 (_buf p) 0 =? 0xff) && (at8 (_buf p) 1 =? 0xff).

Definition is_start_addr (p : Paket) : bool :=
  _is_valid p && (0x10 <=? at8 (_buf p) 0) && (at8 (_buf p) 0 <=? 0x13).

Definition is_ping (p : Paket) (b0 : Z) : bool :=
  _is_valid p && (at8 (_buf p) 0 =? b0) && (at8 (_buf p) 1 =? 0)
  && (dsize p =? 0).

Definition is_status (p : Paket) (idx size : Z) : bool :=
  _is_valid p && (at8 (_buf p) 1 =? 1) && (dsize p =? size)
  && (at8 (_buf p) 3 =? idx).

Definition is_ack_10 (p : Paket) : bool :=
  _is_valid p && (at8 (_buf p) 0 =? 0x10) && (at8 (_buf p) 1 =? 5)
  && (dsize p =? 2) && (at8 (_buf p) 4 =? 0x55).

Definition is_request (p : Paket) (idx : Z) : bool :=
  _is_valid p && (at8 (_buf p) 1 =? 0) && (dsize p =? 1)
  && (at8 (_buf p) 3 =? idx).

Definition is_fan_no_change (p : Paket) : bool :=
  _is_valid p && (at8 (_buf p) 1 =? 1) && (dsize p =? 3)
  && (at8 (_buf p) 3 =? Var_35_fan_level)
  && (at8 (_buf p) 4 =? 0xaa) && (at8 (_buf p) 5 =? 0xbb).

(** [print(prefix, suppress_chksum)]: the first
    [_size - suppress_chksum] bytes in hex after the prefix. *)
Definition print (p : Paket) (prefix : string) (suppress_chksum : bool) : Out :=
  Stdout prefix
    (take (Z.to_nat (_size p - (if suppress_chksum then 1 else 0))) (_buf p)).

(** [print_status]: the status line made of the broadcast paket and the
    snapshot values passed in, one event per [printf].  A sensor slot or a
    value that holds its "not known" mark is left out, as in the source;
    the progress spinner is not part of the model. *)
Definition print_status (p : Paket) (temp : list Z)
    (bypass party quiet : Z) (at_bottom : bool) : list Out :=
  if negb (_size p =? 27) then
    [Stdout "wrong broadcast size" [as_int (_size p)]]
  else
    let b := at8 (_buf p) in
    let temp_idx := [0; 3; 1; 2] in
    [Stdout "status" [b 4; b 3; b 5; b 6; b 7; b 8; b 10; b 9;
                      if at_bottom then 1 else 0]]
    ++ flat_map
         (fun i => if negb (at8 temp i =? 9990)
                   then let j := at8 temp_idx i in [Stdout "temp" [j; at8 temp j]]
                   else [])
         [0; 1; 2; 3]
    ++ (if negb (bypass =? 0xffff) then [Stdout "bypass" [bypass]] else [])
    ++ (if negb (party =? 0) then [Stdout "party" [party]] else [])
    ++ (if negb (quiet =? 0) then [Stdout "quiet" [quiet]] else []).

(** The sensor dumps print the four 16-bit values behind the header that
    differ from the "no sensor" mark. *)
Definition print_got_co2 (p : Paket) : Out :=
  Stdout "CO2"
    (filter (fun v => v <> 9999)
            (map (fun i => load16 (_buf p) (4 + 2 * i)) [0; 1; 2; 3])).

Definition print_got_humidity (p : Paket) : Out :=
  Stdout "humidity"
    (filter (fun v => v <> 999)
            (map (fun i => load16 (_buf p) (4 + 2 * i)) [0; 1; 2; 3])).

End Paket.


(** ** class Kwl

    The record holds the data members of [Kwl] in declaration order.  Its
    last three fields are the statics the member functions read and write:
    the call counter [our_cnt] local to [our_turn] and the file-scope flags
    [_terminate] and [_interactive]. *)

Record Kwl : Type := mkKwl {
  _p                    : Paket;
  _temp                 : list Z;
  _pakets_received      : Z;
  _sp                   : Z;
  _first_frame          : bool;
  _status_buf           : list Z;
  _fan_level            : Z;
  _fan_auto             : Z;
  _bypass               : Z;
  _party                : Z;
  _quiet                : Z;
  opt_do_loop           : bool;
  opt_set_time          : Z;
  opt_set_bypass        : Z;
  opt_set_fan           : Z;
  opt_set_party         : Z;
  opt_set_quiet         : Z;
  opt_set_voltage       : Z;
  opt_get_bypass        : Z;
  opt_get_cal           : Z;
  opt_get_hours_on      : bool;
  opt_get_party_enabled : bool;
  opt_get_party_time    : bool;
  opt_get_party_level   : bool;
  opt_get_quiet_enabled : bool;
  opt_get_quiet_time    : bool;
  opt_get_quiet_level   : bool;
  opt_get_voltage       : Z;
  opt_get_preheating    : Z;
  opt_get_run_on_time   : bool;
  opt_get_filter_time   : bool;
  opt_verbose           : bool;
  initial_temp          : bool;
  our_cnt               : Z;
  _terminate            : bool;
  _interactive          : bool
}.

Definition set_p (v : Paket) (s : Kwl) : Kwl :=
  mkKwl v (_temp s) (_pakets_received s) (_sp s) (_first_frame s)
    (_status_buf s) (_fan_level s) (_fan_auto s) (_bypass s) (_party s)
    (_quiet s) (opt_do_loop s) (opt_set_time s) (opt_set_bypass s)
    (opt_set_fan s) (opt_set_party s) (opt_set_quiet s) (opt_set_voltage s)
    (opt_get_bypass s) (opt_get_cal s) (opt_get_hours_on s)
    (opt_get_party_enabled s) (opt_get_party_time s) (opt_get_party_level s)
    (opt_get_quiet_enabled s) (opt_get_quiet_time s) (opt_get_quiet_level s)
    (opt_get_voltage s) (opt_get_preheating s) (opt_get_run_on_time s)
    (opt_get_filter_time s) (opt_verbose s) (initial_temp s) (our_cnt s)
    (_terminate s) (_interactive s).

Definition set_temp (v : list Z) (s : Kwl) : Kwl :=
  mkKwl (_p s) v (_pakets_received s) (_sp s) (_first_frame s)
    (_status_buf s) (_fan_level s) (_fan_auto s) (_bypass s) (_party s)
    (_quiet s) (opt_do_loop s) (opt_set_time s) (opt_set_bypass s)
    (opt_set_fan s) (opt_set_party s) (opt_set_quiet s) (opt_set_voltage s)
    (opt_get_bypass s) (opt_get_cal s) (opt_get_hours_on s)
    (opt_get_party_enabled s) (opt_get_party_time s) (opt_get_party_level s)
    (opt_get_quiet_enabled s) (opt_get_quiet_time s) (opt_get_quiet_level s)
    (opt_get_voltage s) (opt_get_preheating s) (opt_get_run_on_time s)
    (opt_get_filter_time s) (opt_verbose s) (initial_temp s) (our_cnt s)
    (_terminate s) (_interactive s).

Definition set_pakets_received (v : Z) (s : Kwl) : Kwl :=
  mkKwl (_p s) (_temp s) v (_sp s) (_first_frame s) (_status_buf s)
    (_fan_level s) (_fan_auto s) (_bypass s) (_party s) (_quiet s)
    (opt_do_loop s) (opt_set_time s) (opt_set_bypass s) (opt_set_fan s)
    (opt_set_party s) (opt_set_quiet s) (opt_set_voltage s)
    (opt_get_bypass s) (opt_get_cal s) (opt_get_hours_on s)
    (opt_get_party_enabled s) (opt_get_party_time s) (opt_get_party_level s)
    (opt_get_quiet_enabled s) (opt_get_quiet_time s) (opt_get_quiet_level s)
    (opt_get_voltage s) (opt_get_preheating s) (opt_get_run_on_time s)
    (opt_get_filter_time s) (opt_verbose s) (initial_temp s) (our_cnt s)
    (_terminate s) (_interactive s).

Definition set_sp (v : Z) (s : Kwl) : Kwl :=
  mkKwl (_p s) (_temp s) (_pakets_received s) v (_first_frame s)
    (_status_buf s) (_fan_level s) (_fan_auto s) (_bypass s) (_party s)
    (_quiet s) (opt_do_loop s) (opt_set_time s) (opt_set_bypass s)
    (opt_set_fan s) (opt_set_party s) (opt_set_quiet s) (opt_set_voltage s)
    (opt_get_bypass s) (opt_get_cal s) (opt_get_hours_on s)
    (opt_get_party_enabled s) (opt_get_party_time s) (opt_get_party_level s)
    (opt_get_quiet_enabled s) (opt_get_quiet_time s) (opt_get_quiet_level s)
    (opt_get_voltage s) (opt_get_preheating s) (opt_get_run_on_time s)
    (opt_get_filter_time s) (opt_verbose s) (initial_temp s) (our_cnt s)
    (_terminate s) (_interactive s).

Definition set_first_frame (v : bool) (s : Kwl) : Kwl :=
  mkKwl (_p s) (_temp s) (_pakets_received s) (_sp s) v (_status_buf s)
    (_fan_level s) (_fan_auto s) (_bypass s) (_party s) (_quiet s)
    (opt_do_loop s) (opt_set_time s) (opt_set_bypass s) (opt_set_fan s)
    (opt_set_party s) (opt_set_quiet s) (opt_set_voltage s)
    (opt_get_bypass s) (opt_get_cal s) (opt_get_hours_on s)
    (opt_get_party_enabled s) (opt_get_party_time s) (opt_get_party_level s)
    (opt_get_quiet_enabled s) (opt_get_quiet_time s) (opt_get_quiet_level s)
    (opt_get_voltage s) (opt_get_preheating s) (opt_get_run_on_time s)
    (opt_get_filter_time s) (opt_verbose s) (initial_temp s) (our_cnt s)
    (_terminate s) (_interactive s).

Definition set_status_buf (v : list Z) (s : Kwl) : Kwl :=
  mkKwl (_p s) (_temp s) (_pakets_received s) (_sp s) (_first_frame s) v
    (_fan_level s) (_fan_auto s) (_bypass s) (_party s) (_quiet s)
    (opt_do_loop s) (opt_set_time s) (opt_set_bypass s) (opt_set_fan s)
    (opt_set_party s) (opt_set_quiet s) (opt_set_voltage s)
    (opt_get_bypass s) (opt_get_cal s) (opt_get_hours_on s)
    (opt_get_party_enabled s) (opt_get_party_time s) (opt_get_party_level s)
    (opt_get_quiet_enabled s) (opt_get_quiet_time s) (opt_get_quiet_level s)
    (opt_get_voltage s) (opt_get_preheating s) (opt_get_run_on_time s)
    (opt_get_filter_time s) (opt_verbose s) (initial_temp s) (our_cnt s)
    (_terminate s) (_interactive s).

Definition set_fan_level (v : Z) (s : Kwl) : Kwl :=
  mkKwl (_p s) (_temp s) (_pakets_received s) (_sp s) (_first_frame s)
    (_status_buf s) v (_fan_auto s) (_bypass s) (_party s) (_quiet s)
    (opt_do_loop s) (opt_set_time s) (opt_set_bypass s) (opt_set_fan s)
    (opt_set_party s) (opt_set_quiet s) (opt_set_voltage s)
    (opt_get_bypass s) (opt_get_cal s) (opt_get_hours_on s)
    (opt_get_party_enabled s) (opt_get_party_time s) (opt_get_party_level s)
    (opt_get_quiet_enabled s) (opt_get_quiet_time s) (opt_get_quiet_level s)
    (opt_get_voltage s) (opt_get_preheating s) (opt_get_run_on_time s)
    (opt_get_filter_time s) (opt_verbose s) (initial_temp s) (our_cnt s)
    (_terminate s) (_interactive s).

Definition set_fan_auto (v : Z) (s : Kwl) : Kwl :=
  mkKwl (_p s) (_temp s) (_pakets_received s) (_sp s) (_first_frame s)
    (_status_buf s) (_fan_level s) v (_bypass s) (_party s) (_quiet s)
    (opt_do_loop s) (opt_set_time s) (opt_set_bypass s) (opt_set_fan s)
    (opt_set_party s) (opt_set_quiet s) (opt_set_voltage s)
    (opt_get_bypass s) (opt_get_cal s) (opt_get_hours_on s)
    (opt_get_party_enabled s) (opt_get_party_time s) (opt_get_party_level s)
    (opt_get_quiet_enabled s) (opt_get_quiet_time s) (opt_get_quiet_level s)
    (opt_get_voltage s) (opt_get_preheating s) (opt_get_run_on_time s)
    (opt_get_filter_time s) (opt_verbose s) (initial_temp s) (our_cnt s)
    (_terminate s) (_interactive s).

Definition set_bypass (v : Z) (s : Kwl) : Kwl :=
  mkKwl (_p s) (_temp s) (_pakets_received s) (_sp s) (_first_frame s)
    (_status_buf s) (_fan_level s) (_fan_auto s) v (_party s) (_quiet s)
    (opt_do_loop s) (opt_set_time s) (opt_set_bypass s) (opt_set_fan s)
    (opt_set_party s) (opt_set_quiet s) (opt_set_voltage s)
    (opt_get_bypass s) (opt_get_cal s) (opt_get_hours_on s)
    (opt_get_party_enabled s) (opt_get_party_time s) (opt_get_party_level s)
    (opt_get_quiet_enabled s) (opt_get_quiet_time s) (opt_get_quiet_level s)
    (opt_get_voltage s) (opt_get_preheating s) (opt_get_run_on_time s)
    (opt_get_filter_time s) (opt_verbose s) (initial_temp s) (our_cnt s)
    (_terminate s) (_interactive s).

Definition set_party (v : Z) (s : Kwl) : Kwl :=
  mkKwl (_p s) (_temp s) (_pakets_received s) (_sp s) (_first_frame s)
    (_status_buf s) (_fan_level s) (_fan_auto s) (_bypass s) v (_quiet s)
    (opt_do_loop s) (opt_set_time s) (opt_set_bypass s) (opt_set_fan s)
    (opt_set_party s) (opt_set_quiet s) (opt_set_voltage s)
    (opt_get_bypass s) (opt_get_cal s) (opt_get_hours_on s)
    (opt_get_party_enabled s) (opt_get_party_time s) (opt_get_party_level s)
    (opt_get_quiet_enabled s) (opt_get_quiet_time s) (opt_get_quiet_level s)
    (opt_get_voltage s) (opt_get_preheating s) (opt_get_run_on_time s)
    (opt_get_filter_time s) (opt_verbose s) (initial_temp s) (our_cnt s)
    (_terminate s) (_interactive s).

Definition set_quiet (v : Z) (s : Kwl) : Kwl :=
  mkKwl (_p s) (_temp s) (_pakets_received s) (_sp s) (_first_frame s)
    (_status_buf s) (_fan_level s) (_fan_auto s) (_bypass s) (_party s) v
    (opt_do_loop s) (opt_set_time s) (opt_set_bypass s) (opt_set_fan s)
    (opt_set_party s) (opt_set_quiet s) (opt_set_voltage s)
    (opt_get_bypass s) (opt_get_cal s) (opt_get_hours_on s)
    (opt_get_party_enabled s) (opt_get_party_time s) (opt_get_party_level s)
    (opt_get_quiet_enabled s) (opt_get_quiet_time s) (opt_get_quiet_level s)
    (opt_get_voltage s) (opt_get_preheating s) (opt_get_run_on_time s)
    (opt_get_filter_time s) (opt_verbose s) (initial_temp s) (our_cnt s)
    (_terminate s) (_interactive s).

Definition set_opt_set_time (v : Z) (s : Kwl) : Kwl :=
  mkKwl (_p s) (_temp s) (_pakets_received s) (_sp s) (_first_frame s)
    (_status_buf s) (_fan_level s) (_fan_auto s) (_bypass s) (_party s)
    (_quiet s) (opt_do_loop s) v (opt_set_bypass s) (opt_set_fan s)
    (opt_set_party s) (opt_set_quiet s) (opt_set_voltage s)
    (opt_get_bypass s) (opt_get_cal s) (opt_get_hours_on s)
    (opt_get_party_enabled s) (opt_get_party_time s) (opt_get_party_level s)
    (opt_get_quiet_enabled s) (opt_get_quiet_time s) (opt_get_quiet_level s)
    (opt_get_voltage s) (opt_get_preheating s) (opt_get_run_on_time s)
    (opt_get_filter_time s) (opt_verbose s) (initial_temp s) (our_cnt s)
    (_terminate s) (_interactive s).

Definition set_opt_set_bypass (v : Z) (s : Kwl) : Kwl :=
  mkKwl (_p s) (_temp s) (_pakets_received s) (_sp s) (_first_frame s)
    (_status_buf s) (_fan_level s) (_fan_auto s) (_bypass s) (_party s)
    (_quiet s) (opt_do_loop s) (opt_set_time s) v (opt_set_fan s)
    (opt_set_party s) (opt_set_quiet s) (opt_set_voltage s)
    (opt_get_bypass s) (opt_get_cal s) (opt_get_hours_on s)
    (opt_get_party_enabled s) (opt_get_party_time s) (opt_get_party_level s)
    (opt_get_quiet_enabled s) (opt_get_quiet_time s) (opt_get_quiet_level s)
    (opt_get_voltage s) (opt_get_preheating s) (opt_get_run_on_time s)
    (opt_get_filter_time s) (opt_verbose s) (initial_temp s) (our_cnt s)
    (_terminate s) (_interactive s).

Definition set_opt_set_fan (v : Z) (s : Kwl) : Kwl :=
  mkKwl (_p s) (_temp s) (_pakets_received s) (_sp s) (_first_frame s)
    (_status_buf s) (_fan_level s) (_fan_auto s) (_bypass s) (_party s)
    (_quiet s) (opt_do_loop s) (opt_set_time s) (opt_set_bypass s) v
    (opt_set_party s) (opt_set_quiet s) (opt_set_voltage s)
    (opt_get_bypass s) (opt_get_cal s) (opt_get_hours_on s)
    (opt_get_party_enabled s) (opt_get_party_time s) (opt_get_party_level s)
    (opt_get_quiet_enabled s) (opt_get_quiet_time s) (opt_get_quiet_level s)
    (opt_get_voltage s) (opt_get_preheating s) (opt_get_run_on_time s)
    (opt_get_filter_time s) (opt_verbose s) (initial_temp s) (our_cnt s)
    (_terminate s) (_interactive s).

Definition set_opt_set_party (v : Z) (s : Kwl) : Kwl :=
  mkKwl (_p s) (_temp s) (_pakets_received s) (_sp s) (_first_frame s)
    (_status_buf s) (_fan_level s) (_fan_auto s) (_bypass s) (_party s)
    (_quiet s) (opt_do_loop s) (opt_set_time s) (opt_set_bypass s)
    (opt_set_fan s) v (opt_set_quiet s) (opt_set_voltage s)
    (opt_get_bypass s) (opt_get_cal s) (opt_get_hours_on s)
    (opt_get_party_enabled s) (opt_get_party_time s) (opt_get_party_level s)
    (opt_get_quiet_enabled s) (opt_get_quiet_time s) (opt_get_quiet_level s)
    (opt_get_voltage s) (opt_get_preheating s) (opt_get_run_on_time s)
    (opt_get_filter_time s) (opt_verbose s) (initial_temp s) (our_cnt s)
    (_terminate s) (_interactive s).

Definition set_opt_set_quiet (v : Z) (s : Kwl) : Kwl :=
  mkKwl (_p s) (_temp s) (_pakets_received s) (_sp s) (_first_frame s)
    (_status_buf s) (_fan_level s) (_fan_auto s) (_bypass s) (_party s)
    (_quiet s) (opt_do_loop s) (opt_set_time s) (opt_set_bypass s)
    (opt_set_fan s) (opt_set_party s) v (opt_set_voltage s)
    (opt_get_bypass s) (opt_get_cal s) (opt_get_hours_on s)
    (opt_get_party_enabled s) (opt_get_party_time s) (opt_get_party_level s)
    (opt_get_quiet_enabled s) (opt_get_quiet_time s) (opt_get_quiet_level s)
    (opt_get_voltage s) (opt_get_preheating s) (opt_get_run_on_time s)
    (opt_get_filter_time s) (opt_verbose s) (initial_temp s) (our_cnt s)
    (_terminate s) (_interactive s).

Definition set_opt_set_voltage (v : Z) (s : Kwl) : Kwl :=
  mkKwl (_p s) (_temp s) (_pakets_received s) (_sp s) (_first_frame s)
    (_status_buf s) (_fan_level s) (_fan_auto s) (_bypass s) (_party s)
    (_quiet s) (opt_do_loop s) (opt_set_time s) (opt_set_bypass s)
    (opt_set_fan s) (opt_set_party s) (opt_set_quiet s) v (opt_get_bypass s)
    (opt_get_cal s) (opt_get_hours_on s) (opt_get_party_enabled s)
    (opt_get_party_time s) (opt_get_party_level s) (opt_get_quiet_enabled s)
    (opt_get_quiet_time s) (opt_get_quiet_level s) (opt_get_voltage s)
    (opt_get_preheating s) (opt_get_run_on_time s) (opt_get_filter_time s)
    (opt_verbose s) (initial_temp s) (our_cnt s) (_terminate s)
    (_interactive s).

Definition set_opt_get_bypass (v : Z) (s : Kwl) : Kwl :=
  mkKwl (_p s) (_temp s) (_pakets_received s) (_sp s) (_first_frame s)
    (_status_buf s) (_fan_level s) (_fan_auto s) (_bypass s) (_party s)
    (_quiet s) (opt_do_loop s) (opt_set_time s) (opt_set_bypass s)
    (opt_set_fan s) (opt_set_party s) (opt_set_quiet s) (opt_set_voltage s)
    v (opt_get_cal s) (opt_get_hours_on s) (opt_get_party_enabled s)
    (opt_get_party_time s) (opt_get_party_level s) (opt_get_quiet_enabled s)
    (opt_get_quiet_time s) (opt_get_quiet_level s) (opt_get_voltage s)
    (opt_get_preheating s) (opt_get_run_on_time s) (opt_get_filter_time s)
    (opt_verbose s) (initial_temp s) (our_cnt s) (_terminate s)
    (_interactive s).

Definition set_opt_get_cal (v : Z) (s : Kwl) : Kwl :=
  mkKwl (_p s) (_temp s) (_pakets_received s) (_sp s) (_first_frame s)
    (_status_buf s) (_fan_level s) (_fan_auto s) (_bypass s) (_party s)
    (_quiet s) (opt_do_loop s) (opt_set_time s) (opt_set_bypass s)
    (opt_set_fan s) (opt_set_party s) (opt_set_quiet s) (opt_set_voltage s)
    (opt_get_bypass s) v (opt_get_hours_on s) (opt_get_party_enabled s)
    (opt_get_party_time s) (opt_get_party_level s) (opt_get_quiet_enabled s)
    (opt_get_quiet_time s) (opt_get_quiet_level s) (opt_get_voltage s)
    (opt_get_preheating s) (opt_get_run_on_time s) (opt_get_filter_time s)
    (opt_verbose s) (initial_temp s) (our_cnt s) (_terminate s)
    (_interactive s).

Definition set_opt_get_hours_on (v : bool) (s : Kwl) : Kwl :=
  mkKwl (_p s) (_temp s) (_pakets_received s) (_sp s) (_first_frame s)
    (_status_buf s) (_fan_level s) (_fan_auto s) (_bypass s) (_party s)
    (_quiet s) (opt_do_loop s) (opt_set_time s) (opt_set_bypass s)
    (opt_set_fan s) (opt_set_party s) (opt_set_quiet s) (opt_set_voltage s)
    (opt_get_bypass s) (opt_get_cal s) v (opt_get_party_enabled s)
    (opt_get_party_time s) (opt_get_party_level s) (opt_get_quiet_enabled s)
    (opt_get_quiet_time s) (opt_get_quiet_level s) (opt_get_voltage s)
    (opt_get_preheating s) (opt_get_run_on_time s) (opt_get_filter_time s)
    (opt_verbose s) (initial_temp s) (our_cnt s) (_terminate s)
    (_interactive s).

Definition set_opt_get_party_enabled (v : bool) (s : Kwl) : Kwl :=
  mkKwl (_p s) (_temp s) (_pakets_received s) (_sp s) (_first_frame s)
    (_status_buf s) (_fan_level s) (_fan_auto s) (_bypass s) (_party s)
    (_quiet s) (opt_do_loop s) (opt_set_time s) (opt_set_bypass s)
    (opt_set_fan s) (opt_set_party s) (opt_set_quiet s) (opt_set_voltage s)
    (opt_get_bypass s) (opt_get_cal s) (opt_get_hours_on s) v
    (opt_get_party_time s) (opt_get_party_level s) (opt_get_quiet_enabled s)
    (opt_get_quiet_time s) (opt_get_quiet_level s) (opt_get_voltage s)
    (opt_get_preheating s) (opt_get_run_on_time s) (opt_get_filter_time s)
    (opt_verbose s) (initial_temp s) (our_cnt s) (_terminate s)
    (_interactive s).

Definition set_opt_get_party_time (v : bool) (s : Kwl) : Kwl :=
  mkKwl (_p s) (_temp s) (_pakets_received s) (_sp s) (_first_frame s)
    (_status_buf s) (_fan_level s) (_fan_auto s) (_bypass s) (_party s)
    (_quiet s) (opt_do_loop s) (opt_set_time s) (opt_set_bypass s)
    (opt_set_fan s) (opt_set_party s) (opt_set_quiet s) (opt_set_voltage s)
    (opt_get_bypass s) (opt_get_cal s) (opt_get_hours_on s)
    (opt_get_party_enabled s) v (opt_get_party_level s)
    (opt_get_quiet_enabled s) (opt_get_quiet_time s) (opt_get_quiet_level s)
    (opt_get_voltage s) (opt_get_preheating s) (opt_get_run_on_time s)
    (opt_get_filter_time s) (opt_verbose s) (initial_temp s) (our_cnt s)
    (_terminate s) (_interactive s).

Definition set_opt_get_party_level (v : bool) (s : Kwl) : Kwl :=
  mkKwl (_p s) (_temp s) (_pakets_received s) (_sp s) (_first_frame s)
    (_status_buf s) (_fan_level s) (_fan_auto s) (_bypass s) (_party s)
    (_quiet s) (opt_do_loop s) (opt_set_time s) (opt_set_bypass s)
    (opt_set_fan s) (opt_set_party s) (opt_set_quiet s) (opt_set_voltage s)
    (opt_get_bypass s) (opt_get_cal s) (opt_get_hours_on s)
    (opt_get_party_enabled s) (opt_get_party_time s) v
    (opt_get_quiet_enabled s) (opt_get_quiet_time s) (opt_get_quiet_level s)
    (opt_get_voltage s) (opt_get_preheating s) (opt_get_run_on_time s)
    (opt_get_filter_time s) (opt_verbose s) (initial_temp s) (our_cnt s)
    (_terminate s) (_interactive s).

Definition set_opt_get_quiet_enabled (v : bool) (s : Kwl) : Kwl :=
  mkKwl (_p s) (_temp s) (_pakets_received s) (_sp s) (_first_frame s)
    (_status_buf s) (_fan_level s) (_fan_auto s) (_bypass s) (_party s)
    (_quiet s) (opt_do_loop s) (opt_set_time s) (opt_set_bypass s)
    (opt_set_fan s) (opt_set_party s) (opt_set_quiet s) (opt_set_voltage s)
    (opt_get_bypass s) (opt_get_cal s) (opt_get_hours_on s)
    (opt_get_party_enabled s) (opt_get_party_time s) (opt_get_party_level s)
    v (opt_get_quiet_time s) (opt_get_quiet_level s) (opt_get_voltage s)
    (opt_get_preheating s) (opt_get_run_on_time s) (opt_get_filter_time s)
    (opt_verbose s) (initial_temp s) (our_cnt s) (_terminate s)
    (_interactive s).

Definition set_opt_get_quiet_time (v : bool) (s : Kwl) : Kwl :=
  mkKwl (_p s) (_temp s) (_pakets_received s) (_sp s) (_first_frame s)
    (_status_buf s) (_fan_level s) (_fan_auto s) (_bypass s) (_party s)
    (_quiet s) (opt_do_loop s) (opt_set_time s) (opt_set_bypass s)
    (opt_set_fan s) (opt_set_party s) (opt_set_quiet s) (opt_set_voltage s)
    (opt_get_bypass s) (opt_get_cal s) (opt_get_hours_on s)
    (opt_get_party_enabled s) (opt_get_party_time s) (opt_get_party_level s)
    (opt_get_quiet_enabled s) v (opt_get_quiet_level s) (opt_get_voltage s)
    (opt_get_preheating s) (opt_get_run_on_time s) (opt_get_filter_time s)
    (opt_verbose s) (initial_temp s) (our_cnt s) (_terminate s)
    (_interactive s).

Definition set_opt_get_quiet_level (v : bool) (s : Kwl) : Kwl :=
  mkKwl (_p s) (_temp s) (_pakets_received s) (_sp s) (_first_frame s)
    (_status_buf s) (_fan_level s) (_fan_auto s) (_bypass s) (_party s)
    (_quiet s) (opt_do_loop s) (opt_set_time s) (opt_set_bypass s)
    (opt_set_fan s) (opt_set_party s) (opt_set_quiet s) (opt_set_voltage s)
    (opt_get_bypass s) (opt_get_cal s) (opt_get_hours_on s)
    (opt_get_party_enabled s) (opt_get_party_time s) (opt_get_party_level s)
    (opt_get_quiet_enabled s) (opt_get_quiet_time s) v (opt_get_voltage s)
    (opt_get_preheating s) (opt_get_run_on_time s) (opt_get_filter_time s)
    (opt_verbose s) (initial_temp s) (our_cnt s) (_terminate s)
    (_interactive s).

Definition set_opt_get_voltage (v : Z) (s : Kwl) : Kwl :=
  mkKwl (_p s) (_temp s) (_pakets_received s) (_sp s) (_first_frame s)
    (_status_buf s) (_fan_level s) (_fan_auto s) (_bypass s) (_party s)
    (_quiet s) (opt_do_loop s) (opt_set_time s) (opt_set_bypass s)
    (opt_set_fan s) (opt_set_party s) (opt_set_quiet s) (opt_set_voltage s)
    (opt_get_bypass s) (opt_get_cal s) (opt_get_hours_on s)
    (opt_get_party_enabled s) (opt_get_party_time s) (opt_get_party_level s)
    (opt_get_quiet_enabled s) (opt_get_quiet_time s) (opt_get_quiet_level s)
    v (opt_get_preheating s) (opt_get_run_on_time s) (opt_get_filter_time s)
    (opt_verbose s) (initial_temp s) (our_cnt s) (_terminate s)
    (_interactive s).

Definition set_opt_get_preheating (v : Z) (s : Kwl) : Kwl :=
  mkKwl (_p s) (_temp s) (_pakets_received s) (_sp s) (_first_frame s)
    (_status_buf s) (_fan_level s) (_fan_auto s) (_bypass s) (_party s)
    (_quiet s) (opt_do_loop s) (opt_set_time s) (opt_set_bypass s)
    (opt_set_fan s) (opt_set_party s) (opt_set_quiet s) (opt_set_voltage s)
    (opt_get_bypass s) (opt_get_cal s) (opt_get_hours_on s)
    (opt_get_party_enabled s) (opt_get_party_time s) (opt_get_party_level s)
    (opt_get_quiet_enabled s) (opt_get_quiet_time s) (opt_get_quiet_level s)
    (opt_get_voltage s) v (opt_get_run_on_time s) (opt_get_filter_time s)
    (opt_verbose s) (initial_temp s) (our_cnt s) (_terminate s)
    (_interactive s).

Definition set_opt_get_run_on_time (v : bool) (s : Kwl) : Kwl :=
  mkKwl (_p s) (_temp s) (_pakets_received s) (_sp s) (_first_frame s)
    (_status_buf s) (_fan_level s) (_fan_auto s) (_bypass s) (_party s)
    (_quiet s) (opt_do_loop s) (opt_set_time s) (opt_set_bypass s)
    (opt_set_fan s) (opt_set_party s) (opt_set_quiet s) (opt_set_voltage s)
    (opt_get_bypass s) (opt_get_cal s) (opt_get_hours_on s)
    (opt_get_party_enabled s) (opt_get_party_time s) (opt_get_party_level s)
    (opt_get_quiet_enabled s) (opt_get_quiet_time s) (opt_get_quiet_level s)
    (opt_get_voltage s) (opt_get_preheating s) v (opt_get_filter_time s)
    (opt_verbose s) (initial_temp s) (our_cnt s) (_terminate s)
    (_interactive s).

Definition set_opt_get_filter_time (v : bool) (s : Kwl) : Kwl :=
  mkKwl (_p s) (_temp s) (_pakets_received s) (_sp s) (_first_frame s)
    (_status_buf s) (_fan_level s) (_fan_auto s) (_bypass s) (_party s)
    (_quiet s) (opt_do_loop s) (opt_set_time s) (opt_set_bypass s)
    (opt_set_fan s) (opt_set_party s) (opt_set_quiet s) (opt_set_voltage s)
    (opt_get_bypass s) (opt_get_cal s) (opt_get_hours_on s)
    (opt_get_party_enabled s) (opt_get_party_time s) (opt_get_party_level s)
    (opt_get_quiet_enabled s) (opt_get_quiet_time s) (opt_get_quiet_level s)
    (opt_get_voltage s) (opt_get_preheating s) (opt_get_run_on_time s) v
    (opt_verbose s) (initial_temp s) (our_cnt s) (_terminate s)
    (_interactive s).

Definition set_initial_temp (v : bool) (s : Kwl) : Kwl :=
  mkKwl (_p s) (_temp s) (_pakets_received s) (_sp s) (_first_frame s)
    (_status_buf s) (_fan_level s) (_fan_auto s) (_bypass s) (_party s)
    (_quiet s) (opt_do_loop s) (opt_set_time s) (opt_set_bypass s)
    (opt_set_fan s) (opt_set_party s) (opt_set_quiet s) (opt_set_voltage s)
    (opt_get_bypass s) (opt_get_cal s) (opt_get_hours_on s)
    (opt_get_party_enabled s) (opt_get_party_time s) (opt_get_party_level s)
    (opt_get_quiet_enabled s) (opt_get_quiet_time s) (opt_get_quiet_level s)
    (opt_get_voltage s) (opt_get_preheating s) (opt_get_run_on_time s)
    (opt_get_filter_time s) (opt_verbose s) v (our_cnt s) (_terminate s)
    (_interactive s).

Definition set_our_cnt (v : Z) (s : Kwl) : Kwl :=
  mkKwl (_p s) (_temp s) (_pakets_received s) (_sp s) (_first_frame s)
    (_status_buf s) (_fan_level s) (_fan_auto s) (_bypass s) (_party s)
    (_quiet s) (opt_do_loop s) (opt_set_time s) (opt_set_bypass s)
    (opt_set_fan s) (opt_set_party s) (opt_set_quiet s) (opt_set_voltage s)
    (opt_get_bypass s) (opt_get_cal s) (opt_get_hours_on s)
    (opt_get_party_enabled s) (opt_get_party_time s) (opt_get_party_level s)
    (opt_get_quiet_enabled s) (opt_get_quiet_time s) (opt_get_quiet_level s)
    (opt_get_voltage s) (opt_get_preheating s) (opt_get_run_on_time s)
    (opt_get_filter_time s) (opt_verbose s) (initial_temp s) v
    (_terminate s) (_interactive s).

Definition set_terminate (v : bool) (s : Kwl) : Kwl :=
  mkKwl (_p s) (_temp s) (_pakets_received s) (_sp s) (_first_frame s)
    (_status_buf s) (_fan_level s) (_fan_auto s) (_bypass s) (_party s)
    (_quiet s) (opt_do_loop s) (opt_set_time s) (opt_set_bypass s)
    (opt_set_fan s) (opt_set_party s) (opt_set_quiet s) (opt_set_voltage s)
    (opt_get_bypass s) (opt_get_cal s) (opt_get_hours_on s)
    (opt_get_party_enabled s) (opt_get_party_time s) (opt_get_party_level s)
    (opt_get_quiet_enabled s) (opt_get_quiet_time s) (opt_get_quiet_level s)
    (opt_get_voltage s) (opt_get_preheating s) (opt_get_run_on_time s)
    (opt_get_filter_time s) (opt_verbose s) (initial_temp s) (our_cnt s) v
    (_interactive s).

Definition set_interactive (v : bool) (s : Kwl) : Kwl :=
  mkKwl (_p s) (_temp s) (_pakets_received s) (_sp s) (_first_frame s)
    (_status_buf s) (_fan_level s) (_fan_auto s) (_bypass s) (_party s)
    (_quiet s) (opt_do_loop s) (opt_set_time s) (opt_set_bypass s)
    (opt_set_fan s) (opt_set_party s) (opt_set_quiet s) (opt_set_voltage s)
    (opt_get_bypass s) (opt_get_cal s) (opt_get_hours_on s)
    (opt_get_party_enabled s) (opt_get_party_time s) (opt_get_party_level s)
    (opt_get_quiet_enabled s) (opt_get_quiet_time s) (opt_get_quiet_level s)
    (opt_get_voltage s) (opt_get_preheating s) (opt_get_run_on_time s)
    (opt_get_filter_time s) (opt_verbose s) (initial_temp s) (our_cnt s)
    (_terminate s) v.

Definition set_opt_do_loop (v : bool) (s : Kwl) : Kwl :=
  mkKwl (_p s) (_temp s) (_pakets_received s) (_sp s) (_first_frame s)
    (_status_buf s) (_fan_level s) (_fan_auto s) (_bypass s) (_party s)
    (_quiet s) v (opt_set_time s) (opt_set_bypass s) (opt_set_fan s)
    (opt_set_party s) (opt_set_quiet s) (opt_set_voltage s)
    (opt_get_bypass s) (opt_get_cal s) (opt_get_hours_on s)
    (opt_get_party_enabled s) (opt_get_party_time s) (opt_get_party_level s)
    (opt_get_quiet_enabled s) (opt_get_quiet_time s) (opt_get_quiet_level s)
    (opt_get_voltage s) (opt_get_preheating s) (opt_get_run_on_time s)
    (opt_get_filter_time s) (opt_verbose s) (initial_temp s) (our_cnt s)
    (_terminate s) (_interactive s).

Definition set_opt_verbose (v : bool) (s : Kwl) : Kwl :=
  mkKwl (_p s) (_temp s) (_pakets_received s) (_sp s) (_first_frame s)
    (_status_buf s) (_fan_level s) (_fan_auto s) (_bypass s) (_party s)
    (_quiet s) (opt_do_loop s) (opt_set_time s) (opt_set_bypass s)
    (opt_set_fan s) (opt_set_party s) (opt_set_quiet s) (opt_set_voltage s)
    (opt_get_bypass s) (opt_get_cal s) (opt_get_hours_on s)
    (opt_get_party_enabled s) (opt_get_party_time s) (opt_get_party_level s)
    (opt_get_quiet_enabled s) (opt_get_quiet_time s) (opt_get_quiet_level s)
    (opt_get_voltage s) (opt_get_preheating s) (opt_get_run_on_time s)
    (opt_get_filter_time s) v (initial_temp s) (our_cnt s) (_terminate s)
    (_interactive s).

(** The member initialisers of the class and the initial values of the
    statics. *)
Definition Kwl_init : Kwl :=
  {| _p := mkPaket [] 0 false;
     _temp := [9990; 9990; 9990; 9990];
     _pakets_received := 0;
     _sp := -1;
     _first_frame := true;
     _status_buf := replicate 27 0;
     _fan_level := -1;
     _fan_auto := -1;
     _bypass := 0xffff;
     _party := 0;
     _quiet := 0;
     opt_do_loop := false;
     opt_set_time := 0;
     opt_set_bypass := 0;
     opt_set_fan := 0;
     opt_set_party := 0;
     opt_set_quiet := 0;
     opt_set_voltage := 0;
     opt_get_bypass := 0;
     opt_get_cal := 0;
     opt_get_hours_on := false;
     opt_get_party_enabled := false;
     opt_get_party_time := false;
     opt_get_party_level := false;
     opt_get_quiet_enabled := false;
     opt_get_quiet_time := false;
     opt_get_quiet_level := false;
     opt_get_voltage := 0;
     opt_get_preheating := 0;
     opt_get_run_on_time := false;
     opt_get_filter_time := false;
     opt_verbose := false;
     initial_temp := true;
     our_cnt := 0;
     _terminate := false;
     _interactive := false |}.

Section Engine.

(** What write(2) on the serial port returns for the bytes it is given. *)
Variable uart_write : list Z -> Z.

(** *** Sending *)

(** The buffer as [send_frame] hands it to write(2): length byte and
    checksum filled in. *)
Definition frame_bytes (buf : list Z) (size : Z) : list Z :=
  let buf := <[2%nat := wrap8 (size - 4)]> buf in
  let chksum := sum8 buf (size - 1) in
  let chksum := wrap8 (chksum + 1) in
  let buf := <[Z.to_nat (size - 1) := chksum]> buf in
  take (Z.to_nat size) buf.

Definition send_frame (buf : list Z) (size : Z) : list Out :=
  if size <? 4 then [Stdout "snd_frame: Invalid size!" []]
  else
    let sent := frame_bytes buf size in
    let written := uart_write sent in
    SerialWrite sent
    :: (if negb (written =? size)
        then [Stdout "snd_frame: Sent != bytes!" [written; size]]
        else []).

Definition send_get_var (idx : Z) : list Out :=
  let idx := wrap8 idx in
  send_frame [0x13; 0; 1; idx; 0] 5.

Definition send_set_var_8bit (idx val : Z) : list Out :=
  let idx := wrap8 idx in
  let val := wrap8 val in
  send_frame [0x13; 1; 2; idx; val; 0] 6.

Definition send_set_var_16bit (idx val : Z) : list Out :=
  let idx := wrap8 idx in
  let val := wrap16 val in
  send_frame [0x13; 1; 3; idx; wrap8 (val mod 256); wrap8 (val / 256); 0] 7.

Definition send_set_var_32bit (idx val : Z) : list Out :=
  let idx := wrap8 idx in
  let val := wrap32 val in
  send_frame [0x13; 1; 5; idx;
              wrap8 (Z.land val 0xff);
              wrap8 (Z.land (Z.shiftr val 8) 0xff);
              wrap8 (Z.land (Z.shiftr val 16) 0xff);
              wrap8 (Z.land (Z.shiftr val 24) 0xff); 0] 9.

(** *** The turn handler *)

(** Lines common to the toggle and the explicit bypass write. *)
Definition our_turn_bypass (s : Kwl) : Kwl * list Out :=
  (set_opt_set_bypass 0 s,
   send_set_var_16bit Var_1e_bypass1_temp (opt_set_bypass s * 10)).

Definition our_turn_fan (s : Kwl) : Kwl * list Out :=
  if (opt_set_fan s =? 0xe000) || (opt_set_fan s =? 0xf000) then
    (* down/up *)
    let change := if opt_set_fan s =? 0xf000 then 1 else -1 in
    if _fan_level s =? -1 then (s, []) (* wait until the level is known *)
    else if ((change =? -1) && ((_fan_level s <? 2) || (4 <? _fan_level s)))
         || ((change =? 1) && ((_fan_level s <? 1) || (3 <? _fan_level s)))
    then (set_opt_set_fan 0 s, [])
    else
      let '(s', o) :=
        if negb (_fan_auto s =? 0) then
          (set_opt_set_fan (wrap16 (_fan_level s + change)) s,
           send_set_var_16bit Var_35_fan_level 0x00aa)
        else
          (set_opt_set_fan 0 s,
           send_set_var_16bit Var_35_fan_level (0xbb00 + _fan_level s + change))
      in
      (set_fan_auto (-1) (set_fan_level (-1) s'), o)
  else if opt_set_fan s =? 0xaa then
    (* auto *)
    (set_opt_set_fan 0 s, send_set_var_16bit Var_35_fan_level 0x01aa)
  else if negb (Z.land (opt_set_fan s) 0x100 =? 0) then
    (* first: disable auto *)
    (set_opt_set_fan (wrap16 (Z.land (opt_set_fan s) (Z.lnot 0x100))) s,
     send_set_var_16bit Var_35_fan_level 0x00aa)
  else
    (* set manual level *)
    (set_opt_set_fan 0 s,
     send_set_var_16bit Var_35_fan_level (0xbb00 + opt_set_fan s)).

Definition our_turn_party (s : Kwl) : Kwl * list Out :=
  if opt_set_party s =? 0xaa00 then
    (set_opt_set_party 0 s, send_set_var_8bit Var_0f_party_enabled 0)
  else if opt_set_party s =? 0xaa01 then
    (set_opt_set_party 0 s, send_set_var_8bit Var_0f_party_enabled 1)
  else
    (set_opt_set_party 0xaa01 s,
     send_set_var_16bit Var_11_party_time (opt_set_party s)).

Definition our_turn_quiet (s : Kwl) : Kwl * list Out :=
  if opt_set_quiet s =? 0xaa00 then
    (set_opt_set_quiet 0 s, send_set_var_8bit Var_55_quiet_enabled 0)
  else if opt_set_quiet s =? 0xaa01 then
    (set_opt_set_quiet 0 s, send_set_var_8bit Var_55_quiet_enabled 1)
  else
    (set_opt_set_quiet 0xaa01 s,
     send_set_var_16bit Var_56_quiet_time (opt_set_quiet s)).

(** The read requests and the low-frequency polls, from
    [opt_get_bypass == 2] to the end of the function. *)
Definition our_turn_getter (s : Kwl) : Kwl * list Out :=
  if opt_get_bypass s =? 2 then
    (set_opt_get_bypass (wrap32 (opt_get_bypass s - 1)) s,
     send_get_var Var_60_bypass2_temp)
  else if opt_get_bypass s =? 1 then
    (set_opt_get_bypass (wrap32 (opt_get_bypass s - 1)) s,
     send_get_var Var_1e_bypass1_temp)
  else if opt_get_hours_on s then
    (set_opt_get_hours_on false s, send_get_var Var_15_hours_on)
  else if negb (opt_get_voltage s =? 0) then
    (set_opt_get_voltage (wrap32 (opt_get_voltage s - 1)) s,
     if opt_get_voltage s <? 5
     then send_get_var (wrap32 (Var_19_fan_4_voltage + 1 - opt_get_voltage s))
     else [])
  else if opt_get_party_enabled s then
    (set_opt_get_party_enabled false s, send_get_var Var_10_party_curr_time)
  else if opt_get_party_time s then
    (set_opt_get_party_time false s, send_get_var Var_11_party_time)
  else if opt_get_party_level s then
    (set_opt_get_party_level false s, send_get_var Var_42_party_level)
  else if opt_get_quiet_enabled s then
    (set_opt_get_quiet_enabled false s, send_get_var Var_54_quiet_curr_time)
  else if opt_get_quiet_time s then
    (set_opt_get_quiet_time false s, send_get_var Var_56_quiet_time)
  else if opt_get_quiet_level s then
    (set_opt_get_quiet_level false s, send_get_var Var_57_quiet_level)
  else if negb (opt_get_cal s =? 0) then
    (set_opt_get_cal 0 s,
     send_get_var (wrap32 (Var_00_calendar_mon + opt_get_cal s - 1)))
  else if negb (opt_get_preheating s =? 0) then
    (set_opt_get_preheating (wrap32 (opt_get_preheating s - 1)) s,
     if opt_get_preheating s =? 2 then send_get_var Var_4f_preheat_enabled
     else if opt_get_preheating s =? 1 then send_get_var Var_50_preheat_temp
     else [])
  else if opt_get_run_on_time s then
    (set_opt_get_run_on_time false s, send_get_var Var_49_nachlaufzeit)
  else if opt_get_filter_time s then
    (set_opt_get_filter_time false s, send_get_var Var_38_change_filter)
  else if negb (opt_do_loop s) then
    (set_terminate true s, [])
  (* low-frequency getters *)
  else if our_cnt s mod 4 =? 3 then
    (s, send_get_var Var_3a_sensors_temp)
  else if negb (_party s =? 0) && (our_cnt s mod 8 =? 2) then
    (s, send_get_var Var_10_party_curr_time)
  else if negb (_quiet s =? 0) && (our_cnt s mod 8 =? 2) then
    (s, send_get_var Var_54_quiet_curr_time)
  else (s, []).

Definition our_turn (s : Kwl) : Kwl * list Out :=
  let s := set_our_cnt (wrap32 (our_cnt s + 1)) s in
  if our_cnt s <? 2 then (s, [])
  else if initial_temp s then
    (set_initial_temp false s, send_get_var Var_3a_sensors_temp)
  (* setter *)
  else if negb (opt_set_time s =? 0) then
    (set_opt_set_time 0 s,
     send_set_var_16bit Var_08_time_hour_min (opt_set_time s))
  else if negb (opt_set_bypass s =? 0) then
    if opt_set_bypass s =? 0xffff then
      (* toggle *)
      if _bypass s =? 0xffff then (s, []) (* wait until it is known *)
      else
        our_turn_bypass
          (set_opt_set_bypass (if _bypass s <? 200 then 28 else 18) s)
    else our_turn_bypass s
  else if negb (opt_set_fan s =? 0) then our_turn_fan s
  else if negb (opt_set_party s =? 0) then our_turn_party s
  else if negb (opt_set_quiet s =? 0) then our_turn_quiet s
  else if negb (opt_set_voltage s =? 0) then
    (set_opt_set_voltage 0 s,
     send_set_var_32bit
       (Var_16_fan_1_voltage - 1 + Z.land (opt_set_voltage s) 0xf)
       (Z.lor (Z.shiftr (opt_set_voltage s) 16)
              (Z.land (opt_set_voltage s) 0xffff0000)))
  (* getter *)
  else our_turn_getter s.

(** *** Decoding *)

Definition volume_flow (v : Z) : Z :=
  let v := wrap8 v in
  if v <? 1 then 0
  else if v <? 24 then 60
  else if v <? 30 then 80
  else if v <? 37 then 100
  else if v <? 43 then 120
  else if v <? 50 then 140
  else if v <? 56 then 160
  else if v <? 63 then 180
  else if v <? 69 then 200
  else if v <? 76 then 220
  else if v <? 82 then 240
  else if v <? 89 then 260
  else if v <? 95 then 280
  else if v <? 100 then 300
  else 315.

(** The branch of [print_paket] for a fan level write seen on the bus. *)
Definition print_fan_status (p : Paket) : Out :=
  if Paket.is_fan_no_change p then Stdout "fan no change" []
  else if (Paket.u8 p 0 =? 0xaa) && (Paket.u8 p 1 =? 0) then
    Stdout "set fan MANUAL" []
  else if (Paket.u8 p 0 =? 0xaa) && (Paket.u8 p 1 =? 1) then
    Stdout "set fan AUTO" []
  else if Paket.u8 p 0 =? 0xaa then Stdout "set fan AUTO/MANUAL" [Paket.u8 p 1]
  else if Paket.u8 p 1 =? 0xbb then Stdout "set fan LEVEL" [Paket.u8 p 0]
  else Stdout "set fan LEVEL" [Paket.u8 p 0; Paket.u8 p 1].

Definition print_paket (time : Z) (s : Kwl) : Kwl * list Out :=
  let p := _p s in
  let buf := at8 (_buf p) in
  if negb (opt_verbose s)
     && (Paket.is_ping p 0x10
         || Paket.is_ping p 0x11
         || Paket.is_ping p 0x12
         || Paket.is_ping p 0x13
         || Paket.is_request p Var_35_fan_level
         || Paket.is_request p Var_3a_sensors_temp
         || Paket.is_request p Var_3b_sensors_co2
         || Paket.is_request p Var_3c_sensors_humidity
         || Paket.is_ack_10 p
         || Paket.is_fan_no_change p)
  then (s, [])
  else if (buf 1 =? 5) && (Paket.dsize p =? 2) && (buf 4 =? 0x55) then
    (s, [Stdout "ack written" [buf 3]])
  else if (buf 1 =? 1) && (Paket.dsize p =? 28)
          && (buf 3 <=? Var_06_calendar_sun) then
    (s, [Stdout "calendar" (map (fun i => buf (i + 7)) (seqZ 0 24))])
  else if Paket.is_status p Var_0e_preheat_temp 3 then
    (s, [Stdout "pre-heating" [Paket.u16 p 0]])
  else if Paket.is_status p Var_10_party_curr_time 3 then
    let s := set_party (Paket.u16 p 0) s in
    (s, if negb (_interactive s) then
          (if _party s =? 0 then [Stdout "party disabled" []]
           else [Stdout "party enabled for" [_party s]])
        else [])
  else if Paket.is_status p Var_11_party_time 3 then
    (s, [Stdout "party time" [Paket.u16 p 0]])
  else if Paket.is_status p Var_15_hours_on 5 then
    let h := Paket.u32 p 0 in
    (s, [Stdout "hours on"
           [as_int h; as_int (wrap32 (h * 10) / (365 * 24) / 10);
            as_int ((wrap32 (h * 10) / (365 * 24)) mod 10)]])
  else if (buf 1 =? 1) && (Paket.dsize p =? 5)
          && (Var_16_fan_1_voltage <=? buf 3)
          && (buf 3 <=? Var_19_fan_4_voltage) then
    (s, [Stdout "voltage fan"
           [buf 3 - 0x15;
            Paket.u16 p 0; volume_flow (Paket.u16 p 0);
            Paket.u16 p 1; volume_flow (Paket.u16 p 1)]])
  else if Paket.is_status p Var_1e_bypass1_temp 3 then
    let s := set_bypass (Paket.u16 p 0) s in
    (s, if negb (_interactive s) then [Stdout "bypass1" [_bypass s]] else [])
  else if Paket.is_status p Var_35_fan_level 3 then
    (s, [print_fan_status p])
  else if Paket.is_status p Var_38_change_filter 2 then
    (s, [Stdout "change filter" [Paket.u8 p 0]])
  else if Paket.is_status p Var_3a_sensors_temp 21 then
    (set_temp (map (fun i => Paket.u16 p (1 + i)) [0; 1; 2; 3]) s, [])
  else if Paket.is_status p Var_3b_sensors_co2 9 then
    (s, [Paket.print_got_co2 p])
  else if Paket.is_status p Var_3c_sensors_humidity 9 then
    (s, [Paket.print_got_humidity p])
  else if Paket.is_status p Var_42_party_level 2 then
    (s, [Stdout "party level" [Paket.u8 p 0]])
  else if Paket.is_status p Var_49_nachlaufzeit 2 then
    (s, [Stdout "nachlaufzeit" [Paket.u8 p 0]])
  else if Paket.is_status p Var_4f_preheat_enabled 2 then
    (s, [Stdout "pre-heating enabled" [Paket.u8 p 0]])
  else if Paket.is_status p Var_54_quiet_curr_time 3 then
    let s := set_quiet (Paket.u16 p 0) s in
    (s, if negb (_interactive s) then
          (if _quiet s =? 0 then [Stdout "quiet disabled" []]
           else [Stdout "quiet enabled for" [_quiet s]])
        else [])
  else if Paket.is_status p Var_55_quiet_enabled 2 then
    (s, [Stdout "set quiet" [Paket.u8 p 0]])
  else if Paket.is_status p Var_56_quiet_time 2 then
    (s, [Stdout "quiet time" [Paket.u8 p 0]])
  else if Paket.is_status p Var_57_quiet_level 2 then
    (s, [Stdout "quiet level" [Paket.u8 p 0]])
  else if Paket.is_status p Var_60_bypass2_temp 2 then
    (s, [Stdout "bypass2" [Paket.u8 p 0]])
  else if (buf 0 =? 0xff) && (buf 1 =? 0xff) then
    let o := Paket.print_status p (_temp s) (_bypass s) (_party s) (_quiet s)
               (negb (time =? 0)) in
    (set_fan_auto (if 0 <? buf 10 then 1 else 0) (set_fan_level (buf 9) s),
     o)
  else
    (s, [Stdout "ms" [wrap64 time / 1000000; buf 0];
         Paket.print p "uninterpreted" true]).

(** The tail of [got_frame] behind the loop: a valid paket that starts
    neither with a device address nor with the broadcast marker. *)
Definition unknown_paket (time : Z) (s : Kwl) : list Out :=
  let p := _p s in
  if negb (Paket.is_ping p 0x31) && negb (Paket.is_ping p 0x32)
     && negb (Paket.is_ping p 0x34) && negb (Paket.is_ping p 0x38)
     && negb (Paket.is_ping p 0x41) && negb (Paket.is_ping p 0x42)
     && negb (Paket.is_ping p 0x44) && negb (Paket.is_ping p 0x48)
     && negb (Paket.is_ping p 0x51) && negb (Paket.is_ping p 0x52)
     && negb (Paket.is_ping p 0x54) && negb (Paket.is_ping p 0x58)
  then [Stdout "ms" [Z.quot time 1000000]; Paket.print p "unknown" true]
  else [].

(** [memcpy(_status_buf, buf, sizeof(_status_buf))]. *)
Definition copy_status (buf : list Z) : list Z :=
  map (at8 buf) (seqZ 0 27).

(** The loop of [got_frame].  Every round that continues consumes a valid
    paket of at least four bytes, so [fuel] above [size] is never used up
    (see [got_frame_loop_fuel] below). *)
Fixpoint got_frame_loop (fuel : nat) (time : Z) (buf : list Z) (size : Z)
    (s : Kwl) : option (Kwl * list Out) :=
  match fuel with
  | O => None
  | S fuel =>
    if size <? 4 then Some (s, []) (* normal end or drop remaining *)
    else
      let s := set_p (Paket.new_paket buf size) s in
      if negb (_is_valid (_p s)) then
        if negb (_first_frame s) then
          Some (s, [Paket.print (_p s) "ignoring" false])
        else Some (set_first_frame false s, [])
      else
        let s := set_first_frame false s in
        let s := set_pakets_received (wrap64 (_pakets_received s + 1)) s in
        if negb (Paket.is_start_status (_p s))
           && negb (Paket.is_start_addr (_p s))
        then Some (s, unknown_paket time s)
        else
          let s := if Paket.is_start_status (_p s)
                   then set_status_buf (copy_status buf) s else s in
          let '(s, o) := print_paket (wrap64 time) s in
          match got_frame_loop fuel time
                  (drop (Z.to_nat (_size (_p s))) buf)
                  (size - _size (_p s)) s with
          | Some (s', o') => Some (s', o ++ o')
          | None => None
          end
  end.

Definition got_frame (time : Z) (buf : list Z) (size : Z) (s : Kwl)
    : Kwl * list Out :=
  default (s, []) (got_frame_loop (S (Z.to_nat size)) time buf size s).

Definition print_last_status (s : Kwl) : Kwl * list Out :=
  if negb (at8 (_status_buf s) 2 =? 0) then
    print_paket 0 (set_p (Paket.new_paket (_status_buf s) 27) s)
  else (s, []).

(** *** The driver loop of [main]

    One [Event] is one pass through the body of the do-while loop, seen from
    the outside: what [uart_read] delivered, what [try_getchar] would
    deliver on up to three calls, the nanoseconds between the two
    [get_time] calls, and whether SIGINT arrived during the pass. *)

Record Event : Type := mkEvent {
  ev_read   : option Z;
  ev_time   : Z;
  ev_key1   : Z;
  ev_key2   : Z;
  ev_key3   : Z;
  ev_sigint : bool
}.

Record Loop : Type := mkLoop {
  kwl : Kwl;
  idx : Z;
  buf : list Z
}.

(** [peek_input]: the second and third character are only fetched behind
    an escape.  Its return value [d1 != 0] compares the pointer and is
    always true. *)
Definition peek_input (e : Event) : Z * Z * Z :=
  let d1 := ev_key1 e in
  let d2 := if d1 =? 27 then ev_key2 e else 0 in
  let d3 := if (d1 =? 27) && negb (d2 =? 0) then ev_key3 e else 0 in
  (d1, d2, d3).

(** The [if (_interactive)] block of the loop; the boolean says that the
    loop is left by [break]. *)
Definition interactive_keys (e : Event) (k : Kwl) : Kwl * list Out * bool :=
  let '(d1, d2, d3) := peek_input e in
  let o := [Stdout "clear line" []] in
  if d1 =? 27 then
    if d2 =? 0 then (k, o, true) (* single escape: terminate *)
    else if d2 =? 91 then
      if d3 =? 65 then (set_opt_set_fan 0xf000 k, o, false) (* up *)
      else if d3 =? 66 then (set_opt_set_fan 0xe000 k, o, false) (* down *)
      else (k, o, false)
    else (k, o, false)
  else if d1 =? 97 then (set_opt_set_fan 0xaa k, o, false) (* a *)
  else if d1 =? 98 then
    (set_opt_get_bypass 1 (set_opt_set_bypass 0xffff k), o, false) (* b *)
  else (k, o, false).

Definition loop_body (e : Event) (l : Loop) : Loop * list Out * bool :=
  match ev_read e with
  | None => (l, [], false) (* continue *)
  | Some c =>
    let '(k, o1, brk) :=
      if _interactive (kwl l) then interactive_keys e (kwl l)
      else (kwl l, [], false) in
    if brk then (mkLoop k (idx l) (buf l), o1, true)
    else
      let '(k, o2, i) :=
        if 25000000 <=? ev_time e then
          let '(k, o) := got_frame (ev_time e) (buf l) (idx l) k in (k, o, 0)
        else (k, [], idx l) in
      if 128 <=? i then
        (mkLoop k 0 (buf l), o1 ++ o2 ++ [Stdout "Buffer overflow" []], false)
      else
        let b := <[Z.to_nat i := c]> (buf l) in
        let i := i + 1 in
        if (i =? 4) && (load32 b 0 =? 0x14000013) then
          let '(k, o3) := our_turn k in
          (mkLoop k i b, o1 ++ o2 ++ o3, false)
        else (mkLoop k i b, o1 ++ o2, false)
  end.

(** The do-while loop over the passes the environment supplies.  It ends
    by [break], by [_terminate], or when the supplied passes are used up
    (the program then sits in the blocking read).  The passes not consumed
    are returned. *)
Fixpoint main_loop (evs : list Event) (l : Loop)
    : Loop * list Out * list Event :=
  match evs with
  | [] => (l, [], [])
  | e :: evs =>
    let '(l, o, brk) := loop_body e l in
    let l := if ev_sigint e
             then mkLoop (set_terminate true (kwl l)) (idx l) (buf l)
             else l in
    if brk || _terminate (kwl l) then (l, o, evs)
    else let '(l', o', rest) := main_loop evs l in (l', o ++ o', rest)
  end.

(** What [main] gets from the operating system and from [scan_options]
    (option parsing is outside the embedding): the descriptors returned by
    the two open(2) calls, the success of [uart_setup], the effect of
    [scan_options] on the object together with its return value, the
    initial contents of the receive buffer, and the passes of the loop. *)
Record Env : Type := mkEnv {
  env_uart_open    : Z;
  env_lock_open    : Z;
  env_uart_setup   : bool;
  env_scan_options : Kwl -> Kwl * list Out * Z;
  env_buf          : list Z;
  env_events       : list Event
}.

(** [main]: exit status, terminal output, and the loop passes left
    unconsumed. *)
Definition main (env : Env) : Z * list Out * list Event :=
  let banner := [Stdout "Helios KWL control" []] in
  let k := set_sp (env_uart_open env) Kwl_init in
  if _sp k <? 0 then (1, banner, env_events env)
  else
    let retval := 0 in
    let '(retval, k, o, rest) :=
      if 0 <? env_lock_open env then
        if env_uart_setup env then
          let '(k, o, retval) := env_scan_options env k in
          if retval =? 0 then
            let '(l, o', rest) :=
              main_loop (env_events env) (mkLoop k 0 (env_buf env)) in
            (retval, kwl l, o ++ o', rest)
          else (retval, k, o, env_events env)
        else (retval, k, [Stdout "Cannot setup /dev/ttyUSB0" []],
              env_events env)
      else (retval, k, [Stdout "Cannot lock /var/lock/ttyUSB0" []],
            env_events env) in
    let '(k, o') := print_last_status k in
    (retval, banner ++ o ++ o' ++ [Stdout "newline" []], rest).

(** The object as [got_frame] has it when it calls [print_paket] for a
    valid paket [p] at the head of [b]: first-frame mark cleared, paket
    counted, a broadcast copied to [_status_buf]. *)
Definition counted_paket (b : list Z) (p : Paket) (s : Kwl) : Kwl :=
  let s := set_p p s in
  let s := set_first_frame false s in
  let s := set_pakets_received (wrap64 (_pakets_received s + 1)) s in
  if Paket.is_start_status p then set_status_buf (copy_status b) s else s.

(** ** Vocabulary of the statements *)

(** The state a call of [our_turn] starts from, after [++our_cnt]. *)
Definition tick (s : Kwl) : Kwl := set_our_cnt (wrap32 (our_cnt s + 1)) s.

(** The call is not the first one and the initial temperature request is
    out: the handler goes on to the pending writes. *)
Definition past_bootstrap (s : Kwl) : Prop :=
  2 <= wrap32 (our_cnt s + 1) /\ initial_temp s = false.

(** No write request is pending. *)
Definition no_setter (s : Kwl) : bool :=
  (opt_set_time s =? 0) && (opt_set_bypass s =? 0) && (opt_set_fan s =? 0)
  && (opt_set_party s =? 0) && (opt_set_quiet s =? 0)
  && (opt_set_voltage s =? 0).

(** No read request is pending. *)
Definition no_getter (s : Kwl) : bool :=
  (opt_get_bypass s =? 0) && negb (opt_get_hours_on s)
  && (opt_get_voltage s =? 0) && negb (opt_get_party_enabled s)
  && negb (opt_get_party_time s) && negb (opt_get_party_level s)
  && negb (opt_get_quiet_enabled s) && negb (opt_get_quiet_time s)
  && negb (opt_get_quiet_level s) && (opt_get_cal s =? 0)
  && (opt_get_preheating s =? 0) && negb (opt_get_run_on_time s)
  && negb (opt_get_filter_time s).

(** The bytes of a read request for variable [idx], and of a 16-bit write
    of [val] to it, as they go out on the bus. *)
Definition request_frame (idx : Z) : list Z :=
  frame_bytes [0x13; 0; 1; idx; 0] 5.

Definition write16_frame (idx val : Z) : list Z :=
  frame_bytes [0x13; 1; 3; idx; val mod 256; val / 256; 0] 7.

(** [n] successive calls of the turn handler, with the output of each. *)
Fixpoint turns (n : nat) (s : Kwl) : Kwl * list (list Out) :=
  match n with
  | O => (s, [])
  | S n => let '(s, o) := our_turn s in
           let '(s', os) := turns n s in (s', o :: os)
  end.

(** A loop pass that delivers byte [c] after [t] ns, with no key pressed
    and no signal. *)
Definition rx (c t : Z) : Event := mkEvent (Some c) t 0 0 0 false.

Definition is_byte (b : Z) : Prop := 0 <= b < 256.

(** ** Sample inputs *)

(** A serial port that takes every byte it is given. *)
Definition write_all (bytes : list Z) : Z := Z.of_nat (length bytes).

(** The object in loop mode after nine turns, bootstrap done, nothing
    pending. *)
Definition sample_ready : Kwl :=
  set_opt_do_loop true (set_initial_temp false (set_our_cnt 9 Kwl_init)).

(** ... with the bypass toggle requested at a given bypass reading. *)
Definition sample_toggle (reading : Z) : Kwl :=
  set_bypass reading (set_opt_set_bypass 0xffff sample_ready).

(** ... with a fan request at a given level and auto flag. *)
Definition sample_fan (request level auto : Z) : Kwl :=
  set_fan_auto auto (set_fan_level level (set_opt_set_fan request sample_ready)).

(** ... with the four voltage reads requested. *)
Definition sample_voltage : Kwl := set_opt_get_voltage 4 sample_ready.

(** ... with given remaining party and quiet minutes. *)
Definition sample_modes (party quiet : Z) : Kwl :=
  set_quiet quiet (set_party party sample_ready).

(** The loop as [main] enters it without options. *)
Definition sample_loop : Loop := mkLoop Kwl_init 0 (replicate 128 0).

(** A start with the serial device present and the lock file taken. *)
Definition sample_env : Env :=
  mkEnv 3 (-1) true (fun k => (k, [], 0)) (replicate 128 0)
        [rx 0x13 30000000].

(** ** Views of the object *)

(** The requests and mode flags: what the command line and the keys set
    and the turn handler consumes. *)
Definition pending (s : Kwl) :=
  (opt_do_loop s, opt_set_time s, opt_set_bypass s, opt_set_fan s,
   opt_set_party s, opt_set_quiet s, opt_set_voltage s,
   (opt_get_bypass s, opt_get_cal s, opt_get_hours_on s,
    opt_get_party_enabled s, opt_get_party_time s, opt_get_party_level s,
    opt_get_quiet_enabled s, opt_get_quiet_time s, opt_get_quiet_level s),
   (opt_get_voltage s, opt_get_preheating s, opt_get_run_on_time s,
    opt_get_filter_time s, opt_verbose s, initial_temp s)).

(** The read requests alone. *)
Definition getters (s : Kwl) :=
  (opt_get_bypass s, opt_get_cal s, opt_get_hours_on s,
   opt_get_party_enabled s, opt_get_party_time s, opt_get_party_level s,
   opt_get_quiet_enabled s, opt_get_quiet_time s, opt_get_quiet_level s,
   (opt_get_voltage s, opt_get_preheating s, opt_get_run_on_time s,
    opt_get_filter_time s)).

(** What the decoder maintains (the fan level and auto flag apart). *)
Definition decoded (s : Kwl) :=
  (_p s, _temp s, _pakets_received s, _sp s, _first_frame s,
   _status_buf s, _bypass s, _party s, _quiet s, _interactive s).

(** What the receiving side asks of a frame of ours: it passes the checksum
    test, is addressed to 0x13, is a read (kind 0) or a write (kind 1), and
    has five to nine bytes. *)
Definition well_formed_frame (f : list Z) : Prop :=
  _is_valid (Paket.new_paket f (Z.of_nat (length f))) = true
  /\ at8 f 0 = 0x13 /\ (at8 f 1 = 0 \/ at8 f 1 = 1)
  /\ (5 <= length f <= 9)%nat.

(** ** More sample inputs *)

(** The write of 280 to the bypass temperature, as it goes over the bus. *)
Definition sample_frame : list Z := [0x13; 1; 3; 0x1e; 0x18; 0x01; 0x4f].

(** A status broadcast: ff ff, 23 bytes behind the header, day 15, weekday
    2, month 10, year 26, 13:37, fan level 2, auto. *)
Definition sample_broadcast : list Z :=
  [0xff; 0xff; 23; 15; 2; 10; 26; 13; 37; 2; 1] ++ replicate 15 0 ++ [128].

(** The object after its bootstrap in one-shot mode with everything
    [--get-all] asks for. *)
Definition sample_get_all : Kwl :=
  set_opt_get_quiet_enabled true (set_opt_get_quiet_time true
  (set_opt_get_quiet_level true (set_opt_get_party_time true
  (set_opt_get_party_level true (set_opt_get_party_enabled true
  (set_opt_get_hours_on true (set_opt_get_voltage 4
  (set_opt_get_bypass 2 (set_opt_get_preheating 2
  (set_opt_get_run_on_time true (set_opt_get_filter_time true
  (set_initial_temp false (set_our_cnt 1 Kwl_init))))))))))))).

(** A pass in which the key [b] is read. *)
Definition sample_key_b : Event := mkEvent (Some 0x10) 500000 98 0 0 false.

(** A start in which [scan_options] asks for the help text. *)
Definition sample_env_help : Env :=
  mkEnv 3 4 true (fun k => (k, [Stdout "help" []], 2)) (replicate 128 0)
        [rx 0x13 30000000].

(** ** Sending: what goes out *)

Lemma send_frame_writes (b : list Z) (size : Z) :
  4 <= size -> writes (send_frame b size) = [frame_bytes b size].
Proof.
  intros Hsize. unfold send_frame.
  destruct (Z.ltb_spec size 4) as [?|_]; [lia|].
  cbn. by destruct (negb _).
Qed.

Lemma send_frame_one_write (b : list Z) (size : Z) :
  (length (writes (send_frame b size)) <= 1)%nat.
Proof.
  unfold send_frame. destruct (size <? 4); cbn; [lia|].
  destruct (negb _); cbn; lia.
Qed.

Lemma send_get_var_writes (i : Z) :
  writes (send_get_var i) = [request_frame (wrap8 i)].
Proof. unfold send_get_var. by rewrite send_frame_writes. Qed.

Lemma send_set_var_16bit_writes (i v : Z) :
  is_byte i -> 0 <= v < 65536 ->
  writes (send_set_var_16bit i v) = [write16_frame i v].
Proof.
  intros Hi Hv. unfold send_set_var_16bit, write16_frame, is_byte in *.
  rewrite send_frame_writes by lia. unfold wrap8, wrap16.
  rewrite (Z.mod_small i), (Z.mod_small v) by lia.
  rewrite Z.mod_mod by lia.
  rewrite (Z.mod_small (v / 256)); [done|].
  split; [apply Z.div_pos; lia | apply Z.div_lt_upper_bound; lia].
Qed.


#[local] Arguments wrap8 : simpl never.
#[local] Arguments wrap16 : simpl never.
#[local] Arguments wrap32 : simpl never.
#[local] Arguments wrap64 : simpl never.
#[local] Arguments send_frame : simpl never.
#[local] Arguments send_get_var : simpl never.
#[local] Arguments send_set_var_8bit : simpl never.
#[local] Arguments send_set_var_16bit : simpl never.
#[local] Arguments send_set_var_32bit : simpl never.
#[local] Arguments frame_bytes : simpl never.

(** ** Proof automation for the branching of the handlers *)

Ltac bool_hyp H :=
  repeat first
    [ rewrite negb_true_iff in H | rewrite negb_false_iff in H
    | rewrite andb_true_iff in H | rewrite andb_false_iff in H
    | rewrite orb_true_iff in H | rewrite orb_false_iff in H
    | rewrite Z.eqb_eq in H | rewrite Z.eqb_neq in H
    | rewrite Z.ltb_lt in H | rewrite Z.ltb_ge in H
    | rewrite Z.leb_le in H | rewrite Z.leb_gt in H ].

Ltac absurd_branch :=
  exfalso;
  solve [ lia | intuition (lia || congruence) | unfold wrap32 in *; Z.div_mod_to_equations; lia ].

(** Decide the outermost conditional of the goal from the hypotheses. *)
Ltac take_branch :=
  match goal with
  | |- context [if ?c then _ else _] =>
    let E := fresh "E" in
    destruct c eqn:E; bool_hyp E; try absurd_branch
  end.

Ltac open_state s := destruct s; simpl in *; subst.

Lemma send_get_var_one_write (i : Z) :
  (length (writes (send_get_var i)) <= 1)%nat.
Proof. apply send_frame_one_write. Qed.

Lemma send_set_var_8bit_one_write (i v : Z) :
  (length (writes (send_set_var_8bit i v)) <= 1)%nat.
Proof. apply send_frame_one_write. Qed.

Lemma send_set_var_16bit_one_write (i v : Z) :
  (length (writes (send_set_var_16bit i v)) <= 1)%nat.
Proof. apply send_frame_one_write. Qed.

Lemma send_set_var_32bit_one_write (i v : Z) :
  (length (writes (send_set_var_32bit i v)) <= 1)%nat.
Proof. apply send_frame_one_write. Qed.

Lemma no_write_at_all : (length (writes []) <= 1)%nat.
Proof. cbn. lia. Qed.

Create HintDb one_write.
#[local] Hint Resolve send_get_var_one_write send_set_var_8bit_one_write
  send_set_var_16bit_one_write send_set_var_32bit_one_write
  no_write_at_all : one_write.

(** ** The turn handler *)

(** C7: whatever the state of the sequencer, one call of [our_turn] hands
    at most one frame to the serial port. *)
Theorem our_turn_sends_at_most_one_frame (s : Kwl) :
  (length (writes (snd (our_turn s))) <= 1)%nat.
Proof.
  unfold our_turn, our_turn_bypass, our_turn_fan, our_turn_party,
    our_turn_quiet, our_turn_getter.
  repeat case_match; simplify_eq; cbn [snd]; auto with one_write.
Qed.

(** Every call counts: the handler leaves its call counter one higher
    (modulo 2^32), on every path. *)
Lemma our_turn_counts (s : Kwl) :
  our_cnt (fst (our_turn s)) = wrap32 (our_cnt s + 1).
Proof.
  unfold our_turn, our_turn_bypass, our_turn_fan, our_turn_party,
    our_turn_quiet, our_turn_getter.
  repeat case_match; simplify_eq; reflexivity.
Qed.

(** C5: a pending bypass toggle ([opt_set_bypass = 0xffff]) on a turn that
    reaches it.  With the bypass reading unknown the handler sends nothing
    and leaves the toggle pending; with a reading below 200 it writes 280,
    with any other known reading it writes 180, and in both cases the
    request is cleared. *)
Theorem bypass_toggle_resolution (s : Kwl) :
  past_bootstrap s -> opt_set_time s = 0 -> opt_set_bypass s = 0xffff ->
  (_bypass s = 0xffff ->
     our_turn s = (tick s, [])
     /\ opt_set_bypass (fst (our_turn s)) = 0xffff)
  /\ (_bypass s < 200 ->
     our_turn s = (set_opt_set_bypass 0 (tick s),
                   send_set_var_16bit Var_1e_bypass1_temp 280)
     /\ writes (snd (our_turn s)) = [[0x13; 1; 3; 0x1e; 0x18; 0x01; 0x4f]]
     /\ opt_set_bypass (fst (our_turn s)) = 0)
  /\ (200 <= _bypass s -> _bypass s <> 0xffff ->
     our_turn s = (set_opt_set_bypass 0 (tick s),
                   send_set_var_16bit Var_1e_bypass1_temp 180)
     /\ writes (snd (our_turn s)) = [[0x13; 1; 3; 0x1e; 0xb4; 0x00; 0xea]]
     /\ opt_set_bypass (fst (our_turn s)) = 0).
Proof.
  intros [Hcnt Hinit] Htime Htoggle.
  split; [|split].
  - intros Hb. unfold our_turn, tick. open_state s.
    repeat take_branch. done.
  - intros Hb.
    assert (our_turn s = (set_opt_set_bypass 0 (tick s),
                          send_set_var_16bit Var_1e_bypass1_temp 280)) as ->.
    { unfold our_turn, our_turn_bypass, tick. open_state s.
      repeat take_branch. done. }
    cbn [fst snd]. by rewrite send_set_var_16bit_writes.
  - intros Hb Hknown.
    assert (our_turn s = (set_opt_set_bypass 0 (tick s),
                          send_set_var_16bit Var_1e_bypass1_temp 180)) as ->.
    { unfold our_turn, our_turn_bypass, tick. open_state s.
      repeat take_branch. done. }
    cbn [fst snd]. by rewrite send_set_var_16bit_writes.
Qed.

(** C6: a pending fan "down" request ([opt_set_fan = 0xe000]) at known
    level 2.  In manual mode the handler writes level 1 on this turn.  In
    auto mode it writes "manual" ([0xaa 0x00]) on this turn, keeps level 1
    as the pending request, and writes it on the next turn.  Either way the
    cached level and auto flag are -1 after the first write. *)
Theorem fan_down_from_level_2 (s : Kwl) :
  past_bootstrap s -> opt_set_time s = 0 -> opt_set_bypass s = 0 ->
  opt_set_fan s = 0xe000 -> _fan_level s = 2 ->
  (_fan_auto s = 0 ->
     our_turn s =
       (set_fan_auto (-1) (set_fan_level (-1) (set_opt_set_fan 0 (tick s))),
        send_set_var_16bit Var_35_fan_level 0xbb01)
     /\ writes (snd (our_turn s)) = [[0x13; 1; 3; 0x35; 0x01; 0xbb; 0x09]]
     /\ _fan_level (fst (our_turn s)) = -1
     /\ _fan_auto (fst (our_turn s)) = -1)
  /\ (_fan_auto s = 1 -> past_bootstrap (tick s) ->
     let s1 :=
       set_fan_auto (-1) (set_fan_level (-1) (set_opt_set_fan 1 (tick s))) in
     our_turn s = (s1, send_set_var_16bit Var_35_fan_level 0x00aa)
     /\ writes (snd (our_turn s)) = [[0x13; 1; 3; 0x35; 0xaa; 0x00; 0xf7]]
     /\ _fan_level s1 = -1 /\ _fan_auto s1 = -1
     /\ our_turn s1 = (set_opt_set_fan 0 (tick s1),
                       send_set_var_16bit Var_35_fan_level 0xbb01)
     /\ writes (snd (our_turn s1)) = [[0x13; 1; 3; 0x35; 0x01; 0xbb; 0x09]]).
Proof.
  intros [Hcnt Hinit] Htime Hbypass Hfan Hlevel.
  split.
  - intros Hauto.
    assert (our_turn s =
      (set_fan_auto (-1) (set_fan_level (-1) (set_opt_set_fan 0 (tick s))),
       send_set_var_16bit Var_35_fan_level 0xbb01)) as ->.
    { unfold our_turn, our_turn_fan, tick. open_state s.
      repeat take_branch. done. }
    cbn [fst snd]. by rewrite send_set_var_16bit_writes.
  - intros Hauto [Hcnt' _]. cbn zeta.
    assert (our_turn s =
      (set_fan_auto (-1) (set_fan_level (-1) (set_opt_set_fan 1 (tick s))),
       send_set_var_16bit Var_35_fan_level 0x00aa)) as ->.
    { unfold our_turn, our_turn_fan, tick. open_state s.
      repeat take_branch. done. }
    cbn [fst snd]. rewrite send_set_var_16bit_writes by done.
    do 4 (split; [done|]).
    match goal with |- our_turn ?s1 = ?r /\ _ => assert (our_turn s1 = r) as -> end.
    { unfold our_turn, our_turn_fan, tick in *. open_state s.
      repeat take_branch. done. }
    cbn [fst snd]. by rewrite send_set_var_16bit_writes.
Qed.

(** C8: a fan step at a known level from which it cannot be taken ("down"
    outside 2..4, "up" outside 1..3) only clears the request: no frame
    goes out and nothing is printed. *)
Theorem fan_step_out_of_range_dropped (s : Kwl) :
  past_bootstrap s -> opt_set_time s = 0 -> opt_set_bypass s = 0 ->
  _fan_level s <> -1 ->
  (opt_set_fan s = 0xe000 /\ (_fan_level s < 2 \/ 4 < _fan_level s))
  \/ (opt_set_fan s = 0xf000 /\ (_fan_level s < 1 \/ 3 < _fan_level s)) ->
  our_turn s = (set_opt_set_fan 0 (tick s), [])
  /\ opt_set_fan (fst (our_turn s)) = 0
  /\ writes (snd (our_turn s)) = []
  /\ prints (snd (our_turn s)) = [].
Proof.
  intros [Hcnt Hinit] Htime Hbypass Hknown Hstep.
  assert (our_turn s = (set_opt_set_fan 0 (tick s), [])) as ->.
  { unfold our_turn, our_turn_fan, tick.
    destruct Hstep as [[Hfan Hlevel]|[Hfan Hlevel]]; open_state s;
      repeat take_branch; done. }
  done.
Qed.

(** C10: a turn with nothing pending in loop mode whose count is 2 modulo
    8.  The handler asks for the remaining party time whenever party mode is
    active, whatever the quiet mode; the remaining quiet time is asked for
    exactly when party mode is inactive and quiet mode is active. *)
Theorem low_frequency_party_before_quiet (s : Kwl) :
  wrap32 (our_cnt s + 1) mod 8 = 2 -> initial_temp s = false ->
  no_setter s = true -> no_getter s = true -> opt_do_loop s = true ->
  fst (our_turn s) = tick s
  /\ (_party s <> 0 ->
      snd (our_turn s) = send_get_var Var_10_party_curr_time
      /\ writes (snd (our_turn s)) = [[0x13; 0; 1; 0x10; 0x25]])
  /\ (_party s = 0 -> _quiet s <> 0 ->
      snd (our_turn s) = send_get_var Var_54_quiet_curr_time
      /\ writes (snd (our_turn s)) = [[0x13; 0; 1; 0x54; 0x69]])
  /\ ([0x13; 0; 1; 0x54; 0x69] ∈ writes (snd (our_turn s))
      <-> _party s = 0 /\ _quiet s <> 0).
Proof.
  intros Hcnt Hinit Hset Hget Hloop.
  assert (our_turn s =
    (tick s,
     if negb (_party s =? 0) then send_get_var Var_10_party_curr_time
     else if negb (_quiet s =? 0) then send_get_var Var_54_quiet_curr_time
     else [])) as ->.
  { unfold our_turn, our_turn_getter, tick, no_setter, no_getter in *.
    open_state s. bool_hyp Hset. bool_hyp Hget.
    destruct Hset as (((((-> & ->) & ->) & ->) & ->) & ->).
    destruct Hget as
      ((((((((((((-> & ->) & ->) & ->) & ->) & ->) & ->) & ->) & ->)
         & ->) & ->) & ->) & ->).
    simpl. repeat take_branch; done. }
  cbn [fst snd]. split; [done|].
  destruct (Z.eqb_spec (_party s) 0) as [Hp|Hp]; cbn [negb];
    [destruct (Z.eqb_spec (_quiet s) 0) as [Hq|Hq]; cbn [negb]|];
    rewrite ?send_get_var_writes.
  - split; [done|]. split; [done|]. split.
    + intros Hin. cbn in Hin. by apply elem_of_nil in Hin.
    + by intros [_ ?].
  - split; [done|]. split; [done|]. split; [done|].
    intros _. by apply list_elem_of_singleton.
  - split; [done|]. split; [done|]. split.
    + by intros [=]%list_elem_of_singleton.
    + by intros [? _].
Qed.

Lemma wrap32_small (x : Z) : 0 <= x < 4294967296 -> wrap32 x = x.
Proof. apply Z.mod_small. Qed.

(** One turn of the voltage read-out: with [n] reads left, the handler
    asks for variable [0x1a - n] and counts down. *)
Lemma voltage_turn (s : Kwl) (n : Z) :
  past_bootstrap s -> no_setter s = true ->
  opt_get_bypass s <> 2 -> opt_get_bypass s <> 1 ->
  opt_get_hours_on s = false -> opt_get_voltage s = n -> 1 <= n <= 4 ->
  our_turn s = (set_opt_get_voltage (n - 1) (tick s),
                send_get_var (Var_19_fan_4_voltage + 1 - n)).
Proof.
  intros [Hcnt Hinit] Hset Hb2 Hb1 Hhours Hn Hrange.
  unfold our_turn, our_turn_getter, tick, no_setter in *.
  open_state s. bool_hyp Hset.
  destruct Hset as (((((-> & ->) & ->) & ->) & ->) & ->).
  simpl. repeat take_branch.
  unfold Var_19_fan_4_voltage.
  rewrite (wrap32_small (n - 1)), (wrap32_small (25 + 1 - n)) by lia. done.
Qed.

(** C2, as the code has it: with the four voltage reads pending
    ([opt_get_voltage = 4]) and nothing of higher priority, four successive
    turns ask for the voltages of fan level 1, 2, 3 and 4, in this order,
    one request per turn. *)
Theorem voltage_reads_ascend (s : Kwl) :
  1 <= our_cnt s -> our_cnt s + 4 < 4294967296 ->
  initial_temp s = false -> no_setter s = true ->
  opt_get_bypass s <> 2 -> opt_get_bypass s <> 1 ->
  opt_get_hours_on s = false -> opt_get_voltage s = 4 ->
  map writes (snd (turns 4 s)) =
    [ [[0x13; 0; 1; Var_16_fan_1_voltage; 0x2b]];
      [[0x13; 0; 1; Var_17_fan_2_voltage; 0x2c]];
      [[0x13; 0; 1; Var_18_fan_3_voltage; 0x2d]];
      [[0x13; 0; 1; Var_19_fan_4_voltage; 0x2e]] ]
  /\ opt_get_voltage (fst (turns 4 s)) = 0.
Proof.
  intros Hlo Hhi Hinit Hset Hb2 Hb1 Hhours Hn.
  assert (Hw : forall k, 0 <= k < 4 ->
                 wrap32 (our_cnt s + k) = our_cnt s + k).
  { intros k Hk. apply wrap32_small. lia. }
  pose proof (Hw 1 ltac:(lia)) as Hw1.
  pose proof (Hw 2 ltac:(lia)) as Hw2.
  pose proof (Hw 3 ltac:(lia)) as Hw3.
  unfold turns.
  rewrite (voltage_turn s 4); try done; [|split; [lia|done]].
  rewrite (voltage_turn _ 3); try done; [|split; simpl; [|done]]; cycle 1.
  { rewrite Hw1. replace (our_cnt s + 1 + 1) with (our_cnt s + 2) by lia. lia. }
  rewrite (voltage_turn _ 2); try done; [|split; simpl; [|done]]; cycle 1.
  { rewrite Hw1. replace (our_cnt s + 1 + 1) with (our_cnt s + 2) by lia.
    rewrite Hw2. replace (our_cnt s + 2 + 1) with (our_cnt s + 3) by lia. lia. }
  rewrite (voltage_turn _ 1); try done; [|split; simpl; [|done]]; cycle 1.
  { rewrite Hw1. replace (our_cnt s + 1 + 1) with (our_cnt s + 2) by lia.
    rewrite Hw2. replace (our_cnt s + 2 + 1) with (our_cnt s + 3) by lia.
    rewrite Hw3. unfold wrap32. Z.div_mod_to_equations. lia. }
  cbn [snd fst map]. rewrite !send_get_var_writes. done.
Qed.

(** ** The paket codec *)

Lemma foldl_wrap8_sum (l : list Z) (a : Z) :
  foldl (fun chksum b => wrap8 (chksum + b)) (wrap8 a) l
  = wrap8 (a + foldr Z.add 0 l).
Proof.
  revert a. induction l as [|b l IH]; intros a; cbn [foldl foldr].
  - by rewrite Z.add_0_r.
  - replace (wrap8 (wrap8 a + b)) with (wrap8 (a + b))
      by (unfold wrap8; by rewrite Zplus_mod_idemp_l).
    rewrite IH. f_equal. lia.
Qed.

(** The checksum loop computes the byte sum modulo 256. *)
Lemma sum8_spec (b : list Z) (n : Z) :
  sum8 b n = wrap8 (foldr Z.add 0 (take (Z.to_nat n) b)).
Proof. unfold sum8. apply (foldl_wrap8_sum _ 0). Qed.

Lemma at8_app_l (l k : list Z) (i : Z) :
  0 <= i < Z.of_nat (length l) -> at8 (l ++ k) i = at8 l i.
Proof. intros Hi. unfold at8. rewrite lookup_app_l; [done|lia]. Qed.

Lemma at8_app_r (l k : list Z) (i : Z) :
  Z.of_nat (length l) <= i -> at8 (l ++ k) i = at8 k (i - Z.of_nat (length l)).
Proof.
  intros Hi. unfold at8. rewrite lookup_app_r by lia.
  do 2 f_equal. lia.
Qed.

(** The frame [send_frame] makes of a caller's buffer that holds address,
    kind, a length placeholder, the variable index, the payload and a
    checksum placeholder. *)
Lemma frame_bytes_layout (addr kind len0 var chk0 : Z) (payload : list Z) :
  let size := 5 + Z.of_nat (length payload) in
  let head := [addr; kind; wrap8 (size - 4); var] ++ payload in
  frame_bytes ([addr; kind; len0; var] ++ payload ++ [chk0]) size
  = head ++ [wrap8 (1 + foldr Z.add 0 head)].
Proof.
  intros size head. unfold frame_bytes.
  assert (Hlen : length head = Z.to_nat (size - 1)).
  { subst head size. cbn [app length]. lia. }
  change (<[2%nat:=wrap8 (size - 4)]> ([addr; kind; len0; var] ++ payload ++ [chk0]))
    with (head ++ [chk0]).
  rewrite sum8_spec, <- Hlen, take_app_length.
  replace (length head) with (length head + 0)%nat at 1 by lia.
  rewrite insert_app_r. cbn [insert list_insert].
  rewrite take_ge.
  - do 2 f_equal. unfold wrap8. rewrite Zplus_mod_idemp_l. f_equal. lia.
  - rewrite length_app. subst size. cbn [length]. lia.
Qed.

(** C4: encoding then decoding.  For a byte-valued address, kind, variable
    index and payload (at most 250 bytes, so that the frame size fits the
    [uint8_t] parameter of [send_frame]), [send_frame] writes the four
    header bytes with length byte [size - 4], the payload, and the checksum
    [(1 + sum of the bytes before it) mod 256]; [new_paket] on these bytes
    yields a valid paket of the same size whose address, kind, variable
    index and payload bytes are the ones encoded. *)
Theorem encode_decode_roundtrip (addr kind var len0 chk0 : Z) (payload : list Z) :
  is_byte addr -> is_byte kind -> is_byte var ->
  Forall is_byte payload -> (length payload <= 250)%nat ->
  let size := 5 + Z.of_nat (length payload) in
  let head := [addr; kind; size - 4; var] ++ payload in
  let sent := head ++ [(1 + foldr Z.add 0 head) mod 256] in
  writes (send_frame ([addr; kind; len0; var] ++ payload ++ [chk0]) size)
  = [sent]
  /\ let p := Paket.new_paket sent (Z.of_nat (length sent)) in
     _is_valid p = true
     /\ _size p = size
     /\ at8 (_buf p) 0 = addr
     /\ at8 (_buf p) 1 = kind
     /\ Paket.dsize p = 1 + Z.of_nat (length payload)
     /\ at8 (_buf p) 3 = var
     /\ take (length payload) (drop 4 (_buf p)) = payload
     /\ (forall i, 0 <= i < Z.of_nat (length payload) ->
           Paket.u8 p i = at8 payload i).
Proof.
  intros Haddr Hkind Hvar Hpayload Hlen size head sent.
  assert (Hsize : wrap8 (size - 4) = size - 4).
  { apply Z.mod_small. subst size. lia. }
  split.
  { rewrite send_frame_writes by (subst size; lia).
    rewrite frame_bytes_layout. fold size. by rewrite Hsize. }
  assert (Hlen_head : Z.of_nat (length head) = size - 1).
  { subst head size. cbn [app length]. lia. }
  assert (Hlen_sent : Z.of_nat (length sent) = size).
  { subst sent. rewrite length_app. cbn [length]. lia. }
  rewrite Hlen_sent. unfold Paket.new_paket.
  assert (Hdsize : at8 sent 2 = size - 4) by done.
  rewrite Hdsize.
  destruct (Z.leb_spec 4 size) as [_|?]; [|subst size; lia].
  destruct (Z.ltb_spec (4 + (size - 4)) size) as [?|_]; [lia|].
  cbn [_is_valid _size _buf]. split; [|split; [done|]].
  { unfold Paket.is_valid_checksum. cbn [_buf _size].
    rewrite sum8_spec. subst sent.
    rewrite <- Hlen_head at 1. rewrite Nat2Z.id, take_app_length.
    rewrite at8_app_r by lia. rewrite Hlen_head, Z.sub_diag.
    cbn [at8 lookup list_lookup default]. unfold wrap8.
    change (Z.to_nat 0) with 0%nat. cbn [lookup list_lookup].
    rewrite Zplus_mod_idemp_l, (Z.add_comm 1). apply Z.eqb_refl. }
  split; [done|]. split; [done|]. split.
  { unfold Paket.dsize. cbn [_buf]. rewrite Hdsize. subst size. lia. }
  split; [done|]. split.
  { subst sent head. cbn [app drop]. rewrite drop_0. by rewrite take_app_length. }
  intros i Hi. unfold Paket.u8. cbn [_size _buf].
  destruct (Z.ltb_spec i size) as [_|?]; [|subst size; lia].
  subst sent head.
  change (([addr; kind; size - 4; var] ++ payload) ++ _)
    with ([addr; kind; size - 4; var] ++ payload ++
          [(1 + foldr Z.add 0 ([addr; kind; size - 4; var] ++ payload)) mod 256]).
  rewrite at8_app_r by (cbn [length]; lia). cbn [length].
  rewrite at8_app_l by lia. f_equal. lia.
Qed.

(** ** The frame decoder *)

#[local] Arguments print_paket : simpl never.
#[local] Arguments got_frame : simpl never.
#[local] Arguments our_turn : simpl never.
#[local] Arguments unknown_paket : simpl never.

(** The statics and the paket under inspection are out of reach of
    [print_paket]: it only refreshes snapshot fields. *)
Lemma print_paket_keeps (time : Z) (s : Kwl) :
  let s' := fst (print_paket time s) in
  _p s' = _p s /\ our_cnt s' = our_cnt s
  /\ _terminate s' = _terminate s /\ _interactive s' = _interactive s.
Proof.
  unfold print_paket. cbn zeta.
  repeat case_match; simplify_eq; done.
Qed.

Lemma new_paket_size (b : list Z) (size : Z) :
  4 <= size -> 0 <= at8 b 2 ->
  4 <= _size (Paket.new_paket b size) <= size.
Proof.
  intros Hsize Hlen. unfold Paket.new_paket.
  destruct (Z.leb_spec 4 size); [|lia].
  destruct (Z.ltb_spec (4 + at8 b 2) size); cbn [_size]; lia.
Qed.

Lemma at8_nonneg (b : list Z) (i : Z) :
  Forall (fun x => 0 <= x) b -> 0 <= at8 b i.
Proof.
  intros Hb. unfold at8.
  destruct (b !! Z.to_nat i) as [x|] eqn:Hx; cbn [default]; [|lia].
  by eapply (Forall_lookup_1 _ _ _ _ Hb).
Qed.

(** The loop of [got_frame] ends within [size] rounds: for a buffer of
    bytes, fuel above [size] always yields a result. *)
Lemma got_frame_loop_fuel (fuel : nat) (time : Z) (b : list Z) (size : Z)
    (s : Kwl) :
  Forall (fun x => 0 <= x) b -> (Z.to_nat size < fuel)%nat ->
  is_Some (got_frame_loop fuel time b size s).
Proof.
  revert b size s. induction fuel as [|fuel IH]; intros b size s Hb Hfuel.
  { lia. }
  cbn [got_frame_loop].
  destruct (Z.ltb_spec size 4) as [?|Hsize]; [by eexists|].
  repeat (case_match; try by eexists).
  all: match goal with
       | H : got_frame_loop _ _ _ _ _ = None |- _ => rename H into Hrec
       end.
  all: exfalso; eapply is_Some_None; rewrite <- Hrec; apply IH;
    [by apply Forall_drop|].
  all: match goal with
       | H : print_paket ?t ?s0 = (?s1, _) |- _ =>
         pose proof (print_paket_keeps t s0) as (Hp & _); rewrite H in Hp;
         cbn [fst] in Hp; rewrite Hp
       end.
  all: cbn [_p set_p set_first_frame set_pakets_received set_status_buf].
  all: pose proof (new_paket_size b size Hsize (at8_nonneg b 2 Hb)); lia.
Qed.

(** More fuel does not change a result. *)
Lemma got_frame_loop_more_fuel (fuel : nat) (time : Z) (b : list Z)
    (size : Z) (s : Kwl) (r : Kwl * list Out) :
  got_frame_loop fuel time b size s = Some r ->
  got_frame_loop (S fuel) time b size s = Some r.
Proof.
  revert b size s r. induction fuel as [|fuel IH]; intros b size s r; [done|].
  intros Hr. cbn [got_frame_loop] in Hr.
  remember (S fuel) as n eqn:Hn. cbn [got_frame_loop]. subst n.
  cbn zeta in *.
  repeat (case_match; simplify_eq; try done).
  all: match goal with
       | H : got_frame_loop _ _ _ _ _ = Some _ |- _ =>
         apply IH in H; congruence
       end.
Qed.

(** [got_frame] is the result of its loop, whatever fuel above [size] the
    loop is given. *)
Lemma got_frame_loop_result (fuel : nat) (time : Z) (b : list Z) (size : Z)
    (s : Kwl) :
  Forall (fun x => 0 <= x) b -> (Z.to_nat size < fuel)%nat ->
  got_frame_loop fuel time b size s = Some (got_frame time b size s).
Proof.
  intros Hb Hfuel. unfold got_frame.
  destruct (got_frame_loop_fuel (S (Z.to_nat size)) time b size s Hb)
    as [r Hr]; [lia|].
  rewrite Hr. cbn [default].
  clear Hb. induction Hfuel as [|fuel _ IH]; [done|].
  by apply got_frame_loop_more_fuel.
Qed.

Lemma got_frame_loop_keeps (fuel : nat) (time : Z) (b : list Z) (size : Z)
    (s : Kwl) (r : Kwl * list Out) :
  got_frame_loop fuel time b size s = Some r ->
  our_cnt (fst r) = our_cnt s /\ _terminate (fst r) = _terminate s
  /\ _interactive (fst r) = _interactive s.
Proof.
  revert b size s r. induction fuel as [|fuel IH]; intros b size s r; [done|].
  cbn [got_frame_loop].
  repeat (case_match; simplify_eq; try (intros [= <-]; done)); try done.
  all: intros [= <-]; cbn [fst].
  all: match goal with
       | H : got_frame_loop _ _ _ _ _ = Some _ |- _ =>
         apply IH in H; cbn [fst] in H; destruct H as (-> & -> & ->)
       end.
  all: match goal with
       | H : print_paket ?t ?s0 = (?s1, _) |- _ =>
         pose proof (print_paket_keeps t s0) as (_ & Hc & Ht & Hi);
         rewrite H in Hc, Ht, Hi; cbn [fst] in Hc, Ht, Hi;
         rewrite Hc, Ht, Hi
       end.
  all: done.
Qed.

(** [got_frame] leaves the call counter and the two flags alone. *)
Lemma got_frame_keeps (time : Z) (b : list Z) (size : Z) (s : Kwl) :
  let s' := fst (got_frame time b size s) in
  our_cnt s' = our_cnt s /\ _terminate s' = _terminate s
  /\ _interactive s' = _interactive s.
Proof.
  unfold got_frame.
  destruct (got_frame_loop _ _ _ _ _) as [r|] eqn:Hr; cbn [default fst].
  - by eapply got_frame_loop_keeps.
  - done.
Qed.

(** [print_paket] does not touch the first-frame mark. *)
Lemma print_paket_keeps_mark (time : Z) (s : Kwl) :
  _first_frame (fst (print_paket time s)) = _first_frame s.
Proof.
  unfold print_paket. cbn zeta.
  repeat case_match; simplify_eq; done.
Qed.

Lemma print_paket_keeps_counter (time : Z) (s : Kwl) :
  _pakets_received (fst (print_paket time s)) = _pakets_received s.
Proof.
  unfold print_paket. cbn zeta.
  repeat case_match; simplify_eq; done.
Qed.

(** The loop never sets the mark again, and a round that has four bytes
    to look at clears it. *)
Lemma got_frame_loop_clears_mark (fuel : nat) (time : Z) (b : list Z)
    (size : Z) (s : Kwl) (r : Kwl * list Out) :
  got_frame_loop fuel time b size s = Some r ->
  4 <= size \/ _first_frame s = false ->
  _first_frame (fst r) = false.
Proof.
  revert b size s r. induction fuel as [|fuel IH]; intros b size s r; [done|].
  cbn [got_frame_loop].
  destruct (Z.ltb_spec size 4) as [Hsmall|_].
  { intros [= <-] [?|?]; [lia|done]. }
  intros Hr _. revert Hr.
  repeat (case_match; simplify_eq; try (intros [= <-]; cbn [fst]));
    try done.
  all: try by apply negb_true_iff.
  all: match goal with
       | H : got_frame_loop _ _ _ _ _ = Some _ |- _ =>
         apply IH in H; [done|]
       end.
  all: right.
  all: match goal with
       | H : print_paket ?t ?s0 = (?s1, _) |- _ =>
         pose proof (print_paket_keeps_mark t s0) as Hm; rewrite H in Hm;
         cbn [fst] in Hm; rewrite Hm
       end.
  all: done.
Qed.

Lemma new_paket_raw (b : list Z) (size : Z) :
  _buf (Paket.new_paket b size) = b.
Proof. unfold Paket.new_paket. by repeat case_match. Qed.

(** One round of the loop on a slice that fails the checksum. *)
Lemma got_frame_loop_bad_slice (fuel : nat) (time : Z) (b : list Z)
    (size : Z) (s : Kwl) :
  4 <= size -> _is_valid (Paket.new_paket b size) = false ->
  got_frame_loop (S fuel) time b size s
  = Some (set_first_frame false (set_p (Paket.new_paket b size) s),
          if _first_frame s then []
          else [Stdout "ignoring"
                  (take (Z.to_nat (_size (Paket.new_paket b size))) b)]).
Proof.
  intros Hsize Hbad. cbn [got_frame_loop].
  destruct (Z.ltb_spec size 4) as [?|_]; [lia|].
  cbn [_p set_p]. rewrite Hbad. cbn [negb].
  unfold Paket.print. rewrite new_paket_raw, Z.sub_0_r.
  destruct s; cbn; by destruct _first_frame0.
Qed.

Lemma bytes_nonneg (b : list Z) :
  Forall is_byte b -> Forall (fun x => 0 <= x) b.
Proof. intros Hb. eapply Forall_impl; [exact Hb|]. by intros x [? _]. Qed.

(** The state in which [print_paket] is called for a valid paket of a
    device or a broadcast: the paket is counted, the mark cleared, a
    broadcast kept in [_status_buf]. *)
Lemma got_frame_valid_start (time : Z) (b : list Z) (size : Z) (s : Kwl) :
  Forall is_byte b -> 4 <= size ->
  _is_valid (Paket.new_paket b size) = true ->
  Paket.is_start_status (Paket.new_paket b size)
  || Paket.is_start_addr (Paket.new_paket b size) = true ->
  let p := Paket.new_paket b size in
  let s0 := counted_paket b p s in
  let s1 := fst (print_paket (wrap64 time) s0) in
  let rest := drop (Z.to_nat (_size p)) b in
  let left := size - _size p in
  got_frame time b size s
  = (fst (got_frame time rest left s1),
     snd (print_paket (wrap64 time) s0) ++ snd (got_frame time rest left s1)).
Proof.
  intros Hb Hsize Hvalid Hstart. cbn zeta.
  pose proof (new_paket_size b size Hsize
                (at8_nonneg b 2 (bytes_nonneg b Hb))) as Hpsize.
  unfold got_frame at 1. cbn [got_frame_loop].
  destruct (Z.ltb_spec size 4) as [?|_]; [lia|].
  cbn [_p set_p set_first_frame set_pakets_received].
  set (p := Paket.new_paket b size) in *.
  set (s0 := counted_paket b p s).
  set (rest := drop (Z.to_nat (_size p)) b).
  set (left := size - _size p).
  rewrite Hvalid. cbn [negb].
  assert (Hnot : negb (Paket.is_start_status p)
                 && negb (Paket.is_start_addr p) = false).
  { by destruct (Paket.is_start_status p), (Paket.is_start_addr p). }
  rewrite Hnot.
  change (if Paket.is_start_status p
          then set_status_buf (copy_status b)
                 (set_pakets_received
                    (wrap64 (_pakets_received (set_first_frame false (set_p p s)) + 1))
                    (set_first_frame false (set_p p s)))
          else set_pakets_received
                 (wrap64 (_pakets_received (set_first_frame false (set_p p s)) + 1))
                 (set_first_frame false (set_p p s)))
    with s0.
  pose proof (print_paket_keeps (wrap64 time) s0) as (Hp & _).
  destruct (print_paket (wrap64 time) s0) as [s1' o] eqn:Hprint.
  cbn [fst snd] in *.
  assert (Hp0 : _p s0 = p).
  { subst s0. unfold counted_paket. by case_match. }
  rewrite Hp, Hp0. fold rest left.
  rewrite (got_frame_loop_result (Z.to_nat size) time rest left s1');
    [ | apply bytes_nonneg; subst rest; by apply Forall_drop
      | subst left; lia ].
  by destruct (got_frame time rest left s1').
Qed.

(** C9: a paket that fails its checksum ends the decoding of the buffer,
    its raw bytes are printed under "ignoring", and only the very first
    frame seen since start is spared the message.

    The first frame: [_first_frame] is set in the initial object, a buffer
    of fewer than four bytes is no frame and leaves the object alone, and
    every call of [got_frame] that has four bytes or more to look at
    returns with the mark cleared, whether the paket at the head was valid
    or not.

    A bad slice at the head of what is left of the buffer, in whatever
    round of the loop: [got_frame] returns at once, the paket counter
    stays, nothing behind the slice is looked at, and the output is the
    slice's raw bytes under "ignoring" -- or nothing when the mark is
    still set.

    A valid paket of a device or a broadcast at the head: it is counted and
    printed and the rest of the buffer is decoded with the mark cleared;
    so a bad slice right behind it is reported whatever the mark was at
    the call, and ends the call. *)
Theorem got_frame_stops_at_bad_checksum (fuel : nat) (time : Z)
    (b : list Z) (size : Z) (s : Kwl) :
  Forall is_byte b ->
  let p := Paket.new_paket b size in
  _first_frame Kwl_init = true
  /\ (size < 4 -> got_frame time b size s = (s, []))
  /\ (4 <= size -> _first_frame (fst (got_frame time b size s)) = false)
  /\ (4 <= size -> _is_valid p = false ->
      let r := (set_first_frame false (set_p p s),
                if _first_frame s then []
                else [Stdout "ignoring" (take (Z.to_nat (_size p)) b)]) in
      got_frame_loop (S fuel) time b size s = Some r
      /\ got_frame time b size s = r
      /\ _pakets_received (fst r) = _pakets_received s)
  /\ (4 <= size -> _is_valid p = true ->
      Paket.is_start_status p || Paket.is_start_addr p = true ->
      let s0 := counted_paket b p s in
      let s1 := fst (print_paket (wrap64 time) s0) in
      let rest := drop (Z.to_nat (_size p)) b in
      let left := size - _size p in
      _first_frame s1 = false
      /\ got_frame time b size s
         = (fst (got_frame time rest left s1),
            snd (print_paket (wrap64 time) s0)
            ++ snd (got_frame time rest left s1))
      /\ (4 <= left -> _is_valid (Paket.new_paket rest left) = false ->
          snd (got_frame time b size s)
          = snd (print_paket (wrap64 time) s0)
            ++ [Stdout "ignoring"
                  (take (Z.to_nat (_size (Paket.new_paket rest left))) rest)]
          /\ _pakets_received (fst (got_frame time b size s))
             = wrap64 (_pakets_received s + 1))).
Proof.
  intros Hb p.
  split; [done|]. split; [|split; [|split]].
  - intros Hsmall. unfold got_frame. cbn [got_frame_loop].
    destruct (Z.ltb_spec size 4) as [_|?]; [done|lia].
  - intros Hsize.
    pose proof (got_frame_loop_result (S (Z.to_nat size)) time b size s
                  (bytes_nonneg b Hb) ltac:(lia)) as Hr.
    by apply got_frame_loop_clears_mark in Hr; [|left].
  - intros Hsize Hbad r.
    split; [by apply got_frame_loop_bad_slice|]. split; [|done].
    unfold got_frame. by rewrite got_frame_loop_bad_slice.
  - intros Hsize Hvalid Hstart s0 s1 rest left.
    assert (Hmark : _first_frame s1 = false).
    { subst s1. rewrite print_paket_keeps_mark. subst s0.
      unfold counted_paket. by case_match. }
    pose proof (got_frame_valid_start time b size s Hb Hsize Hvalid Hstart)
      as Hrun.
    cbn zeta in Hrun. fold p in Hrun. fold s0 in Hrun. fold s1 in Hrun.
    fold rest left in Hrun.
    split; [done|]. split; [done|].
    intros Hleft Hbad. rewrite Hrun. cbn [fst snd].
    assert (Hrest : got_frame time rest left s1
              = (set_first_frame false (set_p (Paket.new_paket rest left) s1),
                 [Stdout "ignoring"
                    (take (Z.to_nat (_size (Paket.new_paket rest left)))
                       rest)])).
    { unfold got_frame. rewrite got_frame_loop_bad_slice by done.
      cbn [default]. by rewrite Hmark. }
    rewrite Hrest. cbn [fst snd]. split; [done|].
    cbn [_pakets_received set_first_frame set_p].
    pose proof (print_paket_keeps_counter (wrap64 time) s0) as Hc.
    fold s1 in Hc. rewrite Hc. subst s0. unfold counted_paket.
    by case_match.
Qed.

(** ** The driver loop *)

(** A pass without key or signal leaves the object alone up to the point
    where the byte is looked at. *)
Lemma interactive_keys_idle (c t : Z) (k : Kwl) :
  interactive_keys (rx c t) k = (k, [Stdout "clear line" []], false).
Proof. reflexivity. Qed.

(** A byte that arrives after an idle gap: the buffer collected so far is
    decoded and the byte opens a new one. *)
Lemma pass_after_gap (c t : Z) (l : Loop) :
  25000000 <= t ->
  exists o,
    loop_body (rx c t) l =
      (mkLoop (fst (got_frame t (buf l) (idx l) (kwl l))) 1
              (<[0%nat := c]> (buf l)), o, false).
Proof.
  intros Ht. unfold loop_body. cbn [rx ev_read ev_time].
  rewrite interactive_keys_idle.
  destruct (Z.leb_spec 25000000 t) as [_|?]; [|lia].
  destruct (_interactive (kwl l));
    destruct (got_frame t (buf l) (idx l) (kwl l)) as [k o]; by eexists.
Qed.

(** A byte inside a frame that does not complete four bytes: it is stored
    and nothing else happens to the object. *)
Lemma pass_in_frame (c t : Z) (l : Loop) :
  t < 25000000 -> 0 <= idx l < 128 -> idx l <> 3 ->
  exists o,
    loop_body (rx c t) l =
      (mkLoop (kwl l) (idx l + 1) (<[Z.to_nat (idx l) := c]> (buf l)), o, false).
Proof.
  intros Ht Hidx Hne. unfold loop_body. cbn [rx ev_read ev_time].
  rewrite interactive_keys_idle.
  destruct (Z.leb_spec 25000000 t) as [?|_]; [lia|].
  destruct (_interactive (kwl l)).
  all: destruct (Z.leb_spec 128 (idx l)) as [?|_]; [lia|].
  all: destruct (Z.eqb_spec (idx l + 1) 4) as [?|_]; [lia|].
  all: by eexists.
Qed.

(** The fourth byte of a frame: the handler is called exactly when the
    four bytes read 13 00 00 14. *)
Lemma pass_fourth_byte (c t : Z) (l : Loop) :
  t < 25000000 -> idx l = 3 ->
  let b := <[3%nat := c]> (buf l) in
  exists o,
    loop_body (rx c t) l =
      (mkLoop (if load32 b 0 =? 0x14000013 then fst (our_turn (kwl l))
               else kwl l) 4 b, o, false).
Proof.
  intros Ht Hidx b. unfold loop_body. cbn [rx ev_read ev_time].
  rewrite interactive_keys_idle.
  destruct (Z.leb_spec 25000000 t) as [?|_]; [lia|].
  rewrite Hidx. change (Z.to_nat 3) with 3%nat. fold b.
  change (128 <=? 3) with false. change (3 + 1 =? 4) with true.
  cbn [andb].
  destruct (_interactive (kwl l)); destruct (load32 b 0 =? 335544339);
    try destruct (our_turn (kwl l)) as [k o]; by eexists.
Qed.

(** One more pass of the loop, when the pass neither breaks nor finds
    [_terminate] set. *)
Lemma main_loop_pass (e : Event) (evs : list Event) (l l1 : Loop)
    (o : list Out) :
  loop_body e l = (l1, o, false) -> ev_sigint e = false ->
  _terminate (kwl l1) = false ->
  fst (fst (main_loop (e :: evs) l)) = fst (fst (main_loop evs l1)).
Proof.
  intros Hbody Hsig Hterm. cbn [main_loop]. rewrite Hbody, Hsig, Hterm.
  cbn [orb]. by destruct (main_loop evs l1) as [[? ?] ?].
Qed.

(** The last pass considered. *)
Lemma main_loop_last (e : Event) (l l1 : Loop) (o : list Out) :
  loop_body e l = (l1, o, false) -> ev_sigint e = false ->
  fst (fst (main_loop [e] l)) = l1.
Proof.
  intros Hbody Hsig. cbn [main_loop]. rewrite Hbody, Hsig.
  by destruct (_ || _).
Qed.

Lemma cue_in_buffer (b : list Z) :
  (4 <= length b)%nat ->
  load32 (<[3%nat := 0x14]> (<[2%nat := 0]> (<[1%nat := 0]> (<[0%nat := 0x13]> b)))) 0
  = 0x14000013.
Proof.
  intros Hlen.
  destruct b as [|b0 [|b1 [|b2 [|b3 rest]]]]; cbn [length] in Hlen; try lia.
  reflexivity.
Qed.

(** C1, as the code has it: the cue is the ping of device 0x13, the four
    bytes 13 00 00 14.  When they arrive as the first four bytes after an
    idle gap, the first three leave the handler uncalled, the fourth calls
    [our_turn] once (on the object as [got_frame] left it at the gap), and
    neither the silence that follows nor the byte that ends it adds a call:
    the call counter is up by exactly one. *)
Theorem cue_grants_one_turn (l : Loop) (t1 t2 t3 t4 t5 c5 : Z) :
  (4 <= length (buf l))%nat -> _terminate (kwl l) = false ->
  25000000 <= t1 -> t2 < 25000000 -> t3 < 25000000 -> t4 < 25000000 ->
  25000000 <= t5 ->
  let cue := [rx 0x13 t1; rx 0x00 t2; rx 0x00 t3; rx 0x14 t4] in
  let k0 := fst (got_frame t1 (buf l) (idx l) (kwl l)) in
  our_cnt (kwl (fst (fst (main_loop (take 3 cue) l)))) = our_cnt (kwl l)
  /\ kwl (fst (fst (main_loop cue l))) = fst (our_turn k0)
  /\ our_cnt (kwl (fst (fst (main_loop cue l))))
     = wrap32 (our_cnt (kwl l) + 1)
  /\ our_cnt (kwl (fst (fst (main_loop (cue ++ [rx c5 t5]) l))))
     = wrap32 (our_cnt (kwl l) + 1).
Proof.
  intros Hlen Hterm Ht1 Ht2 Ht3 Ht4 Ht5 cue k0.
  destruct (got_frame_keeps t1 (buf l) (idx l) (kwl l)) as (Hcnt0 & Hterm0 & _).
  fold k0 in Hcnt0, Hterm0. rewrite Hterm in Hterm0.
  destruct (pass_after_gap 0x13 t1 l Ht1) as [o1 H1]. fold k0 in H1.
  set (l1 := mkLoop k0 1 (<[0%nat:=0x13]> (buf l))) in *.
  destruct (pass_in_frame 0 t2 l1 Ht2) as [o2 H2]; [done..|].
  cbn [kwl idx buf l1] in H2. change (Z.to_nat 1) with 1%nat in H2.
  set (l2 := mkLoop k0 (1 + 1) _) in *.
  destruct (pass_in_frame 0 t3 l2 Ht3) as [o3 H3]; [done..|].
  cbn [kwl idx buf l2] in H3. change (Z.to_nat (1 + 1)) with 2%nat in H3.
  set (l3 := mkLoop k0 (1 + 1 + 1) _) in *.
  destruct (pass_fourth_byte 0x14 t4 l3 Ht4) as [o4 H4]; [done|].
  cbn [kwl idx buf l3] in H4. rewrite cue_in_buffer in H4 by done.
  change (335544339 =? 335544339) with true in H4. cbv iota in H4.
  set (l4 := mkLoop (fst (our_turn k0)) 4 _) in *.
  assert (Hcnt4 : our_cnt (kwl l4) = wrap32 (our_cnt (kwl l) + 1)).
  { cbn [kwl l4]. by rewrite our_turn_counts, Hcnt0. }
  assert (Hrun4 : fst (fst (main_loop cue l)) = l4).
  { subst cue.
    rewrite (main_loop_pass _ _ _ _ _ H1), (main_loop_pass _ _ _ _ _ H2),
      (main_loop_pass _ _ _ _ _ H3) by done.
    by rewrite (main_loop_last _ _ _ _ H4). }
  split; [|split; [|split]].
  - subst cue. cbn [take].
    rewrite (main_loop_pass _ _ _ _ _ H1), (main_loop_pass _ _ _ _ _ H2)
      by done.
    by rewrite (main_loop_last _ _ _ _ H3).
  - by rewrite Hrun4.
  - by rewrite Hrun4.
  - subst cue. cbn [app].
    rewrite (main_loop_pass _ _ _ _ _ H1), (main_loop_pass _ _ _ _ _ H2),
      (main_loop_pass _ _ _ _ _ H3) by done.
    destruct (_terminate (kwl l4)) eqn:Hterm4.
    + cbn [main_loop]. rewrite H4. cbn [rx ev_sigint]. rewrite Hterm4.
      cbn [orb fst]. done.
    + rewrite (main_loop_pass _ _ _ _ _ H4) by done.
      destruct (pass_after_gap c5 t5 l4 Ht5) as [o5 H5].
      rewrite (main_loop_last _ _ _ _ H5) by done. cbn [kwl].
      destruct (got_frame_keeps t5 (buf l4) (idx l4) (kwl l4)) as (-> & _).
      done.
Qed.

Lemma claimed_bytes_in_buffer (b : list Z) :
  (4 <= length b)%nat ->
  load32 (<[3%nat := 0x14]> (<[2%nat := 1]> (<[1%nat := 0]> (<[0%nat := 0x13]> b)))) 0
  = 0x14010013.
Proof.
  intros Hlen.
  destruct b as [|b0 [|b1 [|b2 [|b3 rest]]]]; cbn [length] in Hlen; try lia.
  reflexivity.
Qed.

(** The bytes 13 00 01 14 56, a read request for variable 0x14, are no
    cue in any state: the call counter is where it was after all five. *)
Lemma request_of_0x14_grants_no_turn (l : Loop) (t1 t2 t3 t4 t5 : Z) :
  (4 <= length (buf l))%nat -> _terminate (kwl l) = false ->
  25000000 <= t1 -> t2 < 25000000 -> t3 < 25000000 -> t4 < 25000000 ->
  t5 < 25000000 ->
  our_cnt (kwl (fst (fst (main_loop
    [rx 0x13 t1; rx 0x00 t2; rx 0x01 t3; rx 0x14 t4; rx 0x56 t5] l))))
  = our_cnt (kwl l).
Proof.
  intros Hlen Hterm Ht1 Ht2 Ht3 Ht4 Ht5.
  destruct (got_frame_keeps t1 (buf l) (idx l) (kwl l)) as (Hcnt0 & Hterm0 & _).
  rewrite Hterm in Hterm0.
  destruct (pass_after_gap 0x13 t1 l Ht1) as [o1 H1].
  set (k0 := fst (got_frame t1 (buf l) (idx l) (kwl l))) in *.
  set (l1 := mkLoop k0 1 (<[0%nat:=0x13]> (buf l))) in *.
  destruct (pass_in_frame 0 t2 l1 Ht2) as [o2 H2]; [done..|].
  cbn [kwl idx buf l1] in H2. change (Z.to_nat 1) with 1%nat in H2.
  set (l2 := mkLoop k0 (1 + 1) _) in *.
  destruct (pass_in_frame 1 t3 l2 Ht3) as [o3 H3]; [done..|].
  cbn [kwl idx buf l2] in H3. change (Z.to_nat (1 + 1)) with 2%nat in H3.
  set (l3 := mkLoop k0 (1 + 1 + 1) _) in *.
  destruct (pass_fourth_byte 0x14 t4 l3 Ht4) as [o4 H4]; [done|].
  cbn [kwl idx buf l3] in H4. rewrite claimed_bytes_in_buffer in H4 by done.
  change (335609875 =? 335544339) with false in H4. cbv iota in H4.
  set (l4 := mkLoop k0 4 _) in *.
  destruct (pass_in_frame 0x56 t5 l4 Ht5) as [o5 H5]; [done..|].
  rewrite (main_loop_pass _ _ _ _ _ H1), (main_loop_pass _ _ _ _ _ H2),
    (main_loop_pass _ _ _ _ _ H3), (main_loop_pass _ _ _ _ _ H4) by done.
  by rewrite (main_loop_last _ _ _ _ H5).
Qed.

(** ** Start-up *)

(** C3, what the code does: when the serial device opens but the lock file
    cannot be created, [main] prints "Cannot lock", never enters the loop
    (no pass is consumed, nothing is written to the bus) and returns
    [retval] as initialised, 0. *)
Theorem main_lock_conflict_returns_0 (env : Env) :
  0 <= env_uart_open env -> env_lock_open env <= 0 ->
  main env =
    (0,
     [Stdout "Helios KWL control" [];
      Stdout "Cannot lock /var/lock/ttyUSB0" [];
      Stdout "newline" []],
     env_events env).
Proof.
  intros Hopen Hlock. unfold main. cbn [_sp set_sp].
  destruct (Z.ltb_spec (env_uart_open env) 0) as [?|_]; [lia|].
  destruct (Z.ltb_spec 0 (env_lock_open env)) as [?|_]; [lia|].
  reflexivity.
Qed.

(** The sibling failure before it: when the serial device does not open,
    [main] returns 1. *)
Lemma main_open_failure_returns_1 (env : Env) :
  env_uart_open env < 0 -> fst (fst (main env)) = 1.
Proof.
  intros Hopen. unfold main. cbn [_sp set_sp].
  destruct (Z.ltb_spec (env_uart_open env) 0) as [_|?]; [done|lia].
Qed.


(** ** Further properties of the codec *)

Lemma sum_insert (l : list Z) (i : nat) (x y : Z) :
  l !! i = Some y ->
  foldr Z.add 0 (<[i := x]> l) = foldr Z.add 0 l - y + x.
Proof.
  revert i. induction l as [|a l IH]; intros [|i] Hi; try done.
  - cbn in *. simplify_eq. lia.
  - change (<[S i := x]> (a :: l)) with (a :: <[i := x]> l).
    cbn [foldr]. rewrite (IH i) by done. lia.
Qed.

(** X1: a paket that fills its buffer and passes the checksum stops passing it
    when one byte is replaced by a different byte -- any byte but the
    length byte, or the length byte replaced by a larger value (a smaller
    one shortens the slice that is summed). *)
Theorem corrupted_byte_is_detected (b : list Z) (i : nat) (x : Z) :
  let size := Z.of_nat (length b) in
  Forall is_byte b -> 4 <= size -> at8 b 2 = size - 4 ->
  _is_valid (Paket.new_paket b size) = true ->
  (i < length b)%nat -> is_byte x -> x <> at8 b (Z.of_nat i) ->
  i <> 2%nat \/ at8 b 2 < x ->
  _is_valid (Paket.new_paket (<[i := x]> b) size) = false.
Proof.
  intros size Hbytes Hsize Hlen Hvalid Hi Hx Hne Hwhere.
  unfold Paket.new_paket in *.
  destruct (Z.leb_spec 4 size) as [_|?]; [|lia].
  rewrite Hlen in Hvalid.
  destruct (Z.ltb_spec (4 + (size - 4)) size) as [?|_]; [lia|].
  assert (Hkeep : (if 4 + at8 (<[i:=x]> b) 2 <? size
                   then 4 + at8 (<[i:=x]> b) 2 else size) = size).
  { destruct (Z.ltb_spec (4 + at8 (<[i:=x]> b) 2) size) as [Hlt|]; [|done].
    exfalso. destruct Hwhere as [Hi2|Hbig].
    - unfold at8 in Hlt, Hlen. rewrite list_lookup_insert_ne in Hlt by done.
      lia.
    - destruct (decide (i = 2%nat)) as [->|Hi2].
      + unfold at8 in Hlt. change (Z.to_nat 2) with 2%nat in Hlt.
        rewrite list_lookup_insert_eq in Hlt by done. cbn in Hlt. lia.
      + unfold at8 in Hlt, Hlen. rewrite list_lookup_insert_ne in Hlt by done.
        lia. }
  rewrite Hkeep. cbn [_is_valid] in *.
  unfold Paket.is_valid_checksum in *. cbn [_buf _size] in *.
  rewrite sum8_spec in *.
  apply Z.eqb_eq in Hvalid. apply Z.eqb_neq.
  destruct (b !! i) as [y|] eqn:Hy; [|by apply lookup_ge_None in Hy; lia].
  assert (Hyb : is_byte y) by (by eapply (Forall_lookup_1 _ _ _ _ Hbytes)).
  assert (Hat : at8 b (Z.of_nat i) = y).
  { unfold at8. by rewrite Nat2Z.id, Hy. }
  rewrite Hat in Hne.
  destruct (decide (Z.of_nat i = size - 1)) as [Hlast|Hinner].
  - (* the checksum byte itself *)
    rewrite take_insert_ge by lia. rewrite Hvalid.
    rewrite <- Hlast, Hat. unfold at8. rewrite Nat2Z.id.
    rewrite list_lookup_insert_eq by done. cbn [default]. done.
  - (* a byte under the sum *)
    rewrite take_insert_lt by lia.
    rewrite (sum_insert _ _ _ y) by (rewrite lookup_take_lt by lia; done).
    assert (at8 (<[i:=x]> b) (size - 1) = at8 b (size - 1)) as ->.
    { unfold at8. rewrite list_lookup_insert_ne by lia. done. }
    rewrite <- Hvalid.
    unfold wrap8, is_byte in *. rewrite !Zplus_mod_idemp_l.
    intros Heq.
    set (t := foldr Z.add 0 (take (Z.to_nat (size - 1)) b)) in *.
    assert (Hdiv : ((t - y + x + 1) - (t + 1)) mod 256 = 0).
    { rewrite Zminus_mod, Heq, Z.sub_diag. done. }
    replace (t - y + x + 1 - (t + 1)) with (x - y) in Hdiv by lia.
    apply Z.mod_divide in Hdiv; [|lia]. destruct Hdiv as [q Hq]. lia.
Qed.

(** What [send_frame] writes is a paket: for a caller's buffer of
    address, kind, length placeholder, variable index, payload and checksum
    placeholder, the bytes pass [new_paket] and start with address and
    kind. *)
Lemma frame_bytes_valid (addr kind len0 var chk0 : Z) (payload : list Z) :
  (length payload <= 250)%nat ->
  let size := 5 + Z.of_nat (length payload) in
  let f := frame_bytes ([addr; kind; len0; var] ++ payload ++ [chk0]) size in
  _is_valid (Paket.new_paket f (Z.of_nat (length f))) = true
  /\ Z.of_nat (length f) = size /\ at8 f 0 = addr /\ at8 f 1 = kind.
Proof.
  intros Hlen size f. subst f. rewrite frame_bytes_layout. fold size.
  assert (Hsize : wrap8 (size - 4) = size - 4).
  { apply Z.mod_small. subst size. lia. }
  rewrite Hsize.
  set (head := [addr; kind; size - 4; var] ++ payload).
  assert (Hlen_head : Z.of_nat (length head) = size - 1).
  { subst head size. cbn [app length]. lia. }
  assert (Hlen_f : Z.of_nat (length (head ++ [wrap8 (1 + foldr Z.add 0 head)]))
                   = size).
  { rewrite length_app. cbn [length]. lia. }
  rewrite Hlen_f. split; [|done].
  unfold Paket.new_paket.
  assert (Hdsize : at8 (head ++ [wrap8 (1 + foldr Z.add 0 head)]) 2 = size - 4)
    by done.
  rewrite Hdsize.
  destruct (Z.leb_spec 4 size) as [_|?]; [|subst size; lia].
  destruct (Z.ltb_spec (4 + (size - 4)) size) as [?|_]; [lia|].
  cbn [_is_valid]. unfold Paket.is_valid_checksum. cbn [_buf _size].
  rewrite sum8_spec. rewrite <- Hlen_head at 1.
  rewrite Nat2Z.id, take_app_length.
  rewrite at8_app_r by lia. rewrite Hlen_head, Z.sub_diag.
  unfold at8. change (Z.to_nat 0) with 0%nat. cbn [lookup list_lookup default].
  unfold wrap8. rewrite Zplus_mod_idemp_l, (Z.add_comm 1). apply Z.eqb_refl.
Qed.

Ltac eval_sizes :=
  repeat match goal with
  | H : context [5 + Z.of_nat ?n] |- _ =>
    let v := eval vm_compute in (5 + Z.of_nat n) in
    change (5 + Z.of_nat n) with v in H
  end.

Lemma send_get_var_well_formed (i : Z) (f : list Z) :
  f ∈ writes (send_get_var i) -> well_formed_frame f /\ at8 f 1 = 0.
Proof.
  unfold send_get_var. rewrite send_frame_writes by done.
  intros ->%list_elem_of_singleton.
  destruct (frame_bytes_valid 0x13 0 1 (wrap8 i) 0 []) as (Hv & Hl & H0 & H1);
    [cbn; lia|].
  cbn [app length] in *. eval_sizes. unfold well_formed_frame. rewrite H1.
  repeat split; try done; try lia; by left.
Qed.

Lemma send_set_var_8bit_well_formed (i v : Z) (f : list Z) :
  f ∈ writes (send_set_var_8bit i v) -> well_formed_frame f /\ at8 f 1 = 1.
Proof.
  unfold send_set_var_8bit. rewrite send_frame_writes by done.
  intros ->%list_elem_of_singleton.
  destruct (frame_bytes_valid 0x13 1 2 (wrap8 i) 0 [wrap8 v])
    as (Hv & Hl & H0 & H1); [cbn; lia|].
  cbn [app length] in *. eval_sizes. unfold well_formed_frame. rewrite H1.
  repeat split; try done; try lia; by right.
Qed.

Lemma send_set_var_16bit_well_formed (i v : Z) (f : list Z) :
  f ∈ writes (send_set_var_16bit i v) -> well_formed_frame f /\ at8 f 1 = 1.
Proof.
  unfold send_set_var_16bit. rewrite send_frame_writes by done.
  intros ->%list_elem_of_singleton.
  destruct (frame_bytes_valid 0x13 1 3 (wrap8 i) 0
              [wrap8 (wrap16 v mod 256); wrap8 (wrap16 v / 256)])
    as (Hv & Hl & H0 & H1); [cbn; lia|].
  cbn [app length] in *. eval_sizes. unfold well_formed_frame. rewrite H1.
  repeat split; try done; try lia; by right.
Qed.

Lemma send_set_var_32bit_well_formed (i v : Z) (f : list Z) :
  f ∈ writes (send_set_var_32bit i v) -> well_formed_frame f /\ at8 f 1 = 1.
Proof.
  unfold send_set_var_32bit. rewrite send_frame_writes by done.
  intros ->%list_elem_of_singleton.
  destruct (frame_bytes_valid 0x13 1 5 (wrap8 i) 0
              [wrap8 (Z.land (wrap32 v) 0xff);
               wrap8 (Z.land (Z.shiftr (wrap32 v) 8) 0xff);
               wrap8 (Z.land (Z.shiftr (wrap32 v) 16) 0xff);
               wrap8 (Z.land (Z.shiftr (wrap32 v) 24) 0xff)])
    as (Hv & Hl & H0 & H1); [cbn; lia|].
  cbn [app length] in *. eval_sizes. unfold well_formed_frame. rewrite H1.
  repeat split; try done; try lia; by right.
Qed.

Lemma nothing_written (f : list Z) (P : Prop) : f ∈ writes [] -> P.
Proof. cbn. by intros ?%elem_of_nil. Qed.

(** X2: whatever the state, a frame the turn handler puts on the bus is a
    well-formed paket: it passes the receiver's checksum test, is addressed
    to 0x13, is a read (kind 0) or a write (kind 1), and has five to nine
    bytes. *)
Theorem our_turn_frames_well_formed (s : Kwl) (f : list Z) :
  f ∈ writes (snd (our_turn s)) -> well_formed_frame f.
Proof.
  unfold our_turn, our_turn_bypass, our_turn_fan, our_turn_party,
    our_turn_quiet, our_turn_getter.
  repeat case_match; simplify_eq; cbn [snd]; intros Hf;
    first [ by eapply nothing_written
          | by eapply send_get_var_well_formed
          | by eapply send_set_var_8bit_well_formed
          | by eapply send_set_var_16bit_well_formed
          | by eapply send_set_var_32bit_well_formed ].
Qed.

(** ** Further properties of the turn handler *)

(** X3: the first call after start does nothing but count, and the second
    asks for the temperature sensors -- whatever requests are pending, and
    without consuming any of them. *)
Theorem bootstrap_turns (s : Kwl) :
  our_cnt s = 0 -> initial_temp s = true ->
  our_turn s = (tick s, [])
  /\ our_turn (tick s)
     = (set_initial_temp false (tick (tick s)),
        send_get_var Var_3a_sensors_temp)
  /\ writes (snd (our_turn (tick s))) = [[0x13; 0; 1; 0x3a; 0x4f]].
Proof.
  intros Hcnt Hinit.
  assert (H2 : our_turn (tick s)
               = (set_initial_temp false (tick (tick s)),
                  send_get_var Var_3a_sensors_temp)).
  { unfold our_turn, tick. open_state s.
    change (wrap32 (wrap32 (0 + 1) + 1) <? 2) with false. done. }
  split; [|split; [done|]].
  - unfold our_turn, tick. open_state s.
    change (wrap32 (0 + 1) <? 2) with true. done.
  - rewrite H2. cbn [snd]. by rewrite send_get_var_writes.
Qed.

Ltac bool_hyp_all :=
  repeat match goal with
  | H : _ = true |- _ => progress bool_hyp H
  | H : _ = false |- _ => progress bool_hyp H
  end.

(** X4: writes go first: on a turn past the bootstrap with a write request
    pending, a frame that goes out is a write (kind 1), and no read request
    is consumed. *)
Theorem setters_before_getters (s : Kwl) :
  past_bootstrap s -> no_setter s = false ->
  (forall f, f ∈ writes (snd (our_turn s)) -> at8 f 1 = 1)
  /\ getters (fst (our_turn s)) = getters s
  /\ _terminate (fst (our_turn s)) = _terminate s.
Proof.
  intros [Hcnt Hinit] Hset.
  unfold our_turn, our_turn_bypass, our_turn_fan, our_turn_party,
    our_turn_quiet, no_setter in *.
  cbn [our_cnt set_our_cnt initial_temp] in *. rewrite Hinit.
  destruct (Z.ltb_spec (wrap32 (our_cnt s + 1)) 2) as [?|_]; [lia|].
  bool_hyp Hset.
  repeat case_match; simplify_eq; cbn [fst snd];
    try (exfalso; bool_hyp_all; intuition lia);
    (split; [|by destruct s]);
    intros f Hf;
    first [ by eapply nothing_written
          | by eapply send_set_var_8bit_well_formed
          | by eapply send_set_var_16bit_well_formed
          | by eapply send_set_var_32bit_well_formed ].
Qed.

(** X5: party mode with a duration takes two turns: the duration [d] (not one
    of the marks 0xaa00, 0xaa01) is written to the party time first, and
    the request turns into "enable", which the next turn writes before it
    clears the request. *)
Theorem party_duration_then_enable (s : Kwl) (d : Z) :
  past_bootstrap s -> past_bootstrap (tick s) ->
  opt_set_time s = 0 -> opt_set_bypass s = 0 -> opt_set_fan s = 0 ->
  opt_set_party s = d -> 0 < d < 65536 -> d <> 0xaa00 -> d <> 0xaa01 ->
  let s1 := set_opt_set_party 0xaa01 (tick s) in
  our_turn s = (s1, send_set_var_16bit Var_11_party_time d)
  /\ writes (snd (our_turn s)) = [write16_frame Var_11_party_time d]
  /\ our_turn s1 = (set_opt_set_party 0 (tick s1),
                    send_set_var_8bit Var_0f_party_enabled 1)
  /\ writes (snd (our_turn s1)) = [[0x13; 1; 2; 0x0f; 0x01; 0x27]].
Proof.
  intros [Hcnt Hinit] [Hcnt' _] Htime Hbypass Hfan Hparty Hd Hd0 Hd1 s1.
  assert (H1 : our_turn s = (s1, send_set_var_16bit Var_11_party_time d)).
  { subst s1. unfold our_turn, our_turn_party, tick. open_state s.
    repeat take_branch. done. }
  assert (H2 : our_turn s1 = (set_opt_set_party 0 (tick s1),
                              send_set_var_8bit Var_0f_party_enabled 1)).
  { subst s1. unfold our_turn, our_turn_party, tick in *. open_state s.
    repeat take_branch. done. }
  rewrite H1, H2. cbn [snd]. split; [done|]. split; [|split; [done|]].
  - apply send_set_var_16bit_writes; [done|lia].
  - unfold send_set_var_8bit. by rewrite send_frame_writes.
Qed.

(** X6: quiet mode with a duration: the same two turns on the quiet
    variables, once no party request is in the way. *)
Theorem quiet_duration_then_enable (s : Kwl) (d : Z) :
  past_bootstrap s -> past_bootstrap (tick s) ->
  opt_set_time s = 0 -> opt_set_bypass s = 0 -> opt_set_fan s = 0 ->
  opt_set_party s = 0 ->
  opt_set_quiet s = d -> 0 < d < 65536 -> d <> 0xaa00 -> d <> 0xaa01 ->
  let s1 := set_opt_set_quiet 0xaa01 (tick s) in
  our_turn s = (s1, send_set_var_16bit Var_56_quiet_time d)
  /\ writes (snd (our_turn s)) = [write16_frame Var_56_quiet_time d]
  /\ our_turn s1 = (set_opt_set_quiet 0 (tick s1),
                    send_set_var_8bit Var_55_quiet_enabled 1)
  /\ writes (snd (our_turn s1)) = [[0x13; 1; 2; 0x55; 0x01; 0x6d]].
Proof.
  intros [Hcnt Hinit] [Hcnt' _] Htime Hbypass Hfan Hparty Hquiet Hd Hd0 Hd1 s1.
  assert (H1 : our_turn s = (s1, send_set_var_16bit Var_56_quiet_time d)).
  { subst s1. unfold our_turn, our_turn_quiet, tick. open_state s.
    repeat take_branch. done. }
  assert (H2 : our_turn s1 = (set_opt_set_quiet 0 (tick s1),
                              send_set_var_8bit Var_55_quiet_enabled 1)).
  { subst s1. unfold our_turn, our_turn_quiet, tick in *. open_state s.
    repeat take_branch. done. }
  rewrite H1, H2. cbn [snd]. split; [done|]. split; [|split; [done|]].
  - apply send_set_var_16bit_writes; [done|lia].
  - unfold send_set_var_8bit. by rewrite send_frame_writes.
Qed.

(** X7: a manual fan level with the "disable auto first" bit ([0x100 + level],
    as the option [-f m:LEVEL] stores it): the first turn writes "manual"
    and clears the bit, the second writes the level with the 0xbb mark and
    clears the request.  The cached level and auto flag are not touched. *)
Theorem fan_manual_level_two_steps (s : Kwl) (level : Z) :
  past_bootstrap s -> past_bootstrap (tick s) ->
  opt_set_time s = 0 -> opt_set_bypass s = 0 ->
  1 <= level <= 4 -> opt_set_fan s = 0x100 + level ->
  let s1 := set_opt_set_fan level (tick s) in
  our_turn s = (s1, send_set_var_16bit Var_35_fan_level 0x00aa)
  /\ writes (snd (our_turn s)) = [[0x13; 1; 3; 0x35; 0xaa; 0x00; 0xf7]]
  /\ our_turn s1 = (set_opt_set_fan 0 (tick s1),
                    send_set_var_16bit Var_35_fan_level (0xbb00 + level))
  /\ writes (snd (our_turn s1))
     = [[0x13; 1; 3; 0x35; level; 0xbb; 0x08 + level]].
Proof.
  intros [Hcnt Hinit] [Hcnt' _] Htime Hbypass Hlevel Hfan s1.
  assert (Hcases : level = 1 \/ level = 2 \/ level = 3 \/ level = 4) by lia.
  assert (H1 : our_turn s
               = (s1, send_set_var_16bit Var_35_fan_level 0x00aa)).
  { subst s1. unfold our_turn, our_turn_fan, tick. open_state s.
    destruct Hcases as [-> | [-> | [-> | ->]]]; repeat take_branch; done. }
  assert (H2 : our_turn s1
               = (set_opt_set_fan 0 (tick s1),
                  send_set_var_16bit Var_35_fan_level (0xbb00 + level))).
  { subst s1. unfold our_turn, our_turn_fan, tick in *. open_state s.
    destruct Hcases as [-> | [-> | [-> | ->]]]; repeat take_branch; done. }
  rewrite H1, H2. cbn [snd].
  rewrite !send_set_var_16bit_writes by (unfold is_byte; done || lia).
  destruct Hcases as [-> | [-> | [-> | ->]]]; done.
Qed.

(** X8: in loop mode the turn handler never ends the program: [_terminate] is
    as it was after every call. *)
Theorem loop_mode_never_terminates (s : Kwl) :
  opt_do_loop s = true -> _terminate (fst (our_turn s)) = _terminate s.
Proof.
  intros Hloop.
  unfold our_turn, our_turn_bypass, our_turn_fan, our_turn_party,
    our_turn_quiet, our_turn_getter.
  cbn [opt_do_loop set_our_cnt]. rewrite Hloop.
  repeat case_match; simplify_eq; by destruct s.
Qed.

(** X9: without loop mode the program ends on the first turn past the
    bootstrap that finds nothing pending; that turn sends nothing.  And a
    turn that sets [_terminate] is always of this kind: one-shot mode, no
    write request pending, no frame sent. *)
Theorem one_shot_terminates_when_idle (s : Kwl) :
  (past_bootstrap s -> no_setter s = true -> no_getter s = true ->
   opt_do_loop s = false -> our_turn s = (set_terminate true (tick s), []))
  /\ (_terminate s = false -> _terminate (fst (our_turn s)) = true ->
      opt_do_loop s = false /\ no_setter s = true
      /\ snd (our_turn s) = []).
Proof.
  split.
  - intros [Hcnt Hinit] Hset Hget Hloop.
    unfold our_turn, our_turn_getter, tick, no_setter, no_getter in *.
    open_state s. bool_hyp Hset. bool_hyp Hget.
    destruct Hset as (((((-> & ->) & ->) & ->) & ->) & ->).
    destruct Hget as
      ((((((((((((-> & ->) & ->) & ->) & ->) & ->) & ->) & ->) & ->)
         & ->) & ->) & ->) & ->).
    simpl. repeat take_branch; done.
  - unfold our_turn, our_turn_bypass, our_turn_fan, our_turn_party,
      our_turn_quiet, our_turn_getter, no_setter.
    intros Hrun. destruct s; cbn in Hrun |- *; subst.
    repeat case_match; simplify_eq; cbn; try done.
    intros _. bool_hyp_all.
    repeat match goal with H : negb _ = _ |- _ => bool_hyp H end.
    repeat split; try done.
    repeat (apply andb_true_intro; split); by apply Z.eqb_eq.
Qed.

(** X10: the turn handler leaves what the decoder maintains alone, and the only
    thing it ever does to the cached fan level and auto flag is to mark
    both unknown. *)
Theorem our_turn_keeps_decoded (s : Kwl) :
  decoded (fst (our_turn s)) = decoded s
  /\ ((_fan_level (fst (our_turn s)) = _fan_level s
       /\ _fan_auto (fst (our_turn s)) = _fan_auto s)
      \/ (_fan_level (fst (our_turn s)) = -1
          /\ _fan_auto (fst (our_turn s)) = -1)).
Proof.
  unfold our_turn, our_turn_bypass, our_turn_fan, our_turn_party,
    our_turn_quiet, our_turn_getter.
  repeat case_match; simplify_eq; destruct s; cbn; auto.
Qed.

Lemma turns_S (n : nat) (s : Kwl) :
  turns (S n) s
  = (fst (turns n (fst (our_turn s))),
     snd (our_turn s) :: snd (turns n (fst (our_turn s)))).
Proof.
  cbn [turns]. destruct (our_turn s) as [s1 o1]. cbn [fst snd].
  by destruct (turns n s1).
Qed.

#[local] Arguments turns : simpl never.

(** With no write request pending the handler is at the read requests. *)
Lemma our_turn_at_getters (s : Kwl) :
  past_bootstrap s -> no_setter s = true ->
  our_turn s = our_turn_getter (tick s).
Proof.
  intros [Hcnt Hinit] Hset. unfold our_turn, tick, no_setter in *.
  open_state s. bool_hyp Hset.
  destruct Hset as (((((-> & ->) & ->) & ->) & ->) & ->).
  simpl. repeat take_branch. done.
Qed.

(** Decide the conditional at the head of the left-hand side. *)
Ltac head_branch :=
  match goal with
  | |- (if ?c then _ else _) = _ =>
    let E := fresh "E" in
    destruct c eqn:E; bool_hyp E; try absurd_branch
  end.

Ltac closed_wraps :=
  repeat match goal with
  | |- context [wrap32 (Zpos ?p - 1)] =>
    let v := eval vm_compute in (wrap32 (Zpos p - 1)) in
    change (wrap32 (Zpos p - 1)) with v
  end.

Lemma turns_step (n : nat) (s s1 : Kwl) (o : list Out) :
  our_turn s = (s1, o) ->
  turns (S n) s = (fst (turns n s1), o :: snd (turns n s1)).
Proof. intros H. rewrite turns_S, H. done. Qed.

(** Bring a state built from setters to its record form. *)
Ltac norm_state :=
  cbv beta iota delta
    [_p _temp _pakets_received _sp _first_frame _status_buf _fan_level
    _fan_auto _bypass _party _quiet opt_do_loop opt_set_time opt_set_bypass
    opt_set_fan opt_set_party opt_set_quiet opt_set_voltage opt_get_bypass
    opt_get_cal opt_get_hours_on opt_get_party_enabled opt_get_party_time
    opt_get_party_level opt_get_quiet_enabled opt_get_quiet_time
    opt_get_quiet_level opt_get_voltage opt_get_preheating
    opt_get_run_on_time opt_get_filter_time opt_verbose initial_temp our_cnt
    _terminate _interactive set_p set_temp set_pakets_received set_sp
    set_first_frame set_status_buf set_fan_level set_fan_auto set_bypass
    set_party set_quiet set_opt_do_loop set_opt_set_time set_opt_set_bypass
    set_opt_set_fan set_opt_set_party set_opt_set_quiet set_opt_set_voltage
    set_opt_get_bypass set_opt_get_cal set_opt_get_hours_on
    set_opt_get_party_enabled set_opt_get_party_time set_opt_get_party_level
    set_opt_get_quiet_enabled set_opt_get_quiet_time set_opt_get_quiet_level
    set_opt_get_voltage set_opt_get_preheating set_opt_get_run_on_time
    set_opt_get_filter_time set_opt_verbose set_initial_temp set_our_cnt
    set_terminate set_interactive].

(** One turn at the read requests, evaluated. *)
Ltac one_turn :=
  match goal with
  | |- context [turns (S ?n) ?st] =>
    let H := fresh "Hturn" in
    eassert (our_turn st = _) as H;
    [ rewrite our_turn_at_getters;
      [ | split; [simpl; rewrite ?wrap32_small by lia; lia | done] | done ];
      unfold our_turn_getter, tick; simpl;
      rewrite ?(wrap32_small (_ + 1)) by lia; closed_wraps;
      repeat head_branch; norm_state; reflexivity
    | rewrite (turns_step n st _ _ H); clear H; cbn [fst snd] ]
  end.

(** X11: the read-out that the option [--get-all] requests, in one-shot mode:
    seventeen turns send seventeen read requests in the fixed order bypass
    2 and 1, hours, the four voltages, party remaining time, time and
    level, quiet remaining time, time and level, pre-heating enabled and
    temperature, run-on time, filter interval; the eighteenth turn sends
    nothing and sets [_terminate]. *)
Theorem get_all_sequence (s : Kwl) :
  1 <= our_cnt s -> our_cnt s + 18 < 4294967296 ->
  initial_temp s = false -> no_setter s = true -> opt_do_loop s = false ->
  getters s = (2, 0, true, true, true, true, true, true, true,
               (4, 2, true, true)) ->
  map writes (snd (turns 17 s))
  = map (fun idx => [request_frame idx])
      [ Var_60_bypass2_temp; Var_1e_bypass1_temp; Var_15_hours_on;
        Var_16_fan_1_voltage; Var_17_fan_2_voltage; Var_18_fan_3_voltage;
        Var_19_fan_4_voltage; Var_10_party_curr_time; Var_11_party_time;
        Var_42_party_level; Var_54_quiet_curr_time; Var_56_quiet_time;
        Var_57_quiet_level; Var_4f_preheat_enabled; Var_50_preheat_temp;
        Var_49_nachlaufzeit; Var_38_change_filter ]
  /\ _terminate (fst (turns 17 s)) = _terminate s
  /\ snd (our_turn (fst (turns 17 s))) = []
  /\ _terminate (fst (our_turn (fst (turns 17 s)))) = true.
Proof.
  intros Hlo Hhi Hinit Hset Hloop Hget.
  unfold getters, no_setter in *. destruct s.
  cbn in Hlo, Hhi, Hinit, Hset, Hloop, Hget. simplify_eq.
  bool_hyp Hset. destruct Hset as (((((-> & ->) & ->) & ->) & ->) & ->).
  match goal with
  | |- context [turns 17 ?st] => eassert (turns 17 st = _) as Hrun
  end.
  { do 17 one_turn. reflexivity. }
  rewrite Hrun. cbn [fst snd]. clear Hrun.
  match goal with
  | |- context [our_turn ?st] =>
    eassert (our_turn st = _) as ->;
    [ rewrite our_turn_at_getters;
      [ | split; [simpl; rewrite ?wrap32_small by lia; lia | done] | done ];
      unfold our_turn_getter, tick; simpl;
      rewrite ?(wrap32_small (_ + 1)) by lia;
      repeat head_branch; norm_state; reflexivity | ]
  end.
  cbn [fst snd map _terminate]. rewrite !send_get_var_writes.
  repeat take_branch. done.
Qed.

(** ** Further properties of the decoder *)

Lemma print_paket_keeps_pending (time : Z) (s : Kwl) :
  pending (fst (print_paket time s)) = pending s.
Proof.
  unfold print_paket. cbn zeta.
  repeat case_match; simplify_eq; done.
Qed.

Lemma got_frame_loop_keeps_pending (fuel : nat) (time : Z) (b : list Z)
    (size : Z) (s : Kwl) (r : Kwl * list Out) :
  got_frame_loop fuel time b size s = Some r -> pending (fst r) = pending s.
Proof.
  revert b size s r. induction fuel as [|fuel IH]; intros b size s r; [done|].
  cbn [got_frame_loop].
  repeat (case_match; simplify_eq; try (intros [= <-]; done)); try done.
  all: intros [= <-]; cbn [fst].
  all: match goal with
       | H : got_frame_loop _ _ _ _ _ = Some _ |- _ =>
         apply IH in H; cbn [fst] in H; rewrite H
       end.
  all: match goal with
       | H : print_paket ?t ?s0 = (?s1, _) |- _ =>
         pose proof (print_paket_keeps_pending t s0) as Hp;
         rewrite H in Hp; cbn [fst] in Hp; rewrite Hp
       end.
  all: done.
Qed.

(** X12: decoding never touches a request: whatever bytes arrive, every pending
    read and write request, the mode flags and the bootstrap flag are after
    [got_frame] what they were before. *)
Theorem got_frame_keeps_pending (time : Z) (b : list Z) (size : Z) (s : Kwl) :
  pending (fst (got_frame time b size s)) = pending s.
Proof.
  unfold got_frame.
  destruct (got_frame_loop _ _ _ _ _) as [r|] eqn:Hr; cbn [default fst].
  - by eapply got_frame_loop_keeps_pending.
  - done.
Qed.

Lemma volume_flow_byte (v : Z) :
  is_byte v ->
  volume_flow v =
    if v <? 1 then 0 else if v <? 24 then 60 else if v <? 30 then 80
    else if v <? 37 then 100 else if v <? 43 then 120
    else if v <? 50 then 140 else if v <? 56 then 160
    else if v <? 63 then 180 else if v <? 69 then 200
    else if v <? 76 then 220 else if v <? 82 then 240
    else if v <? 89 then 260 else if v <? 95 then 280
    else if v <? 100 then 300 else 315.
Proof.
  intros Hv. unfold volume_flow. cbn zeta.
  by rewrite (Z.mod_small v 256 Hv : wrap8 v = v).
Qed.

(** X13: the volume flow shown for a fan voltage grows with the voltage and
    stays between 0 and 315 m3/h, for voltages that fit the byte the
    function takes. *)
Theorem volume_flow_monotone (v w : Z) :
  0 <= v -> v <= w -> w < 256 ->
  volume_flow v <= volume_flow w /\ 0 <= volume_flow v <= 315.
Proof.
  intros Hv Hvw Hw.
  rewrite !volume_flow_byte by (unfold is_byte; lia).
  repeat match goal with
  | |- context [?a <? ?b] => destruct (Z.ltb_spec a b); try lia
  end.
Qed.

(** Evaluate comparisons of literals. *)
Ltac closed_eqb :=
  repeat match goal with
  | |- context [Zpos ?p =? Zpos ?q] =>
    let v := eval vm_compute in (Zpos p =? Zpos q) in
    change (Zpos p =? Zpos q) with v
  | |- context [Zpos ?p =? 0] => change (Zpos p =? 0) with false
  end.

(** A paket that starts with ff ff can only be the status broadcast for
    [print_paket]: no other branch matches it. *)
Lemma print_paket_broadcast (time : Z) (s : Kwl) :
  at8 (_buf (_p s)) 0 = 0xff -> at8 (_buf (_p s)) 1 = 0xff ->
  print_paket time s
  = (set_fan_auto (if 0 <? at8 (_buf (_p s)) 10 then 1 else 0)
       (set_fan_level (at8 (_buf (_p s)) 9) s),
     Paket.print_status (_p s) (_temp s) (_bypass s) (_party s) (_quiet s)
       (negb (time =? 0))).
Proof.
  intros H0 H1.
  unfold print_paket, Paket.is_ping, Paket.is_request, Paket.is_ack_10,
    Paket.is_fan_no_change, Paket.is_status.
  cbn zeta. rewrite H0, H1. closed_eqb.
  repeat rewrite andb_false_r. cbn [andb orb negb].
  repeat rewrite andb_false_r. done.
Qed.

Lemma new_paket_fills (b : list Z) (size : Z) :
  4 <= size -> size <= 4 + at8 b 2 -> _size (Paket.new_paket b size) = size.
Proof.
  intros Hsize Hfill. unfold Paket.new_paket.
  destruct (Z.leb_spec 4 size); [|lia].
  destruct (Z.ltb_spec (4 + at8 b 2) size); [lia|done].
Qed.

(** [got_frame] on a buffer that one valid broadcast paket fills. *)
Lemma got_frame_broadcast (time : Z) (b : list Z) (size : Z) (s : Kwl) :
  4 <= size -> size <= 4 + at8 b 2 ->
  _is_valid (Paket.new_paket b size) = true ->
  at8 b 0 = 0xff -> at8 b 1 = 0xff ->
  got_frame time b size s
  = (set_fan_auto (if 0 <? at8 b 10 then 1 else 0)
       (set_fan_level (at8 b 9)
          (set_status_buf (copy_status b)
             (set_pakets_received (wrap64 (_pakets_received s + 1))
                (set_first_frame false
                   (set_p (Paket.new_paket b size) s))))),
     Paket.print_status (Paket.new_paket b size) (_temp s) (_bypass s)
       (_party s) (_quiet s) (negb (wrap64 time =? 0))).
Proof.
  intros Hsize Hfill Hvalid H0 H1.
  pose proof (new_paket_raw b size) as Hbuf.
  pose proof (new_paket_fills b size Hsize Hfill) as Hpsize.
  unfold got_frame.
  destruct (Z.to_nat size) as [|n] eqn:Hn; [lia|].
  remember (S n) as m eqn:Hm. cbn [got_frame_loop]. subst m.
  destruct (Z.ltb_spec size 4) as [?|_]; [lia|].
  cbn [_p set_p set_first_frame set_pakets_received]. rewrite Hvalid.
  cbn [negb]. unfold Paket.is_start_status. rewrite Hbuf, H0, H1.
  change (255 =? 255) with true. cbn [andb negb].
  rewrite print_paket_broadcast
    by (cbn [_p set_p set_first_frame set_pakets_received set_status_buf];
        by rewrite Hbuf).
  cbn [_p set_p set_first_frame set_pakets_received set_status_buf
       set_fan_auto set_fan_level _temp _bypass _party _quiet
       _pakets_received].
  rewrite Hpsize, Z.sub_diag, Hbuf.
  cbn [got_frame_loop]. change (0 <? 4) with true. cbv iota.
  cbn [default]. by rewrite app_nil_r.
Qed.


Lemma copy_status_at (b : list Z) (i : Z) :
  0 <= i < 27 -> at8 (copy_status b) i = at8 b i.
Proof.
  intros Hi. unfold copy_status, at8 at 1.
  rewrite list_lookup_fmap, lookup_seqZ_lt by lia.
  cbn. f_equal. lia.
Qed.

(** X15: what was kept of the last broadcast is what the closing status line
    shows: after a valid 27-byte broadcast went through [got_frame],
    [print_last_status] prints a status line with that broadcast's date,
    time, auto flag and fan level (and "not at the bottom of the screen"). *)
Theorem last_status_repeats_broadcast (time : Z) (b : list Z) (s : Kwl) :
  _is_valid (Paket.new_paket b 27) = true ->
  at8 b 0 = 0xff -> at8 b 1 = 0xff -> at8 b 2 = 23 ->
  head (snd (print_last_status (fst (got_frame time b 27 s))))
  = Some (Stdout "status"
            [at8 b 4; at8 b 3; at8 b 5; at8 b 6; at8 b 7; at8 b 8;
             at8 b 10; at8 b 9; 0]).
Proof.
  intros Hvalid H0 H1 H2.
  rewrite got_frame_broadcast by (done || lia). cbn [fst].
  unfold print_last_status.
  cbn [_status_buf set_fan_auto set_fan_level set_status_buf].
  rewrite (copy_status_at b 2), H2 by lia.
  change (negb (23 =? 0)) with true. cbv iota.
  assert (Hp1 : _size (Paket.new_paket (copy_status b) 27) = 27).
  { apply new_paket_fills; [lia|]. rewrite copy_status_at, H2; lia. }
  pose proof (new_paket_raw (copy_status b) 27) as Hp2.
  rewrite print_paket_broadcast;
    cbn [_p set_p]; rewrite ?Hp2, ?copy_status_at by lia; try done.
  unfold Paket.print_status. rewrite Hp1, Hp2.
  change (negb (27 =? 27)) with false. cbv iota.
  cbn [app head]. by rewrite !copy_status_at by lia.
Qed.

(** ** Further properties of the driver loop *)

Lemma interactive_keys_counter (e : Event) (k : Kwl) :
  our_cnt (fst (fst (interactive_keys e k))) = our_cnt k.
Proof.
  unfold interactive_keys. destruct (peek_input e) as [[d1 d2] d3].
  repeat case_match; by destruct k.
Qed.

(** X16: the handler is called on the cue and on nothing else: whatever a pass
    of the loop brings (byte or none, gap or none, any keys), it either
    leaves the call counter alone, or it has just stored the fourth byte
    of a buffer that reads 13 00 00 14 and the counter is up by one. *)
Theorem turn_only_on_cue (e : Event) (l : Loop) :
  let l' := fst (fst (loop_body e l)) in
  our_cnt (kwl l') = our_cnt (kwl l)
  \/ (idx l' = 4 /\ load32 (buf l') 0 = 0x14000013
      /\ our_cnt (kwl l') = wrap32 (our_cnt (kwl l) + 1)).
Proof.
  unfold loop_body. destruct (ev_read e) as [c|]; [|by left].
  assert (Hk : our_cnt (fst (fst (if _interactive (kwl l)
                                   then interactive_keys e (kwl l)
                                   else (kwl l, [], false))))
               = our_cnt (kwl l)).
  { destruct (_interactive (kwl l)); [apply interactive_keys_counter|done]. }
  destruct (if _interactive (kwl l) then interactive_keys e (kwl l)
            else (kwl l, [], false)) as [[k o1] brk].
  cbn [fst] in Hk. destruct brk; [by left|].
  assert (Hg : exists k2 o2 i,
    (if 25000000 <=? ev_time e
     then let '(k0, o) := got_frame (ev_time e) (buf l) (idx l) k in (k0, o, 0)
     else (k, [], idx l)) = (k2, o2, i) /\ our_cnt k2 = our_cnt (kwl l)).
  { destruct (25000000 <=? ev_time e).
    - pose proof (got_frame_keeps (ev_time e) (buf l) (idx l) k) as (Hc & _).
      destruct (got_frame (ev_time e) (buf l) (idx l) k) as [k0 o].
      cbn [fst] in Hc. exists k0, o, 0. split; [done|congruence].
    - by exists k, [], (idx l). }
  destruct Hg as (k2 & o2 & i & -> & Hk2).
  destruct (128 <=? i); [by left|].
  destruct ((i + 1 =? 4) && (load32 (<[Z.to_nat i:=c]> (buf l)) 0 =? 335544339))
    eqn:Hcue; [|by left].
  apply andb_true_iff in Hcue as [Hi Hload].
  apply Z.eqb_eq in Hi, Hload.
  pose proof (our_turn_counts k2) as Hcnt.
  destruct (our_turn k2) as [k3 o3]. cbn [fst kwl idx buf] in *.
  right. rewrite Hcnt, Hk2. done.
Qed.



(** ** Further properties of [main] *)

(** X18: with the device open, the lock taken and the port set up, [main] ends
    with whatever [scan_options] returned: a nonzero value (2 for help, 1
    for a bad argument) is the exit status and the loop is not entered;
    after the loop the status is 0. *)
Theorem main_returns_scan_options_code (env : Env) :
  0 <= env_uart_open env -> 0 < env_lock_open env ->
  env_uart_setup env = true ->
  let k := set_sp (env_uart_open env) Kwl_init in
  (snd (env_scan_options env k) <> 0 ->
   main env
   = (snd (env_scan_options env k),
      [Stdout "Helios KWL control" []]
      ++ snd (fst (env_scan_options env k))
      ++ snd (print_last_status (fst (fst (env_scan_options env k))))
      ++ [Stdout "newline" []],
      env_events env))
  /\ (snd (env_scan_options env k) = 0 -> fst (fst (main env)) = 0).
Proof.
  intros Hopen Hlock Hsetup k. unfold main. fold k.
  assert ((_sp k <? 0) = false) as ->.
  { subst k. cbn [_sp set_sp]. by apply Z.ltb_ge. }
  assert ((0 <? env_lock_open env) = true) as -> by by apply Z.ltb_lt.
  rewrite Hsetup.
  destruct (env_scan_options env k) as [[k' o] rv]. cbn [fst snd].
  split.
  - intros Hrv. apply Z.eqb_neq in Hrv. rewrite Hrv.
    by destruct (print_last_status k').
  - intros ->. change (0 =? 0) with true. cbv iota.
    destruct (main_loop _ _) as [[l o'] rest].
    by destruct (print_last_status (kwl l)).
Qed.

(** ** Keys and turns together *)

(** X19: the key [b] in interactive mode asks for the bypass toggle and for a
    fresh read of the bypass temperature.  With nothing else pending and
    the reading known, the next turn writes the toggled temperature (280
    below 20.0 degrees, else 180) and the turn after it asks for bypass
    temperature 1. *)
Theorem bypass_key_toggles_then_reads (e : Event) (k : Kwl) :
  ev_key1 e = 98 ->
  let k' := fst (fst (interactive_keys e k)) in
  snd (interactive_keys e k) = false
  /\ opt_set_bypass k' = 0xffff /\ opt_get_bypass k' = 1
  /\ (past_bootstrap k -> past_bootstrap (tick k) -> no_setter k = true ->
      0 <= _bypass k < 0xffff ->
      map writes (snd (turns 2 k'))
      = [ [write16_frame Var_1e_bypass1_temp
             (if _bypass k <? 200 then 280 else 180)];
          [request_frame Var_1e_bypass1_temp] ]).
Proof.
  intros Hkey.
  assert (Hkeys : interactive_keys e k
                  = (set_opt_get_bypass 1 (set_opt_set_bypass 0xffff k),
                     [Stdout "clear line" []], false)).
  { unfold interactive_keys, peek_input. rewrite Hkey. done. }
  rewrite Hkeys. cbn [fst snd]. do 3 (split; [done|]).
  intros [Hcnt Hinit] [Hcnt' _] Hset Hknown.
  unfold no_setter in Hset. bool_hyp Hset.
  destruct Hset as (((((Ht & Hb) & Hf) & Hp) & Hq) & Hv).
  set (v := if _bypass k <? 200 then 280 else 180).
  set (k0 := set_opt_get_bypass 1 (set_opt_set_bypass 65535 k)).
  set (k1 := set_opt_set_bypass 0 (tick k0)).
  assert (H1 : our_turn k0 = (k1, send_set_var_16bit Var_1e_bypass1_temp v)).
  { subst k1 k0 v. unfold our_turn, our_turn_bypass, tick.
    destruct k; simpl in *; subst.
    destruct (Z.ltb_spec _bypass0 200); repeat take_branch; done. }
  assert (H2 : our_turn k1
               = (set_opt_get_bypass 0 (tick k1),
                  send_get_var Var_1e_bypass1_temp)).
  { subst k1 k0. unfold our_turn, our_turn_getter, tick in *.
    destruct k; simpl in *; subst.
    repeat take_branch. done. }
  rewrite !turns_S, H1. cbn [fst snd]. rewrite H2. cbn [fst snd map].
  rewrite send_get_var_writes.
  rewrite send_set_var_16bit_writes;
    [done | done | subst v; destruct (_bypass k <? 200); lia].
Qed.

(** ** Values through the decoder *)

(** Two bytes, low first, read back as the 16-bit value they came from. *)
Lemma lor_bytes (v : Z) :
  0 <= v -> Z.lor (v mod 256) (Z.shiftl (v / 256) 8) = v.
Proof.
  intros Hv. change 256 with (2 ^ 8).
  apply Z.bits_inj'. intros n Hn. rewrite Z.lor_spec.
  destruct (Z.lt_ge_cases n 8) as [Hlow|Hhigh].
  - rewrite Z.shiftl_spec_low by done. rewrite orb_false_r.
    apply Z.mod_pow2_bits_low. lia.
  - rewrite Z.mod_pow2_bits_high by lia. cbn [orb].
    rewrite Z.shiftl_spec by done.
    rewrite <- Z.shiftr_div_pow2 by lia.
    rewrite Z.shiftr_spec by lia. f_equal. lia.
Qed.

(** [print_paket] on a 16-bit status of one of the three snapshot
    variables. *)
Lemma print_paket_snapshot16 (time : Z) (s : Kwl) (idx : Z) :
  _is_valid (_p s) = true ->
  at8 (_buf (_p s)) 1 = 1 -> Paket.dsize (_p s) = 3 ->
  at8 (_buf (_p s)) 3 = idx ->
  (idx = Var_1e_bypass1_temp ->
   _bypass (fst (print_paket time s)) = Paket.u16 (_p s) 0)
  /\ (idx = Var_10_party_curr_time ->
      _party (fst (print_paket time s)) = Paket.u16 (_p s) 0)
  /\ (idx = Var_54_quiet_curr_time ->
      _quiet (fst (print_paket time s)) = Paket.u16 (_p s) 0).
Proof.
  intros Hvalid H1 H2 H3.
  unfold print_paket, Paket.is_ping, Paket.is_request, Paket.is_ack_10,
    Paket.is_fan_no_change, Paket.is_status.
  cbn zeta. rewrite Hvalid, H1, H2, H3.
  split; [|split]; intros ->;
    unfold Var_1e_bypass1_temp, Var_10_party_curr_time,
      Var_54_quiet_curr_time, Var_35_fan_level, Var_3a_sensors_temp,
      Var_3b_sensors_co2, Var_3c_sensors_humidity, Var_06_calendar_sun,
      Var_0e_preheat_temp, Var_11_party_time, Var_15_hours_on,
      Var_16_fan_1_voltage, Var_19_fan_4_voltage, Var_38_change_filter,
      Var_42_party_level, Var_49_nachlaufzeit, Var_4f_preheat_enabled;
    closed_eqb; repeat rewrite andb_false_r; cbn [andb orb negb];
    repeat rewrite andb_false_r; cbn [andb orb negb]; done.
Qed.

Lemma counted_paket_p (b : list Z) (p : Paket) (s : Kwl) :
  _p (counted_paket b p s) = p.
Proof. unfold counted_paket. by case_match. Qed.

(** A seven-byte status frame alone in the buffer: [got_frame] ends in the
    state [print_paket] leaves. *)
Lemma got_frame_status16 (time a idx v : Z) (s : Kwl) :
  0x10 <= a <= 0x13 -> is_byte idx -> 0 <= v < 65536 ->
  let f := frame_bytes [a; 1; 0; idx; v mod 256; v / 256; 0] 7 in
  let p := Paket.new_paket f 7 in
  _is_valid p = true /\ at8 (_buf p) 1 = 1 /\ Paket.dsize p = 3
  /\ at8 (_buf p) 3 = idx /\ Paket.u16 p 0 = v
  /\ fst (got_frame time f 7 s)
     = fst (print_paket (wrap64 time) (counted_paket f p s)).
Proof.
  intros Ha Hidx Hv f p.
  assert (Hlo : 0 <= v mod 256 < 256) by (apply Z.mod_pos_bound; lia).
  assert (Hhi : 0 <= v / 256 < 256).
  { split; [apply Z.div_pos; lia | apply Z.div_lt_upper_bound; lia]. }
  destruct (frame_bytes_valid a 1 0 idx 0 [v mod 256; v / 256])
    as (Hvalid & Hlen & _ & _); [cbn; lia|].
  pose proof (frame_bytes_layout a 1 0 idx 0 [v mod 256; v / 256]) as Hf.
  cbn zeta in Hvalid, Hlen, Hf. cbn [app length] in Hvalid, Hlen, Hf.
  change (5 + Z.of_nat 2) with 7 in *. fold f in Hvalid, Hlen, Hf.
  change (wrap8 (7 - 4)) with 3 in Hf.
  rewrite Hlen in Hvalid. fold p in Hvalid.
  set (chk := wrap8 _) in Hf.
  assert (Hchk : is_byte chk) by (apply Z.mod_pos_bound; lia).
  assert (Hbytes : Forall is_byte f).
  { rewrite Hf. unfold is_byte in *. repeat constructor; lia. }
  assert (Hbuf : _buf p = f) by apply new_paket_raw.
  assert (Hsize : _size p = 7).
  { subst p. apply new_paket_fills; [lia|]. rewrite Hf.
    change (at8 _ 2) with 3. lia. }
  assert (Hstart : Paket.is_start_status p || Paket.is_start_addr p = true).
  { unfold Paket.is_start_addr. rewrite Hvalid, Hbuf, Hf.
    change (at8 (a :: _) 0) with a.
    destruct (Z.leb_spec 16 a); [|lia]. destruct (Z.leb_spec a 19); [|lia].
    apply orb_true_r. }
  split; [done|]. rewrite Hbuf. unfold Paket.dsize, Paket.u16.
  rewrite Hbuf, Hsize.
  split; [by rewrite Hf|]. split; [by rewrite Hf|]. split; [by rewrite Hf|].
  split.
  { change (0 + 4 + 2 * 0 <? 7) with true. cbv iota. rewrite Hf.
    unfold load16. change (at8 _ (4 + 2 * 0)) with (v mod 256).
    change (at8 _ (4 + 2 * 0 + 1)) with (v / 256).
    apply lor_bytes. lia. }
  rewrite (got_frame_valid_start time f 7 s Hbytes ltac:(lia) Hvalid Hstart).
  cbn [fst]. fold p. rewrite Hsize. change (7 - 7) with 0.
  unfold got_frame at 1. cbn [got_frame_loop].
  change (0 <? 4) with true. cbv iota. done.
Qed.

(** X20: a value through the wire and back: a 16-bit status frame for the
    bypass temperature, the remaining party time or the remaining quiet
    time, built by the frame encoder for a device address and any value,
    leaves exactly that value in the snapshot when [got_frame] decodes
    it. *)
Theorem snapshot_value_roundtrip (time a v : Z) (s : Kwl) :
  0x10 <= a <= 0x13 -> 0 <= v < 65536 ->
  let frame idx := frame_bytes [a; 1; 0; idx; v mod 256; v / 256; 0] 7 in
  _bypass (fst (got_frame time (frame Var_1e_bypass1_temp) 7 s)) = v
  /\ _party (fst (got_frame time (frame Var_10_party_curr_time) 7 s)) = v
  /\ _quiet (fst (got_frame time (frame Var_54_quiet_curr_time) 7 s)) = v.
Proof.
  intros Ha Hv frame. subst frame. cbn beta.
  split; [|split].
  - destruct (got_frame_status16 time a Var_1e_bypass1_temp v s Ha
                ltac:(by split) Hv) as (H1 & H2 & H3 & H4 & H5 & ->).
    edestruct (print_paket_snapshot16 (wrap64 time)) as (Hb & _ & _);
      [rewrite counted_paket_p; eassumption..|].
    rewrite Hb by done. by rewrite counted_paket_p.
  - destruct (got_frame_status16 time a Var_10_party_curr_time v s Ha
                ltac:(by split) Hv) as (H1 & H2 & H3 & H4 & H5 & ->).
    edestruct (print_paket_snapshot16 (wrap64 time)) as (_ & Hb & _);
      [rewrite counted_paket_p; eassumption..|].
    rewrite Hb by done. by rewrite counted_paket_p.
  - destruct (got_frame_status16 time a Var_54_quiet_curr_time v s Ha
                ltac:(by split) Hv) as (H1 & H2 & H3 & H4 & H5 & ->).
    edestruct (print_paket_snapshot16 (wrap64 time)) as (_ & _ & Hb);
      [rewrite counted_paket_p; eassumption..|].
    rewrite Hb by done. by rewrite counted_paket_p.
Qed.

End Engine.


(** ** The theorems at sample inputs *)

(** The cue at start-up: the ping of 0x13 after a gap, then a byte of the
    next frame after 30 ms of silence.  One call. *)
Lemma cue_grants_one_turn_witness :
  ((4 <= length (buf sample_loop))%nat
   /\ _terminate (kwl sample_loop) = false)
  /\ our_cnt (kwl (fst (fst (main_loop write_all
       [rx 0x13 30000000; rx 0x00 500000; rx 0x00 500000; rx 0x14 500000;
        rx 0x10 30000000] sample_loop)))) = 1.
Proof.
  split.
  - split; [vm_compute; lia | reflexivity].
  - apply (cue_grants_one_turn write_all sample_loop
             30000000 500000 500000 500000 30000000 0x10).
    + vm_compute. lia.
    + reflexivity.
    + lia.
    + lia.
    + lia.
    + lia.
    + lia.
Defined.

(** C1 as claimed: the bytes 13 00 01 14 56 after a gap, then silence.
    The fourth byte does not complete the cue (the third byte is 01, not
    00): the handler is never called and nothing goes out. *)
Lemma claimed_cue_grants_no_turn :
  let '(l, o, rest) :=
    main_loop write_all
      [rx 0x13 30000000; rx 0x00 500000; rx 0x01 500000; rx 0x14 500000;
       rx 0x56 500000; rx 0x10 30000000] sample_loop in
  our_cnt (kwl l) = 0 /\ our_cnt (kwl l) <> 1 /\ writes o = [] /\ rest = [].
Proof. vm_compute. repeat split. discriminate. Qed.

(** The four voltage reads on the sample object. *)
Lemma voltage_reads_ascend_witness :
  (1 <= our_cnt sample_voltage /\ our_cnt sample_voltage + 4 < 4294967296
   /\ initial_temp sample_voltage = false /\ no_setter sample_voltage = true
   /\ opt_get_bypass sample_voltage <> 2 /\ opt_get_bypass sample_voltage <> 1
   /\ opt_get_hours_on sample_voltage = false
   /\ opt_get_voltage sample_voltage = 4)
  /\ map writes (snd (turns write_all 4 sample_voltage)) =
       [ [[0x13; 0; 1; 0x16; 0x2b]]; [[0x13; 0; 1; 0x17; 0x2c]];
         [[0x13; 0; 1; 0x18; 0x2d]]; [[0x13; 0; 1; 0x19; 0x2e]] ].
Proof.
  split.
  - vm_compute. repeat split; discriminate.
  - apply (voltage_reads_ascend write_all sample_voltage).
    + vm_compute. discriminate.
    + reflexivity.
    + reflexivity.
    + reflexivity.
    + vm_compute. discriminate.
    + vm_compute. discriminate.
    + reflexivity.
    + reflexivity.
Defined.

(** C2 as claimed: "fan 4 voltage first, fan 1 voltage last".  On the
    sample object the first of the four turns asks for variable 0x16, the
    voltage of fan level 1, and the sequence is not the descending one. *)
Lemma voltage_reads_not_descending :
  writes (snd (our_turn write_all sample_voltage))
  = [[0x13; 0; 1; Var_16_fan_1_voltage; 0x2b]]
  /\ map writes (snd (turns write_all 4 sample_voltage)) <>
       [ [request_frame Var_19_fan_4_voltage];
         [request_frame Var_18_fan_3_voltage];
         [request_frame Var_17_fan_2_voltage];
         [request_frame Var_16_fan_1_voltage] ].
Proof. split; [reflexivity|]. vm_compute. discriminate. Qed.

(** The start with the lock file taken: status 0, the pass offered by the
    environment is not consumed. *)
Lemma main_lock_conflict_returns_0_witness :
  (0 <= env_uart_open sample_env /\ env_lock_open sample_env <= 0)
  /\ fst (fst (main write_all sample_env)) = 0
  /\ snd (main write_all sample_env) = env_events sample_env.
Proof.
  split.
  - vm_compute. split; discriminate.
  - rewrite (main_lock_conflict_returns_0 write_all sample_env).
    + split; reflexivity.
    + vm_compute. discriminate.
    + vm_compute. discriminate.
Defined.

(** The write of 280 to the bypass temperature, encoded and decoded. *)
Lemma encode_decode_roundtrip_witness :
  (is_byte 0x13 /\ is_byte 1 /\ is_byte 0x1e
   /\ Forall is_byte [0x18; 0x01] /\ (length [0x18; 0x01] <= 250)%nat)
  /\ writes (send_frame write_all [0x13; 1; 0; 0x1e; 0x18; 0x01; 0] 7)
     = [[0x13; 1; 3; 0x1e; 0x18; 0x01; 0x4f]]
  /\ _is_valid (Paket.new_paket [0x13; 1; 3; 0x1e; 0x18; 0x01; 0x4f] 7) = true.
Proof.
  assert (Hb : forall b, (0 <=? b) && (b <? 256) = true -> is_byte b).
  { intros b [H1 H2]%andb_true_iff. split; lia. }
  assert (H : Forall is_byte [0x18; 0x01]).
  { repeat constructor; apply Hb; reflexivity. }
  assert (Hlen : (length [0x18; 0x01] <= 250)%nat) by (cbn; lia).
  split.
  - repeat split; try apply Hb; try reflexivity; try done.
  - pose proof (encode_decode_roundtrip write_all 0x13 1 0x1e 0 0
                  [0x18; 0x01] (Hb 0x13 eq_refl) (Hb 1 eq_refl) (Hb 0x1e eq_refl)
                  H Hlen) as (Hsent & Hvalid & _).
    split; [exact Hsent | exact Hvalid].
Defined.

(** The toggle at readings 195, 205 and unknown. *)
Lemma bypass_toggle_resolution_witness :
  (past_bootstrap (sample_toggle 195) /\ opt_set_time (sample_toggle 195) = 0
   /\ opt_set_bypass (sample_toggle 195) = 0xffff)
  /\ writes (snd (our_turn write_all (sample_toggle 195)))
     = [[0x13; 1; 3; 0x1e; 0x18; 0x01; 0x4f]]
  /\ writes (snd (our_turn write_all (sample_toggle 205)))
     = [[0x13; 1; 3; 0x1e; 0xb4; 0x00; 0xea]]
  /\ our_turn write_all (sample_toggle 0xffff)
     = (tick (sample_toggle 0xffff), []).
Proof.
  assert (Hp : forall r, past_bootstrap (sample_toggle r)).
  { intros r. split; [vm_compute; discriminate | reflexivity]. }
  split; [by repeat split|].
  split; [|split].
  - apply (bypass_toggle_resolution write_all (sample_toggle 195));
      [apply Hp | reflexivity | reflexivity | vm_compute; reflexivity].
  - apply (bypass_toggle_resolution write_all (sample_toggle 205));
      [apply Hp | reflexivity | reflexivity
      | vm_compute; discriminate | vm_compute; discriminate].
  - apply (bypass_toggle_resolution write_all (sample_toggle 0xffff));
      [apply Hp | reflexivity | reflexivity | reflexivity].
Defined.

(** Fan down from level 2, in manual mode (one turn) and in auto mode (two
    turns). *)
Lemma fan_down_from_level_2_witness :
  (past_bootstrap (sample_fan 0xe000 2 0)
   /\ opt_set_time (sample_fan 0xe000 2 0) = 0
   /\ opt_set_bypass (sample_fan 0xe000 2 0) = 0
   /\ opt_set_fan (sample_fan 0xe000 2 0) = 0xe000
   /\ _fan_level (sample_fan 0xe000 2 0) = 2)
  /\ writes (snd (our_turn write_all (sample_fan 0xe000 2 0)))
     = [[0x13; 1; 3; 0x35; 0x01; 0xbb; 0x09]]
  /\ map writes (snd (turns write_all 2 (sample_fan 0xe000 2 1)))
     = [ [[0x13; 1; 3; 0x35; 0xaa; 0x00; 0xf7]];
         [[0x13; 1; 3; 0x35; 0x01; 0xbb; 0x09]] ].
Proof.
  assert (Hp : forall a, past_bootstrap (sample_fan 0xe000 2 a)).
  { intros a. split; [vm_compute; discriminate | reflexivity]. }
  split; [by repeat split|].
  split.
  - destruct (fan_down_from_level_2 write_all (sample_fan 0xe000 2 0)
                (Hp 0) eq_refl eq_refl eq_refl eq_refl) as [Hmanual _].
    apply Hmanual. reflexivity.
  - destruct (fan_down_from_level_2 write_all (sample_fan 0xe000 2 1)
                (Hp 1) eq_refl eq_refl eq_refl eq_refl) as [_ Hauto].
    destruct (Hauto eq_refl) as (H1 & Hw1 & _ & _ & H2 & Hw2).
    { split; [vm_compute; discriminate | reflexivity]. }
    cbn [turns]. rewrite H1, H2. cbn [snd map].
    rewrite H1 in Hw1. rewrite H2 in Hw2. cbn [snd] in Hw1, Hw2.
    by rewrite Hw1, Hw2.
Defined.

(** Fan down at level 1 and fan up at level 4. *)
Lemma fan_step_out_of_range_dropped_witness :
  (past_bootstrap (sample_fan 0xe000 1 0)
   /\ opt_set_time (sample_fan 0xe000 1 0) = 0
   /\ opt_set_bypass (sample_fan 0xe000 1 0) = 0
   /\ _fan_level (sample_fan 0xe000 1 0) <> -1)
  /\ our_turn write_all (sample_fan 0xe000 1 0)
     = (set_opt_set_fan 0 (tick (sample_fan 0xe000 1 0)), [])
  /\ our_turn write_all (sample_fan 0xf000 4 0)
     = (set_opt_set_fan 0 (tick (sample_fan 0xf000 4 0)), []).
Proof.
  assert (Hp : forall r v, past_bootstrap (sample_fan r v 0)).
  { intros r v. split; [vm_compute; discriminate | reflexivity]. }
  split; [repeat split; try done; vm_compute; discriminate|].
  split.
  - apply (fan_step_out_of_range_dropped write_all (sample_fan 0xe000 1 0));
      [apply Hp | reflexivity | reflexivity | vm_compute; discriminate|].
    left. split; [reflexivity|]. left. vm_compute. reflexivity.
  - apply (fan_step_out_of_range_dropped write_all (sample_fan 0xf000 4 0));
      [apply Hp | reflexivity | reflexivity | vm_compute; discriminate|].
    right. split; [reflexivity|]. right. vm_compute. reflexivity.
Defined.

(** From the initial object: a buffer with a valid ping, a ping with a
    wrong checksum and another valid ping reports the second and never
    reaches the third; the same bad ping as the first frame ever seen is
    passed over in silence, and reported when it comes again. *)
Lemma got_frame_stops_at_bad_checksum_witness :
  let good_bad_good := [0x10; 0; 0; 0x11; 0x13; 0; 0; 0x99; 0x11; 0; 0; 0x12] in
  let bad_good := [0x13; 0; 0; 0x99; 0x11; 0; 0; 0x12] in
  Forall is_byte good_bad_good
  /\ snd (got_frame 30000000 good_bad_good 12 Kwl_init)
     = [Stdout "ignoring" [0x13; 0; 0; 0x99]]
  /\ _pakets_received (fst (got_frame 30000000 good_bad_good 12 Kwl_init)) = 1
  /\ got_frame 30000000 bad_good 8 Kwl_init
     = (set_first_frame false
          (set_p (Paket.new_paket bad_good 8) Kwl_init), [])
  /\ snd (got_frame 30000000 bad_good 8
            (fst (got_frame 30000000 bad_good 8 Kwl_init)))
     = [Stdout "ignoring" [0x13; 0; 0; 0x99]].
Proof.
  cbn zeta.
  assert (Hbyte : forall x, (0 <=? x) && (x <? 256) = true -> is_byte x).
  { intros x [H1 H2]%andb_true_iff. split; lia. }
  assert (H1 : Forall is_byte
                 [0x10; 0; 0; 0x11; 0x13; 0; 0; 0x99; 0x11; 0; 0; 0x12]).
  { repeat constructor; apply Hbyte; reflexivity. }
  assert (H2 : Forall is_byte [0x13; 0; 0; 0x99; 0x11; 0; 0; 0x12]).
  { repeat constructor; apply Hbyte; reflexivity. }
  split; [exact H1|].
  destruct (got_frame_stops_at_bad_checksum 0 30000000
              [0x10; 0; 0; 0x11; 0x13; 0; 0; 0x99; 0x11; 0; 0; 0x12] 12
              Kwl_init H1) as (_ & _ & _ & _ & Hfront).
  destruct (Hfront ltac:(lia) eq_refl eq_refl) as (_ & _ & Hbehind).
  destruct (Hbehind ltac:(vm_compute; discriminate) eq_refl)
    as (Hout & Hcount).
  split; [exact Hout|]. split; [exact Hcount|].
  destruct (got_frame_stops_at_bad_checksum 0 30000000
              [0x13; 0; 0; 0x99; 0x11; 0; 0; 0x12] 8 Kwl_init H2)
    as (_ & _ & _ & Hbad & _).
  destruct (Hbad ltac:(lia) eq_refl) as (_ & Hfirst & _).
  split; [exact Hfirst|].
  destruct (got_frame_stops_at_bad_checksum 0 30000000
              [0x13; 0; 0; 0x99; 0x11; 0; 0; 0x12] 8
              (fst (got_frame 30000000 [0x13; 0; 0; 0x99; 0x11; 0; 0; 0x12]
                      8 Kwl_init)) H2)
    as (_ & _ & _ & Hagain & _).
  destruct (Hagain ltac:(lia) eq_refl) as (_ & -> & _).
  reflexivity.
Defined.

(** Turn 10 with party and quiet both running, and with quiet alone. *)
Lemma low_frequency_party_before_quiet_witness :
  (wrap32 (our_cnt (sample_modes 30 20) + 1) mod 8 = 2
   /\ initial_temp (sample_modes 30 20) = false
   /\ no_setter (sample_modes 30 20) = true
   /\ no_getter (sample_modes 30 20) = true
   /\ opt_do_loop (sample_modes 30 20) = true)
  /\ writes (snd (our_turn write_all (sample_modes 30 20)))
     = [[0x13; 0; 1; 0x10; 0x25]]
  /\ writes (snd (our_turn write_all (sample_modes 0 20)))
     = [[0x13; 0; 1; 0x54; 0x69]].
Proof.
  split; [by repeat split|].
  split.
  - apply (low_frequency_party_before_quiet write_all (sample_modes 30 20));
      [reflexivity.. | vm_compute; discriminate].
  - apply (low_frequency_party_before_quiet write_all (sample_modes 0 20));
      [reflexivity.. | vm_compute; discriminate].
Defined.

(** ** The decoder on sample buffers *)

(** Three pings in one buffer, the second with a wrong checksum: the first
    is counted, the second is reported, the third is never looked at. *)
Example got_frame_valid_bad_valid :
  let b := [0x10; 0; 0; 0x11; 0x13; 0; 0; 0x99; 0x11; 0; 0; 0x12] in
  let '(s, o) := got_frame 30000000 b 12 Kwl_init in
  _pakets_received s = 1
  /\ o = [Stdout "ignoring" [0x13; 0; 0; 0x99]].
Proof. vm_compute. done. Qed.

(** The same three pings with all checksums right: three pakets. *)
Example got_frame_three_valid :
  let b := [0x10; 0; 0; 0x11; 0x13; 0; 0; 0x14; 0x11; 0; 0; 0x12] in
  let '(s, o) := got_frame 30000000 b 12 Kwl_init in
  _pakets_received s = 3 /\ o = [].
Proof. vm_compute. done. Qed.

(** ** The further properties at sample inputs *)

Local Ltac by_eval := vm_compute; first [reflexivity | discriminate | done].

Lemma sample_bytes (l : list Z) :
  forallb (fun x => (0 <=? x) && (x <? 256)) l = true -> Forall is_byte l.
Proof.
  intros H. apply Forall_forall. intros x Hx%list_elem_of_In.
  rewrite forallb_forall in H. apply H in Hx.
  apply andb_true_iff in Hx as [H1 H2]. split; lia.
Qed.

(** The sample frame with its payload byte 0x18 turned into 0x19. *)
Lemma corrupted_byte_is_detected_witness :
  (Forall is_byte sample_frame
   /\ _is_valid (Paket.new_paket sample_frame 7) = true)
  /\ _is_valid (Paket.new_paket (<[4%nat := 0x19]> sample_frame) 7) = false.
Proof.
  assert (Hb : Forall is_byte sample_frame) by (apply sample_bytes; reflexivity).
  split; [split; [exact Hb | reflexivity]|].
  apply (corrupted_byte_is_detected sample_frame 4 0x19 Hb).
  - by_eval.
  - reflexivity.
  - reflexivity.
  - cbn. lia.
  - split; lia.
  - by_eval.
  - left. lia.
Defined.

(** The frame of the bypass toggle at reading 195. *)
Lemma our_turn_frames_well_formed_witness :
  sample_frame ∈ writes (snd (our_turn write_all (sample_toggle 195)))
  /\ well_formed_frame sample_frame.
Proof.
  assert (H : sample_frame
              ∈ writes (snd (our_turn write_all (sample_toggle 195)))).
  { vm_compute. apply list_elem_of_here. }
  split; [exact H|].
  exact (our_turn_frames_well_formed write_all (sample_toggle 195)
           sample_frame H).
Defined.

(** The first two turns of the initial object. *)
Lemma bootstrap_turns_witness :
  (our_cnt Kwl_init = 0 /\ initial_temp Kwl_init = true)
  /\ map writes (snd (turns write_all 2 Kwl_init))
     = [[]; [[0x13; 0; 1; 0x3a; 0x4f]]].
Proof.
  split; [split; reflexivity|].
  destruct (bootstrap_turns write_all Kwl_init eq_refl eq_refl)
    as (H1 & H2 & H3).
  cbn [turns]. rewrite H1. change (tick Kwl_init) with (tick Kwl_init).
  rewrite H2. cbn [snd map]. rewrite H2 in H3. cbn [snd] in H3.
  rewrite H3. reflexivity.
Defined.

(** A pending fan request in front of the pending voltage reads. *)
Lemma setters_before_getters_witness :
  (past_bootstrap (set_opt_set_fan 0xaa sample_voltage)
   /\ no_setter (set_opt_set_fan 0xaa sample_voltage) = false)
  /\ getters (fst (our_turn write_all (set_opt_set_fan 0xaa sample_voltage)))
     = getters (set_opt_set_fan 0xaa sample_voltage).
Proof.
  assert (Hp : past_bootstrap (set_opt_set_fan 0xaa sample_voltage)).
  { split; [by_eval | reflexivity]. }
  split; [split; [exact Hp | reflexivity]|].
  apply (setters_before_getters write_all
           (set_opt_set_fan 0xaa sample_voltage) Hp eq_refl).
Defined.

(** Party mode for 30 minutes. *)
Lemma party_duration_then_enable_witness :
  (past_bootstrap (set_opt_set_party 30 sample_ready)
   /\ opt_set_party (set_opt_set_party 30 sample_ready) = 30)
  /\ writes (snd (our_turn write_all (set_opt_set_party 30 sample_ready)))
     = [[0x13; 1; 3; 0x11; 30; 0; 0x47]].
Proof.
  assert (Hp : past_bootstrap (set_opt_set_party 30 sample_ready)).
  { split; [by_eval | reflexivity]. }
  split; [split; [exact Hp | reflexivity]|].
  destruct (party_duration_then_enable write_all
              (set_opt_set_party 30 sample_ready) 30 Hp) as (_ & H & _).
  - split; [by_eval | reflexivity].
  - reflexivity.
  - reflexivity.
  - reflexivity.
  - reflexivity.
  - lia.
  - lia.
  - lia.
  - exact H.
Defined.

(** Quiet mode for 30 minutes. *)
Lemma quiet_duration_then_enable_witness :
  (past_bootstrap (set_opt_set_quiet 30 sample_ready)
   /\ opt_set_quiet (set_opt_set_quiet 30 sample_ready) = 30)
  /\ writes (snd (our_turn write_all (set_opt_set_quiet 30 sample_ready)))
     = [[0x13; 1; 3; 0x56; 30; 0; 0x8c]].
Proof.
  assert (Hp : past_bootstrap (set_opt_set_quiet 30 sample_ready)).
  { split; [by_eval | reflexivity]. }
  split; [split; [exact Hp | reflexivity]|].
  destruct (quiet_duration_then_enable write_all
              (set_opt_set_quiet 30 sample_ready) 30 Hp) as (_ & H & _).
  - split; [by_eval | reflexivity].
  - reflexivity.
  - reflexivity.
  - reflexivity.
  - reflexivity.
  - reflexivity.
  - lia.
  - lia.
  - lia.
  - exact H.
Defined.

(** Manual level 2, as [-f m:2] asks for it. *)
Lemma fan_manual_level_two_steps_witness :
  (past_bootstrap (set_opt_set_fan 0x102 sample_ready)
   /\ opt_set_fan (set_opt_set_fan 0x102 sample_ready) = 0x100 + 2)
  /\ map writes (snd (turns write_all 2 (set_opt_set_fan 0x102 sample_ready)))
     = [ [[0x13; 1; 3; 0x35; 0xaa; 0x00; 0xf7]];
         [[0x13; 1; 3; 0x35; 0x02; 0xbb; 0x0a]] ].
Proof.
  assert (Hp : past_bootstrap (set_opt_set_fan 0x102 sample_ready)).
  { split; [by_eval | reflexivity]. }
  split; [split; [exact Hp | reflexivity]|].
  destruct (fan_manual_level_two_steps write_all
              (set_opt_set_fan 0x102 sample_ready) 2 Hp)
    as (H1 & Hw1 & H2 & Hw2).
  - split; [by_eval | reflexivity].
  - reflexivity.
  - reflexivity.
  - lia.
  - reflexivity.
  - cbn [turns]. rewrite H1, H2. cbn [snd map].
    rewrite H1 in Hw1. rewrite H2 in Hw2. cbn [snd] in Hw1, Hw2.
    rewrite Hw1, Hw2. reflexivity.
Defined.

(** The idle object in loop mode. *)
Lemma loop_mode_never_terminates_witness :
  opt_do_loop sample_ready = true
  /\ _terminate (fst (our_turn write_all sample_ready)) = false.
Proof.
  split; [reflexivity|].
  rewrite (loop_mode_never_terminates write_all sample_ready eq_refl).
  reflexivity.
Defined.

(** The read-out on the sample object. *)
Lemma get_all_sequence_witness :
  (1 <= our_cnt sample_get_all /\ no_setter sample_get_all = true
   /\ opt_do_loop sample_get_all = false)
  /\ length (snd (turns write_all 17 sample_get_all)) = 17%nat
  /\ _terminate (fst (our_turn write_all
                        (fst (turns write_all 17 sample_get_all)))) = true.
Proof.
  split; [split; [by_eval | split; reflexivity]|].
  destruct (get_all_sequence write_all sample_get_all) as (Hw & _ & _ & Ht).
  - by_eval.
  - by_eval.
  - reflexivity.
  - reflexivity.
  - reflexivity.
  - reflexivity.
  - split; [|exact Ht].
    apply (f_equal length) in Hw. rewrite length_map in Hw. exact Hw.
Defined.

(** Voltages 3.0 V and 5.0 V. *)
Lemma volume_flow_monotone_witness :
  (0 <= 30 /\ 30 <= 50 /\ 50 < 256)
  /\ volume_flow 30 <= volume_flow 50.
Proof.
  split; [lia|].
  apply (volume_flow_monotone 30 50); lia.
Defined.


Lemma last_status_repeats_broadcast_witness :
  (_is_valid (Paket.new_paket sample_broadcast 27) = true
   /\ at8 sample_broadcast 2 = 23)
  /\ head (snd (print_last_status
                  (fst (got_frame 30000000 sample_broadcast 27 Kwl_init))))
     = Some (Stdout "status" [2; 15; 10; 26; 13; 37; 1; 2; 0]).
Proof.
  split; [split; reflexivity|].
  apply (last_status_repeats_broadcast 30000000 sample_broadcast Kwl_init);
    reflexivity.
Defined.


(** The start that asks for the help text. *)
Lemma main_returns_scan_options_code_witness :
  (0 <= env_uart_open sample_env_help /\ 0 < env_lock_open sample_env_help
   /\ env_uart_setup sample_env_help = true)
  /\ fst (fst (main write_all sample_env_help)) = 2
  /\ snd (main write_all sample_env_help) = env_events sample_env_help.
Proof.
  split; [split; [by_eval | split; [by_eval | reflexivity]]|].
  destruct (main_returns_scan_options_code write_all sample_env_help)
    as [Hcode _].
  - by_eval.
  - by_eval.
  - reflexivity.
  - rewrite Hcode by by_eval. split; reflexivity.
Defined.

(** The key at bypass reading 195. *)
Lemma bypass_key_toggles_then_reads_witness :
  ev_key1 sample_key_b = 98
  /\ map writes
       (snd (turns write_all 2
               (fst (fst (interactive_keys sample_key_b
                            (set_bypass 195 sample_ready))))))
     = [ [[0x13; 1; 3; 0x1e; 0x18; 0x01; 0x4f]];
         [[0x13; 0; 1; 0x1e; 0x33]] ].
Proof.
  split; [reflexivity|].
  destruct (bypass_key_toggles_then_reads write_all sample_key_b
              (set_bypass 195 sample_ready) eq_refl) as (_ & _ & _ & H).
  rewrite H.
  - reflexivity.
  - split; [by_eval | reflexivity].
  - split; [by_eval | reflexivity].
  - reflexivity.
  - by_eval.
Defined.

(** The reading 19.5 degrees from device 0x10. *)
Lemma snapshot_value_roundtrip_witness :
  (0x10 <= 0x10 <= 0x13 /\ 0 <= 195 < 65536)
  /\ _bypass (fst (got_frame 30000000
                     [0x10; 1; 3; 0x1e; 0xc3; 0x00; 0xf6] 7 Kwl_init)) = 195.
Proof.
  split; [lia|].
  apply (snapshot_value_roundtrip 30000000 0x10 195 Kwl_init); lia.
Defined.
